(** * wecom-task-bot: task lifecycle, calendar mapping and task service

    A shallow embedding of
      - backend/src/services/task-lifecycle.js  (pure lifecycle rules),
      - backend/src/services/calendar-mapping.js (sync targets),
      - the task service, required as [./task] (it stands in
        backend/src/services/sync.js after the sync orchestrator): state
        transitions, reconciliation of external schedules, reminders,
        tasks made by hand, calls by id and by card,
      - the sync orchestrator [SyncService] (the head of sync.js) and
        the login URL builders (its tail, required as
        [./auth-login-url]),
    together with the properties the specification states about them
    and further properties of the code.

    JavaScript values are an inductive type; numbers are binary64 floats
    (the kernel's primitive floats); strings are UTF-8 byte strings.  The host
    primitives whose algorithms live outside the repository (printing and
    reading numbers, [Date.parse], [JSON.parse], SQLite's [datetime]) are
    fields of a class or section variables: every theorem holds for all
    of them.  The calls of [logWithTrace] write to the console and touch
    no state; they are left out. *)

From Stdlib Require Import ZArith List String Ascii Bool Lia Floats Uint63.
Import ListNotations.

Set Warnings "-inexact-float,-register-all".

Local Open Scope string_scope.
Local Open Scope Z_scope.

(* ================================================================== *)
(** * Strings *)

Module Str.

(** ECMAScript's WhiteSpace and LineTerminator sets, which
    [String.prototype.trim] strips, as the UTF-8 byte sequences of their
    members (a string is the UTF-8 byte string of the JavaScript string).

    One byte: TAB, LF, VT, FF, CR (U+0009..U+000D) and SP (U+0020). *)
Definition ws1 (c : ascii) : bool :=
  let n := nat_of_ascii c in
  ((9 <=? n) && (n <=? 13) || (n =? 32))%nat.

(** Two bytes: NBSP, U+00A0 = C2 A0. *)
Definition ws2 (c1 c2 : ascii) : bool :=
  ((nat_of_ascii c1 =? 194) && (nat_of_ascii c2 =? 160))%nat.

(** Three bytes: U+1680 = E1 9A 80; U+2000..U+200A = E2 80 80..8A;
    U+2028 = E2 80 A8; U+2029 = E2 80 A9; U+202F = E2 80 AF;
    U+205F = E2 81 9F; U+3000 = E3 80 80; U+FEFF = EF BB BF. *)
Definition ws3 (c1 c2 c3 : ascii) : bool :=
  let n1 := nat_of_ascii c1 in
  let n2 := nat_of_ascii c2 in
  let n3 := nat_of_ascii c3 in
  ((n1 =? 225) && (n2 =? 154) && (n3 =? 128)
   || (n1 =? 226) && (n2 =? 128)
      && ((128 <=? n3) && (n3 <=? 138)
          || (n3 =? 168) || (n3 =? 169) || (n3 =? 175))
   || (n1 =? 226) && (n2 =? 129) && (n3 =? 159)
   || (n1 =? 227) && (n2 =? 128) && (n3 =? 128)
   || (n1 =? 239) && (n2 =? 187) && (n3 =? 191))%nat.

(** The string without its leading white space characters. *)
Fixpoint ltrim (s : string) : string :=
  match s with
  | EmptyString => EmptyString
  | String c1 s1 =>
      if ws1 c1 then ltrim s1
      else
        match s1 with
        | EmptyString => s
        | String c2 s2 =>
            if ws2 c1 c2 then ltrim s2
            else
              match s2 with
              | EmptyString => s
              | String c3 s3 => if ws3 c1 c2 c3 then ltrim s3 else s
              end
        end
  end.

(** A string of white space characters only. *)
Definition blank (s : string) : bool :=
  match ltrim s with EmptyString => true | _ => false end.

(** The string without its trailing white space characters: it ends
    where what is left is white space only. *)
Fixpoint rtrim (s : string) : string :=
  match s with
  | EmptyString => EmptyString
  | String c s' => if blank s then EmptyString else String c (rtrim s')
  end.

(** [String.prototype.trim] *)
Definition trim (s : string) : string := rtrim (ltrim s).

(** [s === ''] is JavaScript's only falsy string. *)
Definition nonempty (s : string) : bool :=
  match s with EmptyString => false | _ => true end.

(** [String.prototype.split] on a one-character separator: always at
    least one piece. *)
Fixpoint split (sep : ascii) (s : string) : list string :=
  match s with
  | EmptyString => [EmptyString]
  | String c s' =>
      if Ascii.eqb c sep then EmptyString :: split sep s'
      else match split sep s' with
           | [] => [String c EmptyString]
           | p :: ps => String c p :: ps
           end
  end.

(** [String.prototype.indexOf] on a one-character needle; [None] is -1. *)
Fixpoint indexOf (c : ascii) (s : string) : option nat :=
  match s with
  | EmptyString => None
  | String d s' =>
      if Ascii.eqb d c then Some O
      else match indexOf c s' with
           | Some i => Some (S i)
           | None => None
           end
  end.

(** [String.prototype.includes] on a one-character needle. *)
Definition includes (c : ascii) (s : string) : bool :=
  match indexOf c s with Some _ => true | None => false end.

(** [s.slice(0, n)] and [s.slice(n)] for [0 <= n]. *)
Fixpoint take (n : nat) (s : string) : string :=
  match n, s with
  | S n', String c s' => String c (take n' s')
  | _, _ => EmptyString
  end.

Fixpoint drop (n : nat) (s : string) : string :=
  match n, s with
  | S n', String _ s' => drop n' s'
  | _, _ => s
  end.

(** [Array.prototype.join] *)
Fixpoint join (sep : string) (l : list string) : string :=
  match l with
  | [] => EmptyString
  | [x] => x
  | x :: rest => x ++ sep ++ join sep rest
  end.

End Str.

(* ================================================================== *)
(** * JavaScript values *)

(** An object is the list of its own enumerable properties in
    enumeration order; a key occurs once. *)
Inductive jsval : Type :=
| JUndefined
| JNull
| JBool (b : bool)
| JNum (x : float)
| JStr (s : string)
| JArr (items : list jsval)
| JObj (props : list (string * jsval)).

(** The host primitives the services call and the repository does not
    define. *)
Class Host : Type := {
  (** [Number::toString]: [String(x)] for a number. *)
  Number_toString : float -> string;
  (** [StringToNumber]: [Number(s)] for a string. *)
  String_toNumber : string -> float;
  (** [Date.parse]: the time value of [new Date(s)] in milliseconds,
      [None] for an Invalid Date (time value NaN). *)
  Date_parse : string -> option Z
}.

Module Js.

(** ToBoolean *)
Definition truthy (v : jsval) : bool :=
  match v with
  | JUndefined | JNull => false
  | JBool b => b
  | JNum x => negb (PrimFloat.eqb x 0%float || PrimFloat.is_nan x)
  | JStr s => Str.nonempty s
  | JArr _ | JObj _ => true
  end.

Definition nullish (v : jsval) : bool :=
  match v with JUndefined | JNull => true | _ => false end.

Fixpoint assoc (k : string) (props : list (string * jsval)) : jsval :=
  match props with
  | [] => JUndefined
  | (k', v) :: rest => if String.eqb k k' then v else assoc k rest
  end.

(** [o.k] for the property names the services read (none of them is a
    built-in property of strings or arrays): the property of an object,
    [undefined] on every other value.  On [null] and [undefined]
    JavaScript raises a TypeError instead; the embedded code reads a
    property either behind a guard [o && o.k] or from a value already
    known to be an object, and the functions whose first read is
    unguarded say so. *)
Definition get (o : jsval) (k : string) : jsval :=
  match o with
  | JObj props => assoc k props
  | _ => JUndefined
  end.

(** [a || b] and [a && b] *)
Definition or (a b : jsval) : jsval := if truthy a then a else b.
Definition and (a b : jsval) : jsval := if truthy a then b else a.

(** [Array.isArray(v) ? v : []] *)
Definition arrayOrEmpty (v : jsval) : list jsval :=
  match v with JArr l => l | _ => [] end.

Section WithHost.
Context {H : Host}.

(** [String(v)] (ToString); an array joins its elements with commas,
    [null] and [undefined] elements printing as the empty string. *)
Fixpoint toString (v : jsval) : string :=
  match v with
  | JUndefined => "undefined"
  | JNull => "null"
  | JBool true => "true"
  | JBool false => "false"
  | JNum x => Number_toString x
  | JStr s => s
  | JArr l =>
      Str.join ","
        (map (fun e => if nullish e then EmptyString else toString e) l)
  | JObj _ => "[object Object]"
  end.

(** [Number(v)] (ToNumber); arrays and plain objects go through their
    string form. *)
Definition toNumber (v : jsval) : float :=
  match v with
  | JUndefined => PrimFloat.nan
  | JNull => 0%float
  | JBool true => 1%float
  | JBool false => 0%float
  | JNum x => x
  | JStr s => String_toNumber s
  | JArr _ | JObj _ => String_toNumber (toString v)
  end.

End WithHost.
End Js.

(* ================================================================== *)
(** * task-lifecycle.js *)

(** TASK_STATUS *)
Module TASK_STATUS.
Definition PENDING : string := "PENDING".
Definition WAITING_VERIFY : string := "WAITING_VERIFY".
Definition COMPLETED : string := "COMPLETED".
End TASK_STATUS.

(** REMINDER_KIND: the three values [getReminderKind] returns and
    [shouldSendReminder] takes. *)
Inductive ReminderKind : Type := NONE | DUE_SOON | OVERDUE.

Module REMINDER_KIND.
Definition str (k : ReminderKind) : string :=
  match k with
  | NONE => "NONE"
  | DUE_SOON => "DUE_SOON"
  | OVERDUE => "OVERDUE"
  end.
Definition eqb (a b : ReminderKind) : bool :=
  match a, b with
  | NONE, NONE | DUE_SOON, DUE_SOON | OVERDUE, OVERDUE => true
  | _, _ => false
  end.
End REMINDER_KIND.

Section Lifecycle.
Context {H : Host}.

(** normalizeText *)
Fixpoint normalizeText (value : jsval) : string :=
  match value with
  | JArr [] => EmptyString
  | JArr (first :: _) => normalizeText first
  | JUndefined | JNull => EmptyString
  | _ => Str.trim (Js.toString value)
  end.

(** The first-occurrence order of [new Set(...)] / [Array.from]. *)
Fixpoint uniq (l : list string) : list string :=
  match l with
  | [] => []
  | x :: rest =>
      x :: filter (fun y => negb (String.eqb y x)) (uniq rest)
  end.

(** parseGlobalVerifiers *)
Definition parseGlobalVerifiers (rawValue : jsval) : list string :=
  let normalized := normalizeText rawValue in
  if negb (Str.nonempty normalized) then []
  else
    uniq (filter Str.nonempty
            (map (fun item => normalizeText (JStr item))
                 (Str.split "," normalized))).

(** toDateOrNull: the time value of the parsed date, [None] for null. *)
Definition toDateOrNull (value : jsval) : option Z :=
  let normalized := normalizeText value in
  if negb (Str.nonempty normalized) then None
  else Date_parse normalized.

(** canUserCompleteTask *)
Definition canUserCompleteTask (task userId : jsval) : bool :=
  if negb (Js.truthy task) then false
  else
    let normalizedUserId := normalizeText userId in
    let executorId := normalizeText (Js.get task "executor_userid") in
    let status := normalizeText (Js.get task "status") in
    Str.nonempty normalizedUserId
    && Str.nonempty executorId
    && String.eqb normalizedUserId executorId
    && String.eqb status TASK_STATUS.PENDING.

(** canUserVerifyTask *)
Definition canUserVerifyTask (task userId globalVerifiers : jsval) : bool :=
  if negb (Js.truthy task) then false
  else
    let normalizedUserId := normalizeText userId in
    let creatorId := normalizeText (Js.get task "creator_userid") in
    let status := normalizeText (Js.get task "status") in
    let verifierSet :=
      filter Str.nonempty (map normalizeText (Js.arrayOrEmpty globalVerifiers)) in
    if negb (Str.nonempty normalizedUserId)
       || negb (String.eqb status TASK_STATUS.WAITING_VERIFY)
    then false
    else String.eqb normalizedUserId creatorId
         || existsb (String.eqb normalizedUserId) verifierSet.

Definition DAY_MS : Z := 24 * 60 * 60 * 1000.

(** getReminderKind; [now] is the time value of the (valid) date. *)
Definition getReminderKind (task : jsval) (now : Z) : ReminderKind :=
  if negb (Js.truthy task)
     || negb (String.eqb (normalizeText (Js.get task "status")) TASK_STATUS.PENDING)
  then NONE
  else
    match toDateOrNull (Js.get task "end_time") with
    | None => NONE
    | Some endTime =>
        let diffMs := endTime - now in
        if diffMs <? 0 then OVERDUE
        else if diffMs <=? DAY_MS then DUE_SOON
        else NONE
    end.

(** shouldSendReminder; the default [cooldownHours] is 12. *)
Definition shouldSendReminder (task : jsval) (reminderKind : ReminderKind)
    (now : Z) (cooldownHours : Z) : bool :=
  if negb (Js.truthy task) || REMINDER_KIND.eqb reminderKind NONE then false
  else
    let previousKind := normalizeText (Js.get task "last_reminder_kind") in
    if negb (Str.nonempty previousKind)
       || negb (String.eqb previousKind (REMINDER_KIND.str reminderKind))
    then true
    else
      match toDateOrNull (Js.get task "last_reminder_at") with
      | None => true
      | Some previousReminderAt =>
          let elapsedMs := now - previousReminderAt in
          cooldownHours * 60 * 60 * 1000 <=? elapsedMs
      end.

(** isTaskOverdue *)
Definition isTaskOverdue (task : jsval) (now : Z) : bool :=
  match toDateOrNull (Js.and task (Js.get task "end_time")) with
  | None => false
  | Some endTime =>
      if negb (Js.truthy task) then false
      else if String.eqb (normalizeText (Js.get task "status")) TASK_STATUS.COMPLETED
      then false
      else endTime <? now
  end.

(** isTaskDueSoon *)
Definition isTaskDueSoon (task : jsval) (now : Z) : bool :=
  match toDateOrNull (Js.and task (Js.get task "end_time")) with
  | None => false
  | Some endTime =>
      if negb (Js.truthy task) then false
      else if negb (String.eqb (normalizeText (Js.get task "status")) TASK_STATUS.PENDING)
      then false
      else
        let diffMs := endTime - now in
        (0 <=? diffMs) && (diffMs <=? DAY_MS)
  end.

(** The [options] argument of [mapTaskRowToApi]; [opt_now] is [Some]
    when [options.now] is a Date. *)
Record MapOptions : Type := {
  opt_now : option Z;
  opt_currentUserId : jsval;
  opt_globalVerifiers : jsval
}.

(** The object [mapTaskRowToApi] returns: the row's own properties
    ([...row]) and the five computed ones. *)
Record ApiTask : Type := {
  api_row : jsval;
  api_redo_count : float;
  can_complete : bool;
  can_verify : bool;
  is_due_soon : bool;
  is_overdue : bool
}.

(** mapTaskRowToApi; [clock] is the time value of [new Date()].  The
    read [row.redo_count] is unguarded: [None] is the TypeError on a
    null or undefined row. *)
Definition mapTaskRowToApi (clock : Z) (row : jsval) (options : MapOptions)
  : option ApiTask :=
  let now := match opt_now options with Some d => d | None => clock end in
  let currentUserId := JStr (normalizeText (opt_currentUserId options)) in
  let globalVerifiers := JArr (Js.arrayOrEmpty (opt_globalVerifiers options)) in
  if Js.nullish row then None
  else Some {|
    api_row := row;
    api_redo_count := Js.toNumber (Js.or (Js.get row "redo_count") (JNum 0%float));
    can_complete := canUserCompleteTask row currentUserId;
    can_verify := canUserVerifyTask row currentUserId globalVerifiers;
    is_due_soon := isTaskDueSoon row now;
    is_overdue := isTaskOverdue row now
  |}.

(** The integer closest to [m * 2^e * 100], the larger one of two:
    the digits [Number.prototype.toFixed(2)] prints for the binary64
    value [m * 2^e]. *)
Definition hundredths (m : positive) (e : Z) : Z :=
  if 0 <=? e then Zpos m * 2 ^ e * 100
  else (200 * Zpos m + 2 ^ (- e)) / 2 ^ (- e + 1).

(** [Number(x.toFixed(2))]: the binary64 value closest to the printed
    decimal, which is the correctly rounded quotient of the two integers
    [hundredths] and 100. *)
Definition toFixed2 (x : float) : float :=
  match Prim2SF x with
  | S754_zero _ => 0%float
  | S754_finite s m e =>
      match hundredths m e with
      | Zpos n =>
          SF2Prim (SFdiv prec emax (S754_finite s n 0) (S754_finite false 100 0))
      | _ => if s then PrimFloat.neg_zero else 0%float
      end
  | _ => x
  end.

(** The number value of an array length (below 2^32). *)
Definition num_of_nat (n : nat) : float :=
  PrimFloat.of_uint63 (Uint63.of_Z (Z.of_nat n)).

Definition count (f : jsval -> bool) (l : list jsval) : nat :=
  List.length (filter f l).

(** The object [buildTaskKpi] returns. *)
Record TaskKpi : Type := {
  total_tasks : nat;
  completed_tasks : nat;
  waiting_verify_tasks : nat;
  overdue_tasks : nat;
  due_soon_tasks : nat;
  completion_rate : float;
  on_time_rate : float
}.

Definition hasStatus (status : string) (item : jsval) : bool :=
  String.eqb (normalizeText (Js.get item "status")) status.

(** The filter that counts [onTimeCompletedCount]. *)
Definition completedOnTime (item : jsval) : bool :=
  if negb (hasStatus TASK_STATUS.COMPLETED item) then false
  else
    match toDateOrNull (Js.or (Js.get item "completion_time") (Js.get item "verify_time")),
          toDateOrNull (Js.get item "end_time") with
    | Some completionTime, Some endTime => completionTime <=? endTime
    | _, _ => false
    end.

(** buildTaskKpi.  The first filter reads [item.status] unguarded:
    [None] is the TypeError on a null or undefined element. *)
Definition buildTaskKpi (rows : jsval) (now : Z) : option TaskKpi :=
  let taskRows := Js.arrayOrEmpty rows in
  let totalCount := List.length taskRows in
  let completedCount := count (hasStatus TASK_STATUS.COMPLETED) taskRows in
  let waitingVerifyCount := count (hasStatus TASK_STATUS.WAITING_VERIFY) taskRows in
  let overdueCount := count (fun item => isTaskOverdue item now) taskRows in
  let dueSoonCount := count (fun item => isTaskDueSoon item now) taskRows in
  let onTimeCompletedCount := count completedOnTime taskRows in
  let completionRate :=
    if (0 <? totalCount)%nat
    then toFixed2 (num_of_nat completedCount / num_of_nat totalCount * 100)%float
    else 0%float in
  let onTimeRate :=
    if (0 <? completedCount)%nat
    then toFixed2 (num_of_nat onTimeCompletedCount / num_of_nat completedCount * 100)%float
    else 0%float in
  if existsb Js.nullish taskRows then None
  else Some {|
    total_tasks := totalCount;
    completed_tasks := completedCount;
    waiting_verify_tasks := waitingVerifyCount;
    overdue_tasks := overdueCount;
    due_soon_tasks := dueSoonCount;
    completion_rate := completionRate;
    on_time_rate := onTimeRate
  |}.

End Lifecycle.

(* ================================================================== *)
(** * calendar-mapping.js *)

(** The normalized mapping [{ user_id, cal_id, source }]. *)
Record CalendarMapping : Type := {
  user_id : string;
  cal_id : string;
  source : string
}.

(** The JavaScript object of a mapping record. *)
Definition mapping_js (m : CalendarMapping) : jsval :=
  JObj [("user_id", JStr (user_id m));
        ("cal_id", JStr (cal_id m));
        ("source", JStr (source m))].

(** The [options] of [buildSyncCalendarTargets]; an absent property is
    [JUndefined]. *)
Record CalendarOptions : Type := {
  defaultCalId : jsval;
  userCalendarMapRaw : jsval;
  userCalendarRows : jsval
}.

Section CalendarMapping.
Context {H : Host}.

(** [JSON.parse]; [None] when it throws. *)
Variable JSON_parse : string -> option jsval.

(** [a || b] on strings. *)
Definition strOr (a b : string) : string :=
  if Str.nonempty a then a else b.

(** toCalendarMappingRecord; [None] is [null]. *)
Definition toCalendarMappingRecord (input : jsval) (fallbackSource : string)
  : option CalendarMapping :=
  let userId :=
    normalizeText
      (Js.and input
         (Js.or (Js.get input "user_id")
         (Js.or (Js.get input "userid")
         (Js.or (Js.get input "userId")
         (Js.or (Js.get input "user")
                (Js.get input "organizer")))))) in
  let calId :=
    normalizeText
      (Js.and input
         (Js.or (Js.get input "cal_id")
         (Js.or (Js.get input "calId")
         (Js.or (Js.get input "calendar_id")
                (Js.get input "calendarId"))))) in
  let source :=
    strOr (normalizeText (Js.and input (Js.get input "source"))) fallbackSource in
  if negb (Str.nonempty calId) then None
  else Some {| user_id := userId; cal_id := calId; source := source |}.

(** [.filter((item) => item && item.user_id)] after a [map] to records. *)
Definition keepWithUser (l : list (option CalendarMapping)) : list CalendarMapping :=
  flat_map (fun item =>
              match item with
              | Some r => if Str.nonempty (user_id r) then [r] else []
              | None => []
              end) l.

Definition envRecord (userId calId : jsval) : option CalendarMapping :=
  toCalendarMappingRecord
    (JObj [("user_id", userId); ("cal_id", calId); ("source", JStr "env_map")])
    "env_map".

(** parseUserCalendarMapFromJson; [None] when [JSON.parse] throws. *)
Definition parseUserCalendarMapFromJson (normalizedRaw : string)
  : option (list CalendarMapping) :=
  match JSON_parse normalizedRaw with
  | None => None
  | Some (JArr parsed) =>
      Some (keepWithUser (map (fun item => toCalendarMappingRecord item "env_map") parsed))
  | Some (JObj entries) =>
      Some (keepWithUser
              (map (fun '(userId, calId) => envRecord (JStr userId) calId) entries))
  | Some _ => Some []
  end.

(** The body of the [map] callback of [parseUserCalendarMapFromPairs]. *)
Definition parsePair (item : string) : option CalendarMapping :=
  let separatorIndex :=
    if Str.includes ":" item then Str.indexOf ":" item else Str.indexOf "=" item in
  match separatorIndex with
  | None | Some O => None
  | Some i =>
      let userId := normalizeText (JStr (Str.take i item)) in
      let calId := normalizeText (JStr (Str.drop (S i) item)) in
      envRecord (JStr userId) (JStr calId)
  end.

(** parseUserCalendarMapFromPairs *)
Definition parseUserCalendarMapFromPairs (normalizedRaw : string)
  : list CalendarMapping :=
  keepWithUser
    (map parsePair
       (filter Str.nonempty
          (map (fun item => normalizeText (JStr item))
               (Str.split "," normalizedRaw)))).

(** [Map.prototype.set]: a new key goes last, a known key keeps its
    place and takes the new value. *)
Fixpoint mapSet (k : string) (v : CalendarMapping)
    (m : list (string * CalendarMapping)) : list (string * CalendarMapping) :=
  match m with
  | [] => [(k, v)]
  | (k', v') :: rest =>
      if String.eqb k k' then (k, v) :: rest else (k', v') :: mapSet k v rest
  end.

(** The body of the [forEach] of [mergeCalendarMappingsByUser]. *)
Definition mergeStep (merged : list (string * CalendarMapping)) (row : jsval)
  : list (string * CalendarMapping) :=
  match toCalendarMappingRecord row
          (strOr (normalizeText (Js.and row (Js.get row "source"))) "db") with
  | Some normalized =>
      if Str.nonempty (user_id normalized)
      then mapSet (user_id normalized) normalized merged
      else merged
  | None => merged
  end.

(** mergeCalendarMappingsByUser *)
Definition mergeCalendarMappingsByUser (rows : jsval) : list CalendarMapping :=
  map snd (fold_left mergeStep (Js.arrayOrEmpty rows) []).

(** The [forEach] of [deduplicateCalendarTargetsByCalId], from the set
    [seenCalIds] on. *)
Fixpoint dedupFrom (seenCalIds : list string) (targets : list jsval)
  : list CalendarMapping :=
  match targets with
  | [] => []
  | target :: rest =>
      match toCalendarMappingRecord target
              (strOr (normalizeText (Js.and target (Js.get target "source"))) "default") with
      | Some normalized =>
          if existsb (String.eqb (cal_id normalized)) seenCalIds
          then dedupFrom seenCalIds rest
          else normalized :: dedupFrom (cal_id normalized :: seenCalIds) rest
      | None => dedupFrom seenCalIds rest
      end
  end.

(** deduplicateCalendarTargetsByCalId *)
Definition deduplicateCalendarTargetsByCalId (targets : jsval) : list CalendarMapping :=
  dedupFrom [] (Js.arrayOrEmpty targets).

(** parseUserCalendarMap *)
Definition parseUserCalendarMap (rawValue : jsval) : list CalendarMapping :=
  let normalizedRaw := normalizeText rawValue in
  if negb (Str.nonempty normalizedRaw) then []
  else
    let parsedRows :=
      match normalizedRaw with
      | String "{" _ | String "[" _ =>
          match parseUserCalendarMapFromJson normalizedRaw with
          | Some rows => rows
          | None => parseUserCalendarMapFromPairs normalizedRaw
          end
      | _ => parseUserCalendarMapFromPairs normalizedRaw
      end in
    mergeCalendarMappingsByUser (JArr (map mapping_js parsedRows)).

(** The list [mergedByUser] of [buildSyncCalendarTargets]. *)
Definition mergedByUser (options : CalendarOptions) : list CalendarMapping :=
  let envMapRows := parseUserCalendarMap (userCalendarMapRaw options) in
  let dbRows :=
    mergeCalendarMappingsByUser (Js.or (userCalendarRows options) (JArr [])) in
  mergeCalendarMappingsByUser (JArr (map mapping_js (envMapRows ++ dbRows)%list)).

(** The target pushed for the default calendar. *)
Definition defaultTarget (calId : string) : CalendarMapping :=
  {| user_id := EmptyString; cal_id := calId; source := "default" |}.

(** buildSyncCalendarTargets *)
Definition buildSyncCalendarTargets (options : CalendarOptions) : list CalendarMapping :=
  let defaultCalId := normalizeText (defaultCalId options) in
  let targets :=
    deduplicateCalendarTargetsByCalId (JArr (map mapping_js (mergedByUser options))) in
  let targets :=
    if Str.nonempty defaultCalId then (targets ++ [defaultTarget defaultCalId])%list
    else targets in
  deduplicateCalendarTargetsByCalId (JArr (map mapping_js targets)).

End CalendarMapping.

(* ================================================================== *)
(** * The tasks table (models/db.js) *)

Module Db.

(** A row of [tasks]: TEXT and DATETIME columns hold a string or NULL,
    INTEGER columns an integer or NULL. *)
Record TaskRow : Type := {
  id : Z;
  wecom_schedule_id : option string;
  title : option string;
  description : option string;
  creator_userid : option string;
  executor_userid : option string;
  owner_userid : option string;
  owner_cal_id : option string;
  start_time : option string;
  end_time : option string;
  status : option string;
  completion_time : option string;
  verify_time : option string;
  reject_reason : option string;
  redo_count : option Z;
  last_reminder_at : option string;
  last_reminder_kind : option string;
  completed_by_userid : option string;
  verified_by_userid : option string;
  updated_at : option string;
  created_at : option string
}.

(** The number value of an INTEGER column, exact below 2^53. *)
Definition num_of_Z (z : Z) : float :=
  if z <? 0 then PrimFloat.opp (PrimFloat.of_uint63 (Uint63.of_Z (- z)))
  else PrimFloat.of_uint63 (Uint63.of_Z z).

Definition text_js (v : option string) : jsval :=
  match v with Some s => JStr s | None => JNull end.

Definition int_js (v : option Z) : jsval :=
  match v with Some z => JNum (num_of_Z z) | None => JNull end.

(** The object [db.get] / [db.all] hand to JavaScript for a row. *)
Definition row_js (r : TaskRow) : jsval :=
  JObj [("id", JNum (num_of_Z (id r)));
        ("wecom_schedule_id", text_js (wecom_schedule_id r));
        ("title", text_js (title r));
        ("description", text_js (description r));
        ("creator_userid", text_js (creator_userid r));
        ("executor_userid", text_js (executor_userid r));
        ("owner_userid", text_js (owner_userid r));
        ("owner_cal_id", text_js (owner_cal_id r));
        ("start_time", text_js (start_time r));
        ("end_time", text_js (end_time r));
        ("status", text_js (status r));
        ("completion_time", text_js (completion_time r));
        ("verify_time", text_js (verify_time r));
        ("reject_reason", text_js (reject_reason r));
        ("redo_count", int_js (redo_count r));
        ("last_reminder_at", text_js (last_reminder_at r));
        ("last_reminder_kind", text_js (last_reminder_kind r));
        ("completed_by_userid", text_js (completed_by_userid r));
        ("verified_by_userid", text_js (verified_by_userid r));
        ("updated_at", text_js (updated_at r));
        ("created_at", text_js (created_at r))].

(** [WHERE wecom_schedule_id = ?]: NULL matches nothing. *)
Definition hasScheduleId (sid : string) (r : TaskRow) : bool :=
  match wecom_schedule_id r with
  | Some s => String.eqb s sid
  | None => false
  end.

(** [WHERE ... AND status = ?] *)
Definition hasStatus (st : string) (r : TaskRow) : bool :=
  match status r with
  | Some s => String.eqb s st
  | None => false
  end.

(** [UPDATE tasks SET ... WHERE ...]: the new rows and [this.changes]. *)
Definition update (where_ : TaskRow -> bool) (set : TaskRow -> TaskRow)
    (rows : list TaskRow) : list TaskRow * nat :=
  (map (fun r => if where_ r then set r else r) rows,
   List.length (filter where_ rows)).

(** The SET clause of the approval in [verifyTask]. *)
Definition setApproved (managerId nowSql : string) (r : TaskRow) : TaskRow :=
  {|
     id := id r;
     wecom_schedule_id := wecom_schedule_id r;
     title := title r;
     description := description r;
     creator_userid := creator_userid r;
     executor_userid := executor_userid r;
     owner_userid := owner_userid r;
     owner_cal_id := owner_cal_id r;
     start_time := start_time r;
     end_time := end_time r;
     status := Some TASK_STATUS.COMPLETED;
     completion_time := completion_time r;
     verify_time := Some nowSql;
     reject_reason := None;
     redo_count := redo_count r;
     last_reminder_at := last_reminder_at r;
     last_reminder_kind := last_reminder_kind r;
     completed_by_userid := completed_by_userid r;
     verified_by_userid := Some managerId;
     updated_at := Some nowSql;
     created_at := created_at r
  |}.

(** The SET clause of the rejection in [verifyTask];
    [COALESCE(redo_count, 0) + 1] on SQLite's integers, far from
    their 64-bit bound. *)
Definition setRejected (managerId reason nowSql : string) (r : TaskRow) : TaskRow :=
  {|
     id := id r;
     wecom_schedule_id := wecom_schedule_id r;
     title := title r;
     description := description r;
     creator_userid := creator_userid r;
     executor_userid := executor_userid r;
     owner_userid := owner_userid r;
     owner_cal_id := owner_cal_id r;
     start_time := start_time r;
     end_time := end_time r;
     status := Some TASK_STATUS.PENDING;
     completion_time := completion_time r;
     verify_time := Some nowSql;
     reject_reason := Some reason;
     redo_count := Some (match redo_count r with Some n => n | None => 0 end + 1);
     last_reminder_at := last_reminder_at r;
     last_reminder_kind := last_reminder_kind r;
     completed_by_userid := completed_by_userid r;
     verified_by_userid := Some managerId;
     updated_at := Some nowSql;
     created_at := created_at r
  |}.

(** The SET clause of [dispatchTaskReminder]. *)
Definition setReminded (kind nowSql : string) (r : TaskRow) : TaskRow :=
  {|
     id := id r;
     wecom_schedule_id := wecom_schedule_id r;
     title := title r;
     description := description r;
     creator_userid := creator_userid r;
     executor_userid := executor_userid r;
     owner_userid := owner_userid r;
     owner_cal_id := owner_cal_id r;
     start_time := start_time r;
     end_time := end_time r;
     status := status r;
     completion_time := completion_time r;
     verify_time := verify_time r;
     reject_reason := reject_reason r;
     redo_count := redo_count r;
     last_reminder_at := Some nowSql;
     last_reminder_kind := Some kind;
     completed_by_userid := completed_by_userid r;
     verified_by_userid := verified_by_userid r;
     updated_at := Some nowSql;
     created_at := created_at r
  |}.

End Db.

(* ================================================================== *)
(** * The task service ([TaskService], required as [./task]) *)

(** The [config] handed to [wecom.sendTemplateCard]. *)
Module Card.
Record t : Type := {
  touser : string;
  task_id : jsval;
  title : string;
  description : string;
  sub_title : string;
  details : list (string * string);
  buttons : list (string * string)
}.
End Card.

(** What a call throws: a [TaskOperationError] or the constraint error
    of an INSERT. *)
Inductive Exn : Type :=
| TaskOperationError (code message : string) (statusCode : Z)
| SqliteConstraint.

Inductive Outcome (A : Type) : Type :=
| Returned (a : A)
| Thrown (e : Exn).
Arguments Returned {A} a.
Arguments Thrown {A} e.

(** The table with its AUTOINCREMENT counter, and the cards delivered
    so far (the latest first). *)
Record World : Type := {
  rows : list Db.TaskRow;
  seq : Z;
  outbox : list Card.t
}.

(** What a call takes from its surroundings: the clock as
    [new Date().getTime()] and as SQLite's [datetime('now')], and
    whether the request of [wecom.sendTemplateCard] made during the call
    resolves or rejects. *)
Record Env : Type := {
  clock_ms : Z;
  clock_sql : string;
  net_ok : bool
}.

(** The three ends of [sendExecutorActionCard]: the early return for an
    empty recipient, a delivered card, a rejected request. *)
Inductive SendResult : Type :=
| NoRecipient
| Delivered (c : Card.t)
| SendFailed.

(** The [taskPayload] of [syncScheduleTask]. *)
Record TaskPayload : Type := {
  p_wecom_schedule_id : string;
  p_title : string;
  p_description : string;
  p_creator_userid : string;
  p_executor_userid : string;
  p_owner_userid : string;
  p_start_time : float;
  p_end_time : float;
  p_owner_cal_id : string
}.

(** The object [syncScheduleTask] resolves to. *)
Record SyncResult : Type := {
  inserted : bool;
  updated : bool;
  skipped : bool;
  reason : option string;
  task : option Db.TaskRow
}.

(** The object [verifyTask] resolves to. *)
Record VerifyResult : Type := {
  v_message : string;
  v_task : option Db.TaskRow
}.

(** The object [dispatchTaskReminder] resolves to. *)
Record ReminderResult : Type := {
  sent : bool;
  kind : ReminderKind
}.

Section TaskService.
Context {H : Host}.

(** SQLite's [datetime(x, 'unixepoch')] of a bound number: a text, or
    NULL out of its range. *)
Variable datetime_unixepoch : float -> option string.

(** [process.env.GLOBAL_VERIFIERS || ''] *)
Variable GLOBAL_VERIFIERS : string.

(** [a || b] where [a] is a string or [undefined]. *)
Definition orUndefined (a : option string) (b : string) : string :=
  match a with
  | Some s => if Str.nonempty s then s else b
  | None => b
  end.

(** getGlobalVerifiers *)
Definition getGlobalVerifiers : list string :=
  parseGlobalVerifiers (JStr GLOBAL_VERIFIERS).

(** getTaskByScheduleId *)
Definition getTaskByScheduleId (w : World) (wecomScheduleId : string)
  : option Db.TaskRow :=
  find (Db.hasScheduleId wecomScheduleId) (rows w).

(** listPendingTasks *)
Definition listPendingTasks (w : World) : list Db.TaskRow :=
  filter (Db.hasStatus TASK_STATUS.PENDING) (rows w).

(** sendExecutorActionCard *)
Definition sendExecutorActionCard (env : Env) (task : jsval)
    (title description : string) (buttons : list (string * string)) : SendResult :=
  let touser := normalizeText (Js.get task "executor_userid") in
  if negb (Str.nonempty touser) then NoRecipient
  else if net_ok env then
    Delivered {|
      Card.touser := touser;
      Card.task_id := Js.get task "wecom_schedule_id";
      Card.title := title;
      Card.description := description;
      Card.sub_title := normalizeText (Js.get task "title");
      Card.details := [("截止时间", normalizeText (Js.get task "end_time"))];
      Card.buttons := buttons
    |}
  else SendFailed.

(** A delivered card joins the outbox; nothing else changes. *)
Definition afterSend (w : World) (r : SendResult) : World :=
  match r with
  | Delivered c => {| rows := rows w; seq := seq w; outbox := c :: outbox w |}
  | NoRecipient | SendFailed => w
  end.

(** sendVerificationResultCard *)
Definition sendVerificationResultCard (env : Env) (task : jsval)
    (isApproved : bool) (rejectReason : string) : SendResult :=
  let message :=
    if isApproved
    then "🎉 任务 [" ++ Js.toString (Js.get task "title") ++ "] 已通过验收。"
    else "⚠️ 任务 [" ++ Js.toString (Js.get task "title") ++ "] 被驳回："
         ++ strOr rejectReason "请补充后重新提交" in
  sendExecutorActionCard env task
    (if isApproved then "任务闭环通知" else "任务驳回通知")
    message
    (if isApproved then [] else [("ACTION_COMPLETE", "再次提交")]).

(** ensureTaskForVerify: [None] when it returns, [Some e] when it
    throws [e]. *)
Definition ensureTaskForVerify (task : option Db.TaskRow) (userId : jsval)
  : option Exn :=
  match task with
  | None => Some (TaskOperationError "TASK_NOT_FOUND" "任务不存在" 404)
  | Some t =>
      if negb (canUserVerifyTask (Db.row_js t) userId
                 (JArr (map JStr getGlobalVerifiers)))
      then Some (TaskOperationError "TASK_VERIFY_FORBIDDEN"
                   "当前用户无验收权限或状态不正确" 403)
      else None
  end.

(** The conditional UPDATE of [verifyTask]
    ([WHERE wecom_schedule_id = ? AND status = 'WAITING_VERIFY']): the
    new rows and the number of rows changed. *)
Definition verifyUpdate (env : Env) (rws : list Db.TaskRow)
    (wecomScheduleId : string) (managerId : jsval) (isApproved : bool)
    (rejectReason : jsval) : list Db.TaskRow * nat :=
  let normalizedReason := strOr (normalizeText rejectReason) "领导驳回" in
  Db.update
    (fun r => Db.hasScheduleId wecomScheduleId r
              && Db.hasStatus TASK_STATUS.WAITING_VERIFY r)
    (if isApproved
     then Db.setApproved (normalizeText managerId) (clock_sql env)
     else Db.setRejected (normalizeText managerId) normalizedReason (clock_sql env))
    rws.

(** [verifyTask] from its UPDATE on: everything after the permission
    check, which is where another call can have run in between. *)
Definition verifyCommit (env : Env) (w : World) (wecomScheduleId : string)
    (managerId : jsval) (isApproved : bool) (rejectReason : jsval)
  : World * Outcome VerifyResult :=
  let normalizedReason := strOr (normalizeText rejectReason) "领导驳回" in
  let '(rows', changes) :=
    verifyUpdate env (rows w) wecomScheduleId managerId isApproved rejectReason in
  let w1 := {| rows := rows'; seq := seq w; outbox := outbox w |} in
  if (changes =? 0)%nat
  then (w1, Thrown (TaskOperationError "TASK_STATUS_CONFLICT"
                      "任务状态已变更，请刷新后重试" 409))
  else
    let updatedTask := getTaskByScheduleId w1 wecomScheduleId in
    let w2 :=
      match updatedTask with
      | Some t =>
          afterSend w1
            (sendVerificationResultCard env (Db.row_js t) isApproved normalizedReason)
      | None => w1
      end in
    (w2, Returned {|
           v_message := if isApproved then "任务已验收通过" else "任务已驳回并退回执行";
           v_task := updatedTask
         |}).

(** verifyTask *)
Definition verifyTask (env : Env) (w : World) (wecomScheduleId : string)
    (managerId : jsval) (isApproved : bool) (rejectReason : jsval)
  : World * Outcome VerifyResult :=
  match ensureTaskForVerify (getTaskByScheduleId w wecomScheduleId) managerId with
  | Some e => (w, Thrown e)
  | None => verifyCommit env w wecomScheduleId managerId isApproved rejectReason
  end.

(** The creator expression of [syncScheduleTask] and [pickExecutor]:
    [(schedule.organizer && schedule.organizer.userid)
     || schedule.organizer || schedule.creator_userid], normalized. *)
Definition organizerOf (schedule : jsval) : string :=
  normalizeText
    (Js.or (Js.or (Js.and (Js.get schedule "organizer")
                          (Js.get (Js.get schedule "organizer") "userid"))
                  (Js.get schedule "organizer"))
           (Js.get schedule "creator_userid")).

(** The list [attendeeUserIds] of [pickExecutor]. *)
Definition attendeeUserIds (schedule : jsval) : list string :=
  let attendees :=
    match Js.get schedule "attendees" with
    | JArr l => l
    | _ => Js.arrayOrEmpty (Js.get schedule "attendee")
    end in
  filter Str.nonempty
    (map (fun item => normalizeText (Js.or (Js.and item (Js.get item "userid")) item))
         attendees).

(** pickExecutor.  The read [schedule.organizer] is unguarded; its one
    caller passes a schedule whose [schedule_id] is not empty, which no
    null or undefined value has. *)
Definition pickExecutor (schedule : jsval) : string :=
  let organizer := organizerOf schedule in
  let ids := attendeeUserIds schedule in
  let primaryAttendee := find (fun item => negb (String.eqb item organizer)) ids in
  orUndefined primaryAttendee (orUndefined (hd_error ids) organizer).

(** The [taskPayload] object. *)
Definition taskPayload (scheduleId : string) (schedule calendarContext : jsval)
  : TaskPayload :=
  let executorUserId := pickExecutor schedule in
  {| p_wecom_schedule_id := scheduleId;
     p_title := strOr (normalizeText (Js.get schedule "summary")) "未命名任务";
     p_description := normalizeText (Js.get schedule "description");
     p_creator_userid := organizerOf schedule;
     p_executor_userid := executorUserId;
     p_owner_userid :=
       strOr (normalizeText (Js.get calendarContext "user_id")) executorUserId;
     p_start_time := Js.toNumber (Js.or (Js.get schedule "start_time") (JNum 0%float));
     p_end_time := Js.toNumber (Js.or (Js.get schedule "end_time") (JNum 0%float));
     p_owner_cal_id :=
       normalizeText
         (Js.or (Js.or (Js.get schedule "cal_id") (Js.get schedule "calendar_id"))
                (Js.get calendarContext "cal_id")) |}.

(** The row the INSERT of [syncScheduleTask] creates: the listed
    columns, the defaults of the others. *)
Definition insertedRow (newId : Z) (nowSql : string) (p : TaskPayload) : Db.TaskRow :=
  {|
     Db.id := newId;
     Db.wecom_schedule_id := Some (p_wecom_schedule_id p);
     Db.title := Some (p_title p);
     Db.description := Some (p_description p);
     Db.creator_userid := Some (p_creator_userid p);
     Db.executor_userid := Some (p_executor_userid p);
     Db.owner_userid := Some (p_owner_userid p);
     Db.owner_cal_id := Some (p_owner_cal_id p);
     Db.start_time := datetime_unixepoch (p_start_time p);
     Db.end_time := datetime_unixepoch (p_end_time p);
     Db.status := Some TASK_STATUS.PENDING;
     Db.completion_time := None;
     Db.verify_time := None;
     Db.reject_reason := None;
     Db.redo_count := Some 0;
     Db.last_reminder_at := None;
     Db.last_reminder_kind := None;
     Db.completed_by_userid := None;
     Db.verified_by_userid := None;
     Db.updated_at := Some nowSql;
     Db.created_at := Some nowSql
  |}.

(** The INSERT: [None] is the error of the UNIQUE constraint on
    [wecom_schedule_id], raised when a row of the table has the schedule
    id already. *)
Definition insertTask (env : Env) (w : World) (p : TaskPayload) : option World :=
  if existsb (Db.hasScheduleId (p_wecom_schedule_id p)) (rows w) then None
  else Some {| rows := (rows w ++ [insertedRow (seq w + 1) (clock_sql env) p])%list;
               seq := seq w + 1;
               outbox := outbox w |}.

(** The SET clause of the UPDATE of [syncScheduleTask]. *)
Definition setSynced (nowSql : string) (p : TaskPayload) (r : Db.TaskRow) : Db.TaskRow :=
  {|
     Db.id := Db.id r;
     Db.wecom_schedule_id := Db.wecom_schedule_id r;
     Db.title := Some (p_title p);
     Db.description := Some (p_description p);
     Db.creator_userid := Some (p_creator_userid p);
     Db.executor_userid := Some (p_executor_userid p);
     Db.owner_userid := Some (p_owner_userid p);
     Db.owner_cal_id := Some (p_owner_cal_id p);
     Db.start_time := datetime_unixepoch (p_start_time p);
     Db.end_time := datetime_unixepoch (p_end_time p);
     Db.status := Db.status r;
     Db.completion_time := Db.completion_time r;
     Db.verify_time := Db.verify_time r;
     Db.reject_reason := Db.reject_reason r;
     Db.redo_count := Db.redo_count r;
     Db.last_reminder_at := Db.last_reminder_at r;
     Db.last_reminder_kind := Db.last_reminder_kind r;
     Db.completed_by_userid := Db.completed_by_userid r;
     Db.verified_by_userid := Db.verified_by_userid r;
     Db.updated_at := Some nowSql;
     Db.created_at := Db.created_at r
  |}.

Definition skipResult (why : string) : SyncResult :=
  {| inserted := false; updated := false; skipped := true;
     reason := Some why; task := None |}.

(** What [syncScheduleTask] does once its SELECT has answered
    [existing]: the INSERT or the UPDATE, and what follows them, on the
    table [w] they find. *)
Definition syncScheduleWrite (env : Env) (w : World) (scheduleId : string)
    (p : TaskPayload) (existing : option Db.TaskRow) : World * Outcome SyncResult :=
  match existing with
  | None =>
      match insertTask env w p with
      | None => (w, Thrown SqliteConstraint)
      | Some w1 =>
          let insertedTask := getTaskByScheduleId w1 scheduleId in
          let w2 :=
            match insertedTask with
            | Some t =>
                afterSend w1
                  (sendExecutorActionCard env (Db.row_js t)
                     "📌 新任务待执行"
                     ("请按日程完成任务：" ++ Js.toString (Js.get (Db.row_js t) "title"))
                     [("ACTION_COMPLETE", "我已完成")])
            | None => w1
            end in
          (w2, Returned {| inserted := true; updated := false; skipped := false;
                           reason := None; task := insertedTask |})
      end
  | Some _ =>
      let '(rows', _) :=
        Db.update (Db.hasScheduleId scheduleId) (setSynced (clock_sql env) p) (rows w) in
      let w1 := {| rows := rows'; seq := seq w; outbox := outbox w |} in
      (w1, Returned {| inserted := false; updated := true; skipped := false;
                       reason := None;
                       task := getTaskByScheduleId w1 scheduleId |})
  end.

(** syncScheduleTask, with the table of its SELECT and the table of
    its write told apart: the SELECT of [getTaskByScheduleId] is awaited
    before the INSERT or the UPDATE, outside any transaction, so a call
    that overlaps can have written in between.  [seen] is the table the
    SELECT reads, [w] the table the write finds.  No catch stands around
    the INSERT: its error is thrown to the caller.  [calendarContext] is
    the properties of the context object (sync passes a calendar target,
    the default is the empty object). *)
Definition syncScheduleTaskOverlapped (env : Env) (seen w : World) (schedule : jsval)
    (calendarContext : list (string * jsval)) : World * Outcome SyncResult :=
  let scheduleId := normalizeText (Js.and schedule (Js.get schedule "schedule_id")) in
  if negb (Str.nonempty scheduleId)
  then (w, Returned (skipResult "missing_schedule_id"))
  else
    let p := taskPayload scheduleId schedule (JObj calendarContext) in
    if negb (Str.nonempty (p_creator_userid p))
       || negb (Str.nonempty (p_executor_userid p))
    then (w, Returned (skipResult "missing_creator_or_executor"))
    else syncScheduleWrite env w scheduleId p (getTaskByScheduleId seen scheduleId).

(** syncScheduleTask, for a call that no other call overlaps: the
    write finds the table the SELECT read. *)
Definition syncScheduleTask (env : Env) (w : World) (schedule : jsval)
    (calendarContext : list (string * jsval)) : World * Outcome SyncResult :=
  syncScheduleTaskOverlapped env w w schedule calendarContext.

(** The UPDATE of [dispatchTaskReminder] ([WHERE id = ?]). *)
Definition stampReminder (env : Env) (w : World) (reminderKind : ReminderKind)
    (taskId : Z) : World :=
  {| rows :=
       fst (Db.update (fun r => Db.id r =? taskId)
              (Db.setReminded (REMINDER_KIND.str reminderKind) (clock_sql env))
              (rows w));
     seq := seq w;
     outbox := outbox w |}.

(** dispatchTaskReminder; [task] is the row the caller read (sync
    passes the rows of [listPendingTasks]). *)
Definition dispatchTaskReminder (env : Env) (w : World) (task : Db.TaskRow)
  : World * ReminderResult :=
  let reminderKind := getReminderKind (Db.row_js task) (clock_ms env) in
  if negb (shouldSendReminder (Db.row_js task) reminderKind (clock_ms env) 12)
  then (w, {| sent := false; kind := reminderKind |})
  else
    let reminderDescription :=
      if REMINDER_KIND.eqb reminderKind OVERDUE
      then "任务已逾期，请尽快处理：" ++ Js.toString (Js.get (Db.row_js task) "title")
      else "任务将在24小时内到期，请及时处理：" ++ Js.toString (Js.get (Db.row_js task) "title") in
    match sendExecutorActionCard env (Db.row_js task)
            (if REMINDER_KIND.eqb reminderKind OVERDUE
             then "⏰ 任务逾期提醒" else "🕒 任务到期提醒")
            reminderDescription
            [("ACTION_COMPLETE", "我已完成")] with
    | SendFailed => (w, {| sent := false; kind := reminderKind |})
    | r =>
        (stampReminder env (afterSend w r) reminderKind (Db.id task),
         {| sent := true; kind := reminderKind |})
    end.

End TaskService.

(* ================================================================== *)
(** * The task service: submitting for verification *)

(** The SET clause of the UPDATE of [submitForVerification]. *)
Definition setSubmitted (executorId nowSql : string) (r : Db.TaskRow) : Db.TaskRow :=
  {|
     Db.id := Db.id r;
     Db.wecom_schedule_id := Db.wecom_schedule_id r;
     Db.title := Db.title r;
     Db.description := Db.description r;
     Db.creator_userid := Db.creator_userid r;
     Db.executor_userid := Db.executor_userid r;
     Db.owner_userid := Db.owner_userid r;
     Db.owner_cal_id := Db.owner_cal_id r;
     Db.start_time := Db.start_time r;
     Db.end_time := Db.end_time r;
     Db.status := Some TASK_STATUS.WAITING_VERIFY;
     Db.completion_time := Some nowSql;
     Db.verify_time := Db.verify_time r;
     Db.reject_reason := None;
     Db.redo_count := Db.redo_count r;
     Db.last_reminder_at := Db.last_reminder_at r;
     Db.last_reminder_kind := Db.last_reminder_kind r;
     Db.completed_by_userid := Some executorId;
     Db.verified_by_userid := Db.verified_by_userid r;
     Db.updated_at := Some nowSql;
     Db.created_at := Db.created_at r
  |}.

Section TaskSubmit.
Context {H : Host}.

(** [process.env.GLOBAL_VERIFIERS || ''] *)
Variable GLOBAL_VERIFIERS : string.

(** buildVerifierRecipients *)
Definition buildVerifierRecipients (task : jsval) : string :=
  Str.join "|"
    (uniq (filter Str.nonempty
             (normalizeText (Js.get task "creator_userid")
              :: getGlobalVerifiers GLOBAL_VERIFIERS))).

(** sendVerifierCard *)
Definition sendVerifierCard (env : Env) (task : jsval) : SendResult :=
  let touser := buildVerifierRecipients task in
  if negb (Str.nonempty touser) then NoRecipient
  else if net_ok env then
    Delivered {|
      Card.touser := touser;
      Card.task_id := Js.get task "wecom_schedule_id";
      Card.title := "✅ 任务验收请求";
      Card.description :=
        Js.toString (Js.get task "executor_userid") ++ " 已提交任务，等待验收";
      Card.sub_title := normalizeText (Js.get task "title");
      Card.details := [("任务状态", "待验收")];
      Card.buttons := [("ACTION_PASS", "确认通过"); ("ACTION_REJECT", "驳回重做")]
    |}
  else SendFailed.

(** ensureTaskForComplete: [None] when it returns, [Some e] when it
    throws [e]. *)
Definition ensureTaskForComplete (task : option Db.TaskRow) (userId : jsval)
  : option Exn :=
  match task with
  | None => Some (TaskOperationError "TASK_NOT_FOUND" "任务不存在" 404)
  | Some t =>
      if negb (canUserCompleteTask (Db.row_js t) userId)
      then Some (TaskOperationError "TASK_COMPLETE_FORBIDDEN"
                   "仅执行人可提交待执行任务" 403)
      else None
  end.

(** The conditional UPDATE of [submitForVerification]
    ([WHERE wecom_schedule_id = ? AND status = 'PENDING']). *)
Definition submitUpdate (env : Env) (rws : list Db.TaskRow)
    (wecomScheduleId : string) (executorId : jsval) : list Db.TaskRow * nat :=
  Db.update
    (fun r => Db.hasScheduleId wecomScheduleId r
              && Db.hasStatus TASK_STATUS.PENDING r)
    (setSubmitted (normalizeText executorId) (clock_sql env))
    rws.

(** [submitForVerification] from its UPDATE on. *)
Definition submitCommit (env : Env) (w : World) (wecomScheduleId : string)
    (executorId : jsval) : World * Outcome VerifyResult :=
  let '(rows', changes) := submitUpdate env (rows w) wecomScheduleId executorId in
  let w1 := {| rows := rows'; seq := seq w; outbox := outbox w |} in
  if (changes =? 0)%nat
  then (w1, Thrown (TaskOperationError "TASK_STATUS_CONFLICT"
                      "任务状态已变更，请刷新后重试" 409))
  else
    let updatedTask := getTaskByScheduleId w1 wecomScheduleId in
    let w2 :=
      match updatedTask with
      | Some t => afterSend w1 (sendVerifierCard env (Db.row_js t))
      | None => w1
      end in
    (w2, Returned {| v_message := "任务已提交验收"; v_task := updatedTask |}).

(** submitForVerification; it resolves to [{ message, task }], the
    shape of [verifyTask]'s result. *)
Definition submitForVerification (env : Env) (w : World) (wecomScheduleId : string)
    (executorId : jsval) : World * Outcome VerifyResult :=
  match ensureTaskForComplete (getTaskByScheduleId w wecomScheduleId) executorId with
  | Some e => (w, Thrown e)
  | None => submitCommit env w wecomScheduleId executorId
  end.

End TaskSubmit.

(* ================================================================== *)
(** * calendar-mapping.js: the calendar of a user *)

Section CalendarResolve.
Context {H : Host}.

(** [JSON.parse]; [None] when it throws. *)
Variable JSON_parse : string -> option jsval.

(** resolveCalendarIdByUser.  Of the entries of
    [new Map(mappingRows.map(...))] with one key the last one counts. *)
Definition resolveCalendarIdByUser (userId : jsval) (options : CalendarOptions)
  : string :=
  let normalizedUserId := normalizeText userId in
  let defaultCalId := normalizeText (defaultCalId options) in
  if negb (Str.nonempty normalizedUserId) then defaultCalId
  else
    let mappingRows :=
      mergeCalendarMappingsByUser
        (JArr (map mapping_js (parseUserCalendarMap JSON_parse (userCalendarMapRaw options))
               ++ Js.arrayOrEmpty (userCalendarRows options))) in
    match find (fun item => String.eqb (user_id item) normalizedUserId)
               (rev mappingRows) with
    | Some item => cal_id item
    | None => defaultCalId
    end.

End CalendarResolve.

(* ================================================================== *)
(** * The sync service ([SyncService]) *)

(** How an awaited request of [wecom] ends: it resolves to the parsed
    body of the response, or it rejects with an error of that message. *)
Inductive Response : Type :=
| Resolved (data : jsval)
| Rejected (message : string).

(** The [error.message] that [syncSchedules] reports: the message of a
    rejected request, or the message the engine gives the TypeError of
    a property read on [null] or [undefined]. *)
Inductive ErrorMessage : Type :=
| Message (message : string)
| ReadOfNullish.

(** [v === 0], the test behind [errcode !== 0]. *)
Definition isZero (v : jsval) : bool :=
  match v with
  | JNum x => PrimFloat.eqb x 0%float
  | _ => false
  end.

(** SameValueZero, the equality of [Set.prototype.has].  The values
    compared are read from one parsed response each, where two objects or
    arrays are never the same object. *)
Definition sameValueZero (a b : jsval) : bool :=
  match a, b with
  | JUndefined, JUndefined => true
  | JNull, JNull => true
  | JBool x, JBool y => Bool.eqb x y
  | JNum x, JNum y =>
      PrimFloat.eqb x y || (PrimFloat.is_nan x && PrimFloat.is_nan y)
  | JStr x, JStr y => String.eqb x y
  | _, _ => false
  end.

(** An entry of [summary.calendar_errors]; [None] is a property the
    entry does not have. *)
Module CalendarError.
Record t : Type := {
  user_id : string;
  cal_id : string;
  reason : string;
  errcode : option jsval;
  errmsg : option jsval
}.
End CalendarError.

(** The [summary] of [syncSchedules]. *)
Module Summary.
Record t : Type := {
  success : bool;
  calendar_count : nat;
  calendar_success_count : nat;
  calendar_failed_count : nat;
  calendar_errors : list CalendarError.t;
  schedule_count : nat;
  unique_schedule_count : nat;
  inserted_count : nat;
  updated_count : nat;
  skipped_count : nat;
  reminder_sent_count : nat
}.
End Summary.

(** What [syncSchedules] resolves to: the object of the early return,
    the summary, or the object of the [catch]. *)
Inductive SyncReport : Type :=
| MissingCalendarTargets
| SyncSummary (summary : Summary.t)
| SyncException (message : ErrorMessage).

(** What [dispatchDateReminders] resolves to. *)
Record ReminderSummary : Type := {
  sent_count : nat;
  checked_count : nat
}.

(** The two variables of [process.env] the service reads; [None] is a
    variable that is not set. *)
Record ProcessEnv : Type := {
  DEFAULT_CAL_ID : option string;
  USER_CALENDAR_MAP : option string
}.

(** The fields of the service object. *)
Record SyncService : Type := {
  this_defaultCalId : string;
  this_userCalendarMapRaw : string
}.

(** The state of the loops of [syncSchedules]: the table, the number of
    calls made to WeCom and to the task service so far, the set
    [processedScheduleIds] (the latest first) and the summary. *)
Record Progress : Type := {
  world : World;
  tick : nat;
  processedScheduleIds : list jsval;
  summary : Summary.t
}.

(** [summary.calendar_failed_count += 1; summary.calendar_errors.push(e)] *)
Definition failCalendar (e : CalendarError.t) (s : Summary.t) : Summary.t :=
  {| Summary.success := Summary.success s;
     Summary.calendar_count := Summary.calendar_count s;
     Summary.calendar_success_count := Summary.calendar_success_count s;
     Summary.calendar_failed_count := S (Summary.calendar_failed_count s);
     Summary.calendar_errors := (Summary.calendar_errors s ++ [e])%list;
     Summary.schedule_count := Summary.schedule_count s;
     Summary.unique_schedule_count := Summary.unique_schedule_count s;
     Summary.inserted_count := Summary.inserted_count s;
     Summary.updated_count := Summary.updated_count s;
     Summary.skipped_count := Summary.skipped_count s;
     Summary.reminder_sent_count := Summary.reminder_sent_count s |}.

(** [summary.calendar_success_count += 1; summary.schedule_count += n] *)
Definition openCalendar (n : nat) (s : Summary.t) : Summary.t :=
  {| Summary.success := Summary.success s;
     Summary.calendar_count := Summary.calendar_count s;
     Summary.calendar_success_count := S (Summary.calendar_success_count s);
     Summary.calendar_failed_count := Summary.calendar_failed_count s;
     Summary.calendar_errors := Summary.calendar_errors s;
     Summary.schedule_count := Summary.schedule_count s + n;
     Summary.unique_schedule_count := Summary.unique_schedule_count s;
     Summary.inserted_count := Summary.inserted_count s;
     Summary.updated_count := Summary.updated_count s;
     Summary.skipped_count := Summary.skipped_count s;
     Summary.reminder_sent_count := Summary.reminder_sent_count s |}.

(** The three counters of schedules: one of them is raised. *)
Definition countSchedule (isInserted isUpdated : bool) (s : Summary.t) : Summary.t :=
  {| Summary.success := Summary.success s;
     Summary.calendar_count := Summary.calendar_count s;
     Summary.calendar_success_count := Summary.calendar_success_count s;
     Summary.calendar_failed_count := Summary.calendar_failed_count s;
     Summary.calendar_errors := Summary.calendar_errors s;
     Summary.schedule_count := Summary.schedule_count s;
     Summary.unique_schedule_count := Summary.unique_schedule_count s;
     Summary.inserted_count :=
       if isInserted then S (Summary.inserted_count s) else Summary.inserted_count s;
     Summary.updated_count :=
       if isInserted then Summary.updated_count s
       else if isUpdated then S (Summary.updated_count s)
       else Summary.updated_count s;
     Summary.skipped_count :=
       if isInserted then Summary.skipped_count s
       else if isUpdated then Summary.skipped_count s
       else S (Summary.skipped_count s);
     Summary.reminder_sent_count := Summary.reminder_sent_count s |}.

(** The two assignments after the loops. *)
Definition closeSummary (uniqueCount sentCount : nat) (s : Summary.t) : Summary.t :=
  {| Summary.success := Summary.success s;
     Summary.calendar_count := Summary.calendar_count s;
     Summary.calendar_success_count := Summary.calendar_success_count s;
     Summary.calendar_failed_count := Summary.calendar_failed_count s;
     Summary.calendar_errors := Summary.calendar_errors s;
     Summary.schedule_count := Summary.schedule_count s;
     Summary.unique_schedule_count := uniqueCount;
     Summary.inserted_count := Summary.inserted_count s;
     Summary.updated_count := Summary.updated_count s;
     Summary.skipped_count := Summary.skipped_count s;
     Summary.reminder_sent_count := sentCount |}.

(** The summary before the loops. *)
Definition newSummary (calendarCount : nat) : Summary.t :=
  {| Summary.success := true;
     Summary.calendar_count := calendarCount;
     Summary.calendar_success_count := 0;
     Summary.calendar_failed_count := 0;
     Summary.calendar_errors := [];
     Summary.schedule_count := 0;
     Summary.unique_schedule_count := 0;
     Summary.inserted_count := 0;
     Summary.updated_count := 0;
     Summary.skipped_count := 0;
     Summary.reminder_sent_count := 0 |}.

(** The properties of a calendar target, the [calendarContext] that
    sync hands to [syncScheduleTask]. *)
Definition targetProps (t : CalendarMapping) : list (string * jsval) :=
  [("user_id", JStr (user_id t));
   ("cal_id", JStr (cal_id t));
   ("source", JStr (source t))].

Section SyncService.
Context {H : Host}.
Variable JSON_parse : string -> option jsval.
Variable datetime_unixepoch : float -> option string.

(** The answers of [wecom.getScheduleList] and [wecom.getSchedule] and
    the surroundings of the calls of the task service during a run, each
    by the number of calls made before it. *)
Variable wecom_getScheduleList : nat -> string -> Response.
Variable wecom_getSchedule : nat -> jsval -> Response.
Variable envAt : nat -> Env.

(** The constructor. *)
Definition newSyncService (penv : ProcessEnv) : SyncService :=
  {| this_defaultCalId := orUndefined (DEFAULT_CAL_ID penv) EmptyString;
     this_userCalendarMapRaw := orUndefined (USER_CALENDAR_MAP penv) EmptyString |}.

(** resolveSyncCalendarTargets *)
Definition resolveSyncCalendarTargets (this : SyncService) (penv : ProcessEnv)
  : list CalendarMapping :=
  buildSyncCalendarTargets JSON_parse
    {| defaultCalId :=
         JStr (orUndefined (DEFAULT_CAL_ID penv) (this_defaultCalId this));
       userCalendarMapRaw :=
         JStr (orUndefined (USER_CALENDAR_MAP penv) (this_userCalendarMapRaw this));
       userCalendarRows := JUndefined |}.

(** processSchedule, called as call number [n]. *)
Definition processSchedule (n : nat) (w : World) (scheduleId : jsval)
    (calendarContext : list (string * jsval)) : World * SyncResult :=
  match wecom_getSchedule n scheduleId with
  | Rejected _ => (w, skipResult "schedule_process_exception")
  | Resolved details =>
      if Js.nullish details
      then (w, skipResult "schedule_process_exception")
      else if negb (isZero (Js.get details "errcode"))
              || negb (Js.truthy (Js.get details "schedule"))
      then (w, skipResult "schedule_detail_invalid")
      else
        match syncScheduleTask datetime_unixepoch (envAt n) w
                (Js.get details "schedule") calendarContext with
        | (w', Returned result) => (w', result)
        | (w', Thrown _) => (w', skipResult "schedule_process_exception")
        end
  end.

(** The loop over the schedules of one calendar. *)
Fixpoint processSchedules (calendarTarget : CalendarMapping) (schedules : list jsval)
    (st : Progress) : Progress :=
  match schedules with
  | [] => st
  | item :: rest =>
      let scheduleId := Js.and item (Js.get item "schedule_id") in
      if negb (Js.truthy scheduleId)
         || existsb (sameValueZero scheduleId) (processedScheduleIds st)
      then
        processSchedules calendarTarget rest
          {| world := world st;
             tick := tick st;
             processedScheduleIds := processedScheduleIds st;
             summary := countSchedule false false (summary st) |}
      else
        let '(w', processResult) :=
          processSchedule (tick st) (world st) scheduleId (targetProps calendarTarget) in
        processSchedules calendarTarget rest
          {| world := w';
             tick := S (tick st);
             processedScheduleIds := scheduleId :: processedScheduleIds st;
             summary := countSchedule (inserted processResult) (updated processResult)
                          (summary st) |}
  end.

(** The loop over the calendar targets; an error message is the
    exception that ended it. *)
Fixpoint processCalendars (calendarTargets : list CalendarMapping) (st : Progress)
  : Progress * option ErrorMessage :=
  match calendarTargets with
  | [] => (st, None)
  | calendarTarget :: rest =>
      let calId := cal_id calendarTarget in
      let ownerUserId := user_id calendarTarget in
      if negb (Str.nonempty calId)
      then
        processCalendars rest
          {| world := world st;
             tick := tick st;
             processedScheduleIds := processedScheduleIds st;
             summary :=
               failCalendar
                 {| CalendarError.user_id := ownerUserId;
                    CalendarError.cal_id := EmptyString;
                    CalendarError.reason := "invalid_cal_id";
                    CalendarError.errcode := None;
                    CalendarError.errmsg := None |}
                 (summary st) |}
      else
        match wecom_getScheduleList (tick st) calId with
        | Rejected message => (st, Some (Message message))
        | Resolved scheduleListResult =>
            if Js.nullish scheduleListResult then (st, Some ReadOfNullish)
            else if negb (isZero (Js.get scheduleListResult "errcode"))
            then
              processCalendars rest
                {| world := world st;
                   tick := S (tick st);
                   processedScheduleIds := processedScheduleIds st;
                   summary :=
                     failCalendar
                       {| CalendarError.user_id := ownerUserId;
                          CalendarError.cal_id := calId;
                          CalendarError.reason := "wecom_schedule_list_failed";
                          CalendarError.errcode :=
                            Some (Js.get scheduleListResult "errcode");
                          CalendarError.errmsg :=
                            Some (Js.get scheduleListResult "errmsg") |}
                       (summary st) |}
            else
              let schedules :=
                Js.arrayOrEmpty (Js.get scheduleListResult "schedule_list") in
              processCalendars rest
                (processSchedules calendarTarget schedules
                   {| world := world st;
                      tick := S (tick st);
                      processedScheduleIds := processedScheduleIds st;
                      summary := openCalendar (List.length schedules) (summary st) |})
        end
  end.

(** The loop of [dispatchDateReminders] over the rows it read. *)
Fixpoint remindEach (pendingTasks : list Db.TaskRow) (n : nat) (w : World)
    (sentCount checkedCount : nat) : World * ReminderSummary :=
  match pendingTasks with
  | [] => (w, {| sent_count := sentCount; checked_count := checkedCount |})
  | task :: rest =>
      let '(w', result) := dispatchTaskReminder (envAt n) w task in
      remindEach rest (S n) w'
        (if sent result then S sentCount else sentCount) (S checkedCount)
  end.

(** dispatchDateReminders, its calls numbered from [n]. *)
Definition dispatchDateReminders (n : nat) (w : World) : World * ReminderSummary :=
  remindEach (listPendingTasks w) n w 0 0.

(** syncSchedules: the table it leaves and what it resolves to. *)
Definition syncSchedules (this : SyncService) (penv : ProcessEnv) (w : World)
  : World * SyncReport :=
  let calendarTargets := resolveSyncCalendarTargets this penv in
  if (List.length calendarTargets =? 0)%nat
  then (w, MissingCalendarTargets)
  else
    match processCalendars calendarTargets
            {| world := w;
               tick := 0;
               processedScheduleIds := [];
               summary := newSummary (List.length calendarTargets) |} with
    | (st, Some message) => (world st, SyncException message)
    | (st, None) =>
        let '(w', reminderResult) := dispatchDateReminders (tick st) (world st) in
        (w', SyncSummary
               (closeSummary (List.length (processedScheduleIds st))
                  (sent_count reminderResult) (summary st)))
    end.

End SyncService.

(* ================================================================== *)
(** * The task service: tasks made by hand, calls by id and by card *)

(** [String.prototype.toUpperCase] and [toLowerCase]. *)
Class CaseHost : Type := {
  String_toUpperCase : string -> string;
  String_toLowerCase : string -> string
}.

(** The [schedule] handed to [wecom.createSchedule]; an attendee is
    the [userid] of its object. *)
Module ScheduleRequest.
Record t : Type := {
  organizer : string;
  summary : string;
  description : string;
  start_time : Z;
  end_time : Z;
  attendees : list string;
  cal_id : string
}.
End ScheduleRequest.

Section TaskEntry.
Context {H : Host} {C : CaseHost}.
Variable JSON_parse : string -> option jsval.
Variable GLOBAL_VERIFIERS : string.

(** SQLite's [datetime(x)] of the text [toISOString()] of the date of
    a time value: a text, or NULL where SQLite reads no date. *)
Variable datetime_iso : Z -> option string.

(** How the request of [wecom.createSchedule] ends. *)
Variable wecom_createSchedule : ScheduleRequest.t -> Response.

(** [Date.now()] and [Math.random().toString(36).slice(2, 8)] at the
    call of [createManualScheduleId]. *)
Variable Date_now : Z.
Variable Math_random36 : string.

(** normalizeActionKey *)
Definition normalizeActionKey (selectedKey : jsval) : string :=
  String_toUpperCase (normalizeText selectedKey).

(** getTaskById; [taskId] is the integer of the number bound (a number
    that is no integer finds no row, as an integer does that is no id). *)
Definition getTaskById (w : World) (taskId : Z) : option Db.TaskRow :=
  find (fun r => Db.id r =? taskId) (rows w).

(** completeTaskById.  Under a NULL schedule id
    [getTaskByScheduleId] finds no row and [ensureTaskForComplete]
    throws. *)
Definition completeTaskById (env : Env) (w : World) (taskId : Z) (executorId : jsval)
  : World * Outcome VerifyResult :=
  match getTaskById w taskId with
  | None => (w, Thrown (TaskOperationError "TASK_NOT_FOUND" "任务不存在" 404))
  | Some task =>
      match Db.wecom_schedule_id task with
      | Some wecomScheduleId =>
          submitForVerification GLOBAL_VERIFIERS env w wecomScheduleId executorId
      | None =>
          match ensureTaskForComplete None executorId with
          | Some e => (w, Thrown e)
          | None => (w, Returned {| v_message := "任务已提交验收"; v_task := None |})
          end
      end
  end.

(** verifyTaskById *)
Definition verifyTaskById (env : Env) (w : World) (taskId : Z) (managerId : jsval)
    (isApproved : bool) (rejectReason : jsval) : World * Outcome VerifyResult :=
  match getTaskById w taskId with
  | None => (w, Thrown (TaskOperationError "TASK_NOT_FOUND" "任务不存在" 404))
  | Some task =>
      match Db.wecom_schedule_id task with
      | Some wecomScheduleId =>
          verifyTask GLOBAL_VERIFIERS env w wecomScheduleId managerId isApproved
            rejectReason
      | None =>
          match ensureTaskForVerify GLOBAL_VERIFIERS None managerId with
          | Some e => (w, Thrown e)
          | None =>
              (w, Returned {| v_message := if isApproved then "任务已验收通过"
                                           else "任务已驳回并退回执行";
                              v_task := None |})
          end
      end
  end.

(** handleInteraction *)
Definition handleInteraction (env : Env) (w : World) (payload : jsval)
  : World * Outcome VerifyResult :=
  let userId := normalizeText (Js.and payload (Js.get payload "UserID")) in
  let scheduleId := normalizeText (Js.and payload (Js.get payload "TaskId")) in
  let actionKey := normalizeActionKey (Js.and payload (Js.get payload "SelectedKey")) in
  if negb (Str.nonempty userId) || negb (Str.nonempty scheduleId)
     || negb (Str.nonempty actionKey)
  then (w, Thrown (TaskOperationError "TASK_INTERACTION_INVALID"
                     "卡片回调参数不完整" 400))
  else if String.eqb actionKey "ACTION_COMPLETE"
  then submitForVerification GLOBAL_VERIFIERS env w scheduleId (JStr userId)
  else if String.eqb actionKey "ACTION_PASS"
  then verifyTask GLOBAL_VERIFIERS env w scheduleId (JStr userId) true
         (JStr EmptyString)
  else if String.eqb actionKey "ACTION_REJECT"
  then verifyTask GLOBAL_VERIFIERS env w scheduleId (JStr userId) false
         (JStr "领导驳回")
  else (w, Thrown (TaskOperationError "TASK_INTERACTION_UNSUPPORTED"
                     "不支持的卡片动作" 400)).

(** createManualScheduleId *)
Definition createManualScheduleId : string :=
  "manual_" ++ Number_toString (Db.num_of_Z Date_now) ++ "_" ++ Math_random36.

(** parseIsoDate: the time value of the date, [None] for null. *)
Definition parseIsoDate (value : jsval) : option Z :=
  let normalized := normalizeText value in
  if negb (Str.nonempty normalized) then None
  else Date_parse normalized.

(** toUnixSeconds, of a date. *)
Definition toUnixSeconds (dateValue : Z) : Z := dateValue / 1000.

(** The row the INSERT of [createManualTask] creates: the listed
    columns, the defaults of the others. *)
Definition createdRow (newId : Z) (nowSql : string)
    (scheduleId title description creatorId executorUserId ownerUserId
       ownerCalendarId : string)
    (startTime endTime : Z) : Db.TaskRow :=
  {|
     Db.id := newId;
     Db.wecom_schedule_id := Some scheduleId;
     Db.title := Some title;
     Db.description := Some description;
     Db.creator_userid := Some creatorId;
     Db.executor_userid := Some executorUserId;
     Db.owner_userid := Some ownerUserId;
     Db.owner_cal_id := Some ownerCalendarId;
     Db.start_time := datetime_iso startTime;
     Db.end_time := datetime_iso endTime;
     Db.status := Some TASK_STATUS.PENDING;
     Db.completion_time := None;
     Db.verify_time := None;
     Db.reject_reason := None;
     Db.redo_count := Some 0;
     Db.last_reminder_at := None;
     Db.last_reminder_kind := None;
     Db.completed_by_userid := None;
     Db.verified_by_userid := None;
     Db.updated_at := Some nowSql;
     Db.created_at := Some nowSql
  |}.

(** The schedule id of the new task: the id WeCom answers with when
    the owner has a calendar and the schedule is created there, the
    generated id otherwise. *)
Definition manualScheduleId (request : ScheduleRequest.t) : string :=
  if Str.nonempty (ScheduleRequest.cal_id request)
  then
    match wecom_createSchedule request with
    | Resolved scheduleResult =>
        if Js.truthy scheduleResult
           && isZero (Js.get scheduleResult "errcode")
           && Str.nonempty (normalizeText (Js.get scheduleResult "schedule_id"))
        then normalizeText (Js.get scheduleResult "schedule_id")
        else createManualScheduleId
    | Rejected _ => createManualScheduleId
    end
  else createManualScheduleId.

(** [createManualTask] from the INSERT on. *)
Definition createCommit (env : Env) (w : World) (t : Db.TaskRow) (scheduleId : string)
  : World * Outcome VerifyResult :=
  if existsb (Db.hasScheduleId scheduleId) (rows w)
  then (w, Thrown SqliteConstraint)
  else
    let w1 := {| rows := (rows w ++ [t])%list;
                 seq := seq w + 1;
                 outbox := outbox w |} in
    let createdTask := getTaskById w1 (seq w + 1) in
    let w2 :=
      match createdTask with
      | Some created =>
          afterSend w1
            (sendExecutorActionCard env (Db.row_js created)
               "📌 新任务待执行"
               ("请按计划完成任务：" ++ Js.toString (Js.get (Db.row_js created) "title"))
               [("ACTION_COMPLETE", "我已完成")])
      | None => w1
      end in
    (w2, Returned {| v_message := "任务创建成功"; v_task := createdTask |}).

(** createManualTask; [payload] is the properties of the payload
    object (the route builds it from the request body), [penv] the two
    variables of [process.env] at the call. *)
Definition createManualTask (penv : ProcessEnv) (env : Env) (w : World)
    (payload : list (string * jsval)) (creatorUserId : jsval)
  : World * Outcome VerifyResult :=
  let title := normalizeText (Js.assoc "title" payload) in
  let description := normalizeText (Js.assoc "description" payload) in
  let executorUserId := normalizeText (Js.assoc "executor_userid" payload) in
  let startTime :=
    match parseIsoDate (Js.assoc "start_time" payload) with
    | Some date => date
    | None => clock_ms env
    end in
  let endTime := parseIsoDate (Js.assoc "end_time" payload) in
  let creatorId := normalizeText creatorUserId in
  if negb (Str.nonempty creatorId)
  then (w, Thrown (TaskOperationError "TASK_CREATOR_INVALID" "创建人不能为空" 400))
  else if negb (Str.nonempty title)
  then (w, Thrown (TaskOperationError "TASK_TITLE_REQUIRED" "任务标题不能为空" 400))
  else if negb (Str.nonempty executorUserId)
  then (w, Thrown (TaskOperationError "TASK_EXECUTOR_REQUIRED" "执行人不能为空" 400))
  else
    match endTime with
    | None =>
        (w, Thrown (TaskOperationError "TASK_END_TIME_INVALID" "截止时间格式不正确" 400))
    | Some endTime =>
        if endTime <=? startTime
        then (w, Thrown (TaskOperationError "TASK_TIME_RANGE_INVALID"
                           "截止时间必须晚于开始时间" 400))
        else
          let ownerUserId := strOr executorUserId creatorId in
          let ownerCalendarId :=
            resolveCalendarIdByUser JSON_parse (JStr ownerUserId)
              {| defaultCalId := JStr (orUndefined (DEFAULT_CAL_ID penv) EmptyString);
                 userCalendarMapRaw :=
                   JStr (orUndefined (USER_CALENDAR_MAP penv) EmptyString);
                 userCalendarRows := JUndefined |} in
          let scheduleAttendees :=
            uniq (filter Str.nonempty [executorUserId; creatorId]) in
          let scheduleId :=
            manualScheduleId
              {| ScheduleRequest.organizer := ownerUserId;
                 ScheduleRequest.summary := title;
                 ScheduleRequest.description := description;
                 ScheduleRequest.start_time := toUnixSeconds startTime;
                 ScheduleRequest.end_time := toUnixSeconds endTime;
                 ScheduleRequest.attendees := scheduleAttendees;
                 ScheduleRequest.cal_id := ownerCalendarId |} in
          createCommit env w
            (createdRow (seq w + 1) (clock_sql env) scheduleId title description
               creatorId executorUserId ownerUserId ownerCalendarId startTime endTime)
            scheduleId
    end.

End TaskEntry.

(* ================================================================== *)
(** * The login URL (auth-login-url) *)

Module LOGIN_MODE.
Definition QR : string := "QR".
Definition OAUTH : string := "OAUTH".
Definition AUTO : string := "AUTO".
End LOGIN_MODE.

Definition DEFAULT_STATE : string := "STATE".

(** Every character of the string satisfies [p]. *)
Fixpoint allChars (p : ascii -> bool) (s : string) : bool :=
  match s with
  | EmptyString => true
  | String c rest => p c && allChars p rest
  end.

(** [String.prototype.includes] on a needle that is not empty. *)
Fixpoint includesText (needle s : string) : bool :=
  String.prefix needle s
  || match s with
     | EmptyString => false
     | String _ rest => includesText needle rest
     end.

Definition isAlphanumeric (c : ascii) : bool :=
  let n := nat_of_ascii c in
  (((48 <=? n) && (n <=? 57)) || ((65 <=? n) && (n <=? 90))
   || ((97 <=? n) && (n <=? 122)))%nat.

(** The class [[a-zA-Z0-9_-]]. *)
Definition isStateChar (c : ascii) : bool :=
  isAlphanumeric c || Ascii.eqb c "_" || Ascii.eqb c "-".

(** [/^[a-zA-Z0-9_-]{1,64}$/.test(s)]; a string it accepts has one
    byte per character. *)
Definition statePattern (s : string) : bool :=
  ((1 <=? String.length s) && (String.length s <=? 64))%nat
  && allChars isStateChar s.

(** The characters the serializer of [URLSearchParams] leaves as they
    are: the alphanumerics and [*-._]. *)
Definition isFormSafe (c : ascii) : bool :=
  isAlphanumeric c || Ascii.eqb c "*" || Ascii.eqb c "-" || Ascii.eqb c "."
  || Ascii.eqb c "_".

Definition hexDigit (n : nat) : ascii :=
  ascii_of_nat (if (n <? 10)%nat then 48 + n else 55 + n).

(** The byte serializer of application/x-www-form-urlencoded: a space
    becomes [+], a byte outside the safe set its [%XX]. *)
Fixpoint formEncode (s : string) : string :=
  match s with
  | EmptyString => EmptyString
  | String c rest =>
      if isFormSafe c then String c (formEncode rest)
      else if Ascii.eqb c " " then String "+" (formEncode rest)
      else
        String "%"
          (String (hexDigit (nat_of_ascii c / 16))
             (String (hexDigit (nat_of_ascii c mod 16)) (formEncode rest)))
  end.

(** [new URLSearchParams(object).toString()] *)
Definition urlSearchParams (params : list (string * string)) : string :=
  Str.join "&" (map (fun kv => formEncode (fst kv) ++ "=" ++ formEncode (snd kv)) params).

Section AuthLoginUrl.
Context {H : Host} {C : CaseHost}.

(** normalizeLoginMode *)
Definition normalizeLoginMode (value : jsval) : string :=
  let normalized := String_toUpperCase (normalizeText value) in
  if String.eqb normalized LOGIN_MODE.QR || String.eqb normalized LOGIN_MODE.OAUTH
     || String.eqb normalized LOGIN_MODE.AUTO
  then normalized
  else LOGIN_MODE.AUTO.

(** normalizeLoginState *)
Definition normalizeLoginState (value : jsval) : string :=
  let normalized := normalizeText value in
  let valid := statePattern normalized in
  if valid then normalized else DEFAULT_STATE.

(** isWeComClientUserAgent *)
Definition isWeComClientUserAgent (userAgent : jsval) : bool :=
  let normalized := String_toLowerCase (normalizeText userAgent) in
  if negb (Str.nonempty normalized) then false
  else includesText "wxwork" normalized || includesText "wework" normalized.

(** resolveAuthLoginMode, of the three properties of its argument. *)
Definition resolveAuthLoginMode (queryMode envMode userAgent : jsval) : string :=
  let queryResolvedMode := normalizeLoginMode queryMode in
  let hasQueryMode := Str.nonempty (normalizeText queryMode) in
  let envResolvedMode := normalizeLoginMode envMode in
  let preferredMode := if hasQueryMode then queryResolvedMode else envResolvedMode in
  if String.eqb preferredMode LOGIN_MODE.QR || String.eqb preferredMode LOGIN_MODE.OAUTH
  then preferredMode
  else if isWeComClientUserAgent userAgent then LOGIN_MODE.OAUTH else LOGIN_MODE.QR.

(** buildOAuthLoginUrl *)
Definition buildOAuthLoginUrl (corpId redirectUri state : jsval) : string :=
  let params :=
    urlSearchParams
      [("appid", normalizeText corpId);
       ("redirect_uri", normalizeText redirectUri);
       ("response_type", "code");
       ("scope", "snsapi_base");
       ("state", normalizeLoginState state)] in
  "https://open.weixin.qq.com/connect/oauth2/authorize?" ++ params
  ++ "#wechat_redirect".

(** buildQrLoginUrl *)
Definition buildQrLoginUrl (corpId agentId redirectUri state : jsval) : string :=
  let params :=
    urlSearchParams
      [("appid", normalizeText corpId);
       ("agentid", normalizeText agentId);
       ("redirect_uri", normalizeText redirectUri);
       ("state", normalizeLoginState state)] in
  "https://open.work.weixin.qq.com/wwopen/sso/qrConnect?" ++ params.

(** buildAuthLoginRedirectUrl *)
Definition buildAuthLoginRedirectUrl (mode corpId agentId redirectUri state : jsval)
  : string :=
  match mode with
  | JStr "OAUTH" => buildOAuthLoginUrl corpId redirectUri state
  | _ => buildQrLoginUrl corpId agentId redirectUri state
  end.

End AuthLoginUrl.

(* ================================================================== *)
(** * A reference host

    One host to evaluate the services on concrete inputs: a process in
    the UTC time zone.  It agrees with ECMAScript and SQLite on the
    inputs named below and is total outside them; the theorems do not
    depend on it. *)

Module RefHost.

(** Days from 1970-01-01 to the civil date [y-m-d] (proleptic
    Gregorian calendar). *)
Definition days_from_civil (y m d : Z) : Z :=
  let y' := if m <=? 2 then y - 1 else y in
  let era := y' / 400 in
  let yoe := y' - era * 400 in
  let doy := (153 * (if 2 <? m then m - 3 else m + 9) + 2) / 5 + d - 1 in
  let doe := yoe * 365 + yoe / 4 - yoe / 100 + doy in
  era * 146097 + doe - 719468.

(** The civil date of a day number. *)
Definition civil_from_days (z : Z) : Z * Z * Z :=
  let z := z + 719468 in
  let era := z / 146097 in
  let doe := z - era * 146097 in
  let yoe := (doe - doe / 1460 + doe / 36524 - doe / 146096) / 365 in
  let doy := doe - (365 * yoe + yoe / 4 - yoe / 100) in
  let mp := (5 * doy + 2) / 153 in
  let d := doy - (153 * mp + 2) / 5 + 1 in
  let m := if mp <? 10 then mp + 3 else mp - 9 in
  let y := yoe + era * 400 in
  (if m <=? 2 then y + 1 else y, m, d).

Definition digit (c : ascii) : option Z :=
  let n := Z.of_nat (nat_of_ascii c) in
  if (48 <=? n) && (n <=? 57) then Some (n - 48) else None.

(** The number written by exactly [n] decimal digits, and the rest. *)
Fixpoint digits (n : nat) (acc : Z) (s : string) : option (Z * string) :=
  match n with
  | O => Some (acc, s)
  | S n' =>
      match s with
      | String c s' =>
          match digit c with
          | Some d => digits n' (10 * acc + d) s'
          | None => None
          end
      | EmptyString => None
      end
  end.

Definition expect (c : ascii) (s : string) : option string :=
  match s with
  | String d s' => if Ascii.eqb c d then Some s' else None
  | EmptyString => None
  end.

Definition bind {A B : Type} (x : option A) (f : A -> option B) : option B :=
  match x with Some a => f a | None => None end.

(** [Date.parse] on [YYYY-MM-DDTHH:mm:ss.sssZ], on the same without
    milliseconds, and on SQLite's [YYYY-MM-DD HH:MM:SS]; every other
    string reads as an Invalid Date. *)
Definition parseDate (s : string) : option Z :=
  bind (digits 4 0 s) (fun '(y, s) =>
  bind (expect "-" s) (fun s =>
  bind (digits 2 0 s) (fun '(mo, s) =>
  bind (expect "-" s) (fun s =>
  bind (digits 2 0 s) (fun '(d, s) =>
  bind (match s with
        | String c s' =>
            if Ascii.eqb c "T" || Ascii.eqb c " " then Some s' else None
        | EmptyString => None
        end) (fun s =>
  bind (digits 2 0 s) (fun '(h, s) =>
  bind (expect ":" s) (fun s =>
  bind (digits 2 0 s) (fun '(mi, s) =>
  bind (expect ":" s) (fun s =>
  bind (digits 2 0 s) (fun '(sec, s) =>
  let base :=
    ((days_from_civil y mo d * 24 + h) * 60 + mi) * 60 * 1000 + sec * 1000 in
  let ok := (1 <=? mo) && (mo <=? 12) && (1 <=? d) && (d <=? 31)
            && (h <=? 23) && (mi <=? 59) && (sec <=? 59) in
  if negb ok then None
  else
    match s with
    | EmptyString | String "Z" EmptyString => Some base
    | String "." s' =>
        match digits 3 0 s' with
        | Some (ms, EmptyString) | Some (ms, String "Z" EmptyString) =>
            Some (base + ms)
        | _ => None
        end
    | _ => None
    end))))))))))).

Definition digitChar (d : Z) : ascii := ascii_of_nat (Z.to_nat (48 + d)).

(** The decimal digits of [0 <= z], at least [width] of them. *)
Fixpoint decimal (fuel : nat) (width : nat) (z : Z) (acc : string) : string :=
  match fuel with
  | O => acc
  | S fuel' =>
      let acc' := String (digitChar (z mod 10)) acc in
      if (z / 10 =? 0) && (width <=? 1)%nat then acc'
      else decimal fuel' (Nat.pred width) (z / 10) acc'
  end.

Definition showZ (width : nat) (z : Z) : string :=
  if z <? 0 then "-" ++ decimal (width + S (Z.to_nat (Z.log2 (- z)))) width (- z) ""
  else decimal (width + S (Z.to_nat (Z.log2 z))) width z "".

(** SQLite's [YYYY-MM-DD HH:MM:SS] of a number of seconds. *)
Definition sqlDatetime (seconds : Z) : string :=
  let days := seconds / 86400 in
  let rest := seconds mod 86400 in
  let '(y, m, d) := civil_from_days days in
  showZ 4 y ++ "-" ++ showZ 2 m ++ "-" ++ showZ 2 d ++ " "
  ++ showZ 2 (rest / 3600) ++ ":" ++ showZ 2 (rest / 60 mod 60) ++ ":"
  ++ showZ 2 (rest mod 60).

(** The integer a binary64 value holds, when it holds one. *)
Definition integerOf (x : float) : option Z :=
  match Prim2SF x with
  | S754_zero _ => Some 0
  | S754_finite s m e =>
      let v := if 0 <=? e then Some (Zpos m * 2 ^ e)
               else if Zpos m mod 2 ^ (- e) =? 0 then Some (Zpos m / 2 ^ (- e))
               else None in
      match v with
      | Some z => Some (if s then - z else z)
      | None => None
      end
  | _ => None
  end.

(** [datetime(x, 'unixepoch')] on whole seconds of the years 0000 to
    9999; NULL elsewhere. *)
Definition datetime_unixepoch (x : float) : option string :=
  match integerOf x with
  | Some z =>
      if (-62167219200 <=? z) && (z <=? 253402300799)
      then Some (sqlDatetime z) else None
  | None => None
  end.

(** [Number::toString] on integers below 10^21 in magnitude, NaN and
    the infinities; the other numbers print as ["NaN"] here. *)
Definition numberToString (x : float) : string :=
  match Prim2SF x with
  | S754_infinity false => "Infinity"
  | S754_infinity true => "-Infinity"
  | _ =>
      match integerOf x with
      | Some z => if Z.abs z <? 10 ^ 21 then showZ 1 z else "NaN"
      | None => "NaN"
      end
  end.

Fixpoint allDigits (acc : Z) (s : string) : option Z :=
  match s with
  | EmptyString => Some acc
  | String c s' =>
      match digit c with
      | Some d => allDigits (10 * acc + d) s'
      | None => None
      end
  end.

(** [StringToNumber] on the empty string and on unsigned decimal
    integer literals (surrounded by white space or not); the other
    strings read as NaN here. *)
Definition stringToNumber (s : string) : float :=
  match allDigits 0 (Str.trim s) with
  | Some 0 => 0%float
  | Some z => SF2Prim (binary_normalize prec emax z 0 false)
  | None => PrimFloat.nan
  end.

#[export] Instance host : Host := {|
  Number_toString := numberToString;
  String_toNumber := stringToNumber;
  Date_parse := parseDate
|}.

End RefHost.

(** The case mappings of the reference host, on the ASCII letters. *)
Module RefCase.

Definition upperChar (c : ascii) : ascii :=
  let n := nat_of_ascii c in
  if ((97 <=? n) && (n <=? 122))%nat then ascii_of_nat (n - 32) else c.

Definition lowerChar (c : ascii) : ascii :=
  let n := nat_of_ascii c in
  if ((65 <=? n) && (n <=? 90))%nat then ascii_of_nat (n + 32) else c.

Fixpoint mapChars (f : ascii -> ascii) (s : string) : string :=
  match s with
  | EmptyString => EmptyString
  | String c rest => String (f c) (mapChars f rest)
  end.

#[export] Instance host : CaseHost := {|
  String_toUpperCase := mapChars upperChar;
  String_toLowerCase := mapChars lowerChar
|}.

(** SQLite's [datetime] of the ISO text of a time value, for the
    years it prints with four digits. *)
Definition datetime_iso (ms : Z) : option string :=
  if (-62167219200000 <=? ms) && (ms <? 253402300800000)
  then Some (RefHost.sqlDatetime (ms / 1000))
  else None.

End RefCase.

(* ================================================================== *)
(** * The vocabulary of the properties *)

(** What follows one leading white space character of a string, if it
    starts with one. *)
Definition wsRest (s : string) : option string :=
  match s with
  | EmptyString => None
  | String c1 s1 =>
      if Str.ws1 c1 then Some s1
      else
        match s1 with
        | EmptyString => None
        | String c2 s2 =>
            if Str.ws2 c1 c2 then Some s2
            else
              match s2 with
              | EmptyString => None
              | String c3 s3 => if Str.ws3 c1 c2 c3 then Some s3 else None
              end
        end
  end.

(** A string that does not start with a white space character. *)
Definition headOk (s : string) : Prop := wsRest s = None.

(** A byte that occurs in the encoding of some white space character:
    the six ASCII ones, and no other byte below 128. *)
Definition wsByte (c : ascii) : bool :=
  Str.ws1 c || (128 <=? nat_of_ascii c)%nat.

(** The rule in the specification's words: the first listed attendee
    who is not the organizer, else the first attendee, else the
    organizer. *)
Definition executorBySpec (organizer : string) (attendees : list string) : string :=
  match find (fun a => negb (String.eqb a organizer)) attendees with
  | Some a => a
  | None =>
      match attendees with
      | a :: _ => a
      | [] => organizer
      end
  end.

(** Deduplication by calendar id in the specification's words: of the
    entries that share a calendar id, only the first-encountered one
    survives. *)
Fixpoint keepFirstByCalId (l : list CalendarMapping) : list CalendarMapping :=
  match l with
  | [] => []
  | t :: rest =>
      t :: filter (fun u => negb (String.eqb (cal_id u) (cal_id t)))
             (keepFirstByCalId rest)
  end.

Definition hasCalId (x : string) (t : CalendarMapping) : bool :=
  String.eqb (cal_id t) x.

(** What [toCalendarMappingRecord] returns: trimmed fields, a calendar
    id and a source that are not empty. *)
Definition wfMapping (m : CalendarMapping) : Prop :=
  Str.trim (user_id m) = user_id m
  /\ Str.trim (cal_id m) = cal_id m
  /\ Str.nonempty (cal_id m) = true
  /\ Str.trim (source m) = source m
  /\ Str.nonempty (source m) = true.

(** The user targets followed by the default target, when a default
    calendar is configured. *)
Definition withDefault (defaultCalId : string) (targets : list CalendarMapping)
  : list CalendarMapping :=
  if Str.nonempty defaultCalId
  then (targets ++ [defaultTarget defaultCalId])%list
  else targets.

(** The columns the UPDATE of [syncScheduleTask] leaves alone: every
    column but title, description, creator, executor, owner, owner
    calendar, start time, end time and [updated_at]. *)
Definition syncFrame (r r' : Db.TaskRow) : Prop :=
  Db.id r' = Db.id r
  /\ Db.wecom_schedule_id r' = Db.wecom_schedule_id r
  /\ Db.status r' = Db.status r
  /\ Db.redo_count r' = Db.redo_count r
  /\ Db.reject_reason r' = Db.reject_reason r
  /\ Db.last_reminder_kind r' = Db.last_reminder_kind r
  /\ Db.last_reminder_at r' = Db.last_reminder_at r
  /\ Db.completion_time r' = Db.completion_time r
  /\ Db.verify_time r' = Db.verify_time r
  /\ Db.completed_by_userid r' = Db.completed_by_userid r
  /\ Db.verified_by_userid r' = Db.verified_by_userid r
  /\ Db.created_at r' = Db.created_at r.

Section VerifyClauses.
Context {H : Host}.

(** The WHERE clause and the SET clause of the UPDATE of [verifyTask]. *)
Definition verifyWhere (wecomScheduleId : string) (r : Db.TaskRow) : bool :=
  Db.hasScheduleId wecomScheduleId r && Db.hasStatus TASK_STATUS.WAITING_VERIFY r.

Definition verifySet (env : Env) (managerId : jsval) (isApproved : bool)
    (rejectReason : jsval) : Db.TaskRow -> Db.TaskRow :=
  if isApproved
  then Db.setApproved (normalizeText managerId) (clock_sql env)
  else Db.setRejected (normalizeText managerId)
         (strOr (normalizeText rejectReason) "领导驳回") (clock_sql env).

Definition TASK_STATUS_CONFLICT : Exn :=
  TaskOperationError "TASK_STATUS_CONFLICT" "任务状态已变更，请刷新后重试" 409.

End VerifyClauses.

(** [JSON.parse] of a process whose mapping is in the pairwise form,
    which never reaches it. *)
Definition noJson : string -> option jsval := fun _ => None.

(** Sample data: two clocks, two schedules, two rows. *)
Module Demo.

Definition env1 : Env :=
  {| clock_ms := 1767225600000; clock_sql := "2026-01-01 00:00:00"; net_ok := true |}.

Definition env2 : Env :=
  {| clock_ms := 1767312000000; clock_sql := "2026-01-02 00:00:00"; net_ok := true |}.

Definition emptyWorld : World := {| rows := []; seq := 0; outbox := [] |}.

(** A schedule with an organizer and one other attendee. *)
Definition weeklyReport : jsval :=
  JObj [("schedule_id", JStr "sch-2");
        ("summary", JStr "Weekly report");
        ("organizer", JObj [("userid", JStr "mgr")]);
        ("attendees", JArr [JObj [("userid", JStr "mgr")];
                            JObj [("userid", JStr "exec1")]]);
        ("start_time", JNum 1760000000%float);
        ("end_time", JNum 1760003600%float)].

(** A schedule without an organizer: the creator is empty, the
    executor is the attendee. *)
Definition loneAttendee : jsval :=
  JObj [("schedule_id", JStr "sch-1");
        ("summary", JStr "Unowned");
        ("attendees", JArr [JObj [("userid", JStr "exec1")]]);
        ("start_time", JNum 1760000000%float);
        ("end_time", JNum 1760003600%float)].

Definition row (i : Z) (sid : string) (creator executor status endTime : option string)
  : Db.TaskRow :=
  {| Db.id := i;
     Db.wecom_schedule_id := Some sid;
     Db.title := Some "Weekly report";
     Db.description := Some "";
     Db.creator_userid := creator;
     Db.executor_userid := executor;
     Db.owner_userid := executor;
     Db.owner_cal_id := Some "cal-a";
     Db.start_time := Some "2025-12-30 09:00:00";
     Db.end_time := endTime;
     Db.status := status;
     Db.completion_time := None;
     Db.verify_time := None;
     Db.reject_reason := None;
     Db.redo_count := Some 0;
     Db.last_reminder_at := None;
     Db.last_reminder_kind := None;
     Db.completed_by_userid := None;
     Db.verified_by_userid := None;
     Db.updated_at := Some "2025-12-30 08:00:00";
     Db.created_at := Some "2025-12-30 08:00:00" |}.

(** A pending, overdue task nobody executes. *)
Definition orphan : Db.TaskRow :=
  row 1 "sch-3" (Some "mgr") None (Some "PENDING") (Some "2025-12-31 10:00:00").

(** A task waiting for its verification. *)
Definition waiting : Db.TaskRow :=
  row 1 "sch-4" (Some "mgr") (Some "exec1") (Some "WAITING_VERIFY")
    (Some "2026-01-05 10:00:00").

Definition world (r : Db.TaskRow) : World :=
  {| rows := [r]; seq := Db.id r; outbox := [] |}.

End Demo.

(** White space characters outside ASCII, as byte strings, and a
    schedule whose organizer is one of them. *)
Module Blank.

(** U+00A0, NO-BREAK SPACE *)
Definition nbsp : string :=
  String (ascii_of_nat 194) (String (ascii_of_nat 160) EmptyString).

(** U+3000, IDEOGRAPHIC SPACE *)
Definition ideographic : string :=
  String (ascii_of_nat 227)
    (String (ascii_of_nat 128) (String (ascii_of_nat 128) EmptyString)).

(** U+FEFF, ZERO WIDTH NO-BREAK SPACE *)
Definition bom : string :=
  String (ascii_of_nat 239)
    (String (ascii_of_nat 187) (String (ascii_of_nat 191) EmptyString)).

Definition blankOrganizer : jsval :=
  JObj [("schedule_id", JStr "sch-8");
        ("summary", JStr "Handover");
        ("organizer", JObj [("userid", JStr ideographic)]);
        ("attendees", JArr [JObj [("userid", JStr "exec1")]]);
        ("start_time", JNum 1760000000%float);
        ("end_time", JNum 1760003600%float)].


End Blank.

(** More sample data: a pending task with its executor, a later
    clock, a card callback, a payload of the web form, and the answers of
    WeCom during one run of the sync service. *)
Module Scene.

Definition pending : Db.TaskRow :=
  Demo.row 1 "sch-5" (Some "mgr") (Some "exec1") (Some "PENDING")
    (Some "2026-01-01 10:00:00").

Definition hourLater : Env :=
  {| clock_ms := 1767229200000; clock_sql := "2026-01-01 01:00:00"; net_ok := true |}.

Definition envs (k : nat) : Env * Env := (Demo.env1, Demo.env2).

Definition card : jsval :=
  JObj [("UserID", JStr "exec1");
        ("TaskId", JStr "sch-5");
        ("SelectedKey", JStr " action_complete ")].

Definition payload : list (string * jsval) :=
  [("title", JStr "Quarterly plan");
   ("description", JStr "Draft and circulate");
   ("executor_userid", JStr " exec1 ");
   ("end_time", JStr "2026-01-03T00:00:00.000Z")].

Definition penv : ProcessEnv :=
  {| DEFAULT_CAL_ID := Some "cal-default"; USER_CALENDAR_MAP := Some "exec1:cal-a" |}.

Definition createSchedule (request : ScheduleRequest.t) : Response :=
  Resolved (JObj [("errcode", JNum 0%float); ("schedule_id", JStr "sch-9")]).

(** The calendar of exec1 lists one schedule twice and an entry
    without id; the default calendar answers with an error code. *)
Definition getScheduleList (n : nat) (calId : string) : Response :=
  if String.eqb calId "cal-a"
  then Resolved
         (JObj [("errcode", JNum 0%float);
                ("schedule_list",
                 JArr [JObj [("schedule_id", JStr "sch-2")];
                       JObj [("schedule_id", JStr "sch-2")];
                       JObj []])])
  else Resolved (JObj [("errcode", JNum 40001%float); ("errmsg", JStr "invalid")]).

Definition getSchedule (n : nat) (scheduleId : jsval) : Response :=
  Resolved (JObj [("errcode", JNum 0%float); ("schedule", Demo.weeklyReport)]).

Definition envAt (n : nat) : Env := Demo.env1.

Definition pairs : list (string * string) :=
  [("zhangsan", "cal_a"); ("lisi", "cal_b")].

End Scene.

Section SubmitClauses.
Context {H : Host}.

(** The WHERE clause of the UPDATE of [submitForVerification]. *)
Definition submitWhere (wecomScheduleId : string) (r : Db.TaskRow) : bool :=
  Db.hasScheduleId wecomScheduleId r && Db.hasStatus TASK_STATUS.PENDING r.

Definition TASK_NOT_FOUND : Exn :=
  TaskOperationError "TASK_NOT_FOUND" "任务不存在" 404.

Definition TASK_VERIFY_FORBIDDEN : Exn :=
  TaskOperationError "TASK_VERIFY_FORBIDDEN" "当前用户无验收权限或状态不正确" 403.

Definition TASK_COMPLETE_FORBIDDEN : Exn :=
  TaskOperationError "TASK_COMPLETE_FORBIDDEN" "仅执行人可提交待执行任务" 403.

End SubmitClauses.

(* ================================================================== *)
(** * Operations on the table *)

(** The calls that write to the table. *)
Inductive Op : Type :=
| OpSubmit (wecomScheduleId : string) (executorId : jsval)
| OpVerify (wecomScheduleId : string) (managerId : jsval) (isApproved : bool)
    (rejectReason : jsval)
| OpSync (schedule : jsval) (calendarContext : list (string * jsval))
| OpRemind (task : Db.TaskRow).

(** [COALESCE(redo_count, 0)] *)
Definition redoOf (r : Db.TaskRow) : Z :=
  match Db.redo_count r with Some n => n | None => 0 end.

(** The lifecycle: PENDING to WAITING_VERIFY, WAITING_VERIFY to
    COMPLETED or back to PENDING. *)
Definition statusStep (s s' : option string) : Prop :=
  s' = s
  \/ (s = Some TASK_STATUS.PENDING /\ s' = Some TASK_STATUS.WAITING_VERIFY)
  \/ (s = Some TASK_STATUS.WAITING_VERIFY
      /\ (s' = Some TASK_STATUS.COMPLETED \/ s' = Some TASK_STATUS.PENDING)).

(** What one call may do to a row: the identity columns stay, the
    status moves along the lifecycle, and the redo count moves only with
    a rejection, by one. *)
Definition rowStep (r r' : Db.TaskRow) : Prop :=
  Db.id r' = Db.id r
  /\ Db.wecom_schedule_id r' = Db.wecom_schedule_id r
  /\ Db.created_at r' = Db.created_at r
  /\ statusStep (Db.status r) (Db.status r')
  /\ (Db.redo_count r' = Db.redo_count r
      \/ (Db.status r = Some TASK_STATUS.WAITING_VERIFY
          /\ Db.status r' = Some TASK_STATUS.PENDING
          /\ Db.redo_count r' = Some (redoOf r + 1))).

(** What one call may do to the table: change rows in place, or
    append one fresh PENDING row under the next id and a schedule id no
    row has. *)
Definition worldStep (w w' : World) : Prop :=
  (Forall2 rowStep (rows w) (rows w') /\ seq w' = seq w)
  \/ (exists (t : Db.TaskRow) (sid : string),
        rows w' = (rows w ++ [t])%list
        /\ seq w' = seq w + 1
        /\ Db.id t = seq w + 1
        /\ Db.wecom_schedule_id t = Some sid
        /\ existsb (Db.hasScheduleId sid) (rows w) = false
        /\ Db.status t = Some TASK_STATUS.PENDING
        /\ Db.redo_count t = Some 0).

(** What any number of calls keeps of a row. *)
Definition rowKept (r r' : Db.TaskRow) : Prop :=
  Db.id r' = Db.id r
  /\ Db.wecom_schedule_id r' = Db.wecom_schedule_id r
  /\ Db.created_at r' = Db.created_at r
  /\ redoOf r <= redoOf r'
  /\ (Db.status r = Some TASK_STATUS.COMPLETED ->
      Db.status r' = Some TASK_STATUS.COMPLETED
      /\ Db.redo_count r' = Db.redo_count r)
  /\ (Db.status r <> Some TASK_STATUS.PENDING ->
      Db.status r <> Some TASK_STATUS.WAITING_VERIFY ->
      Db.status r' = Db.status r /\ Db.redo_count r' = Db.redo_count r).

(** The schedule ids of the rows that have one. *)
Definition scheduleIds (rws : list Db.TaskRow) : list string :=
  flat_map (fun r => match Db.wecom_schedule_id r with
                     | Some sid => [sid]
                     | None => []
                     end) rws.

(** The constraints of the table: ids are distinct and at most the
    AUTOINCREMENT counter, schedule ids are distinct. *)
Definition storeOk (w : World) : Prop :=
  NoDup (map Db.id (rows w))
  /\ (forall r : Db.TaskRow, In r (rows w) -> Db.id r <= seq w)
  /\ NoDup (scheduleIds (rows w)).

Section Operations.
Context {H : Host}.
Variable datetime_unixepoch : float -> option string.
Variable GLOBAL_VERIFIERS : string.

(** The table after a call, whatever the call returned or threw. *)
Definition runOp (env : Env) (w : World) (op : Op) : World :=
  match op with
  | OpSubmit sid executorId =>
      fst (submitForVerification GLOBAL_VERIFIERS env w sid executorId)
  | OpVerify sid managerId isApproved rejectReason =>
      fst (verifyTask GLOBAL_VERIFIERS env w sid managerId isApproved rejectReason)
  | OpSync schedule calendarContext =>
      fst (syncScheduleTask datetime_unixepoch env w schedule calendarContext)
  | OpRemind task => fst (dispatchTaskReminder env w task)
  end.

(** The table after a sequence of calls, each with its surroundings. *)
Fixpoint runOps (w : World) (calls : list (Env * Op)) : World :=
  match calls with
  | [] => w
  | (env, op) :: rest => runOps (runOp env w op) rest
  end.

(** [n] rounds of the executor submitting and the manager rejecting;
    [envs k] are the surroundings of the two calls of round [k]. *)
Fixpoint rejectRounds (n : nat) (envs : nat -> Env * Env) (w : World)
    (wecomScheduleId : string) (executorId managerId rejectReason : jsval) : World :=
  match n with
  | O => w
  | S k =>
      let w1 := rejectRounds k envs w wecomScheduleId executorId managerId rejectReason in
      let w2 := runOp (fst (envs k)) w1 (OpSubmit wecomScheduleId executorId) in
      runOp (snd (envs k)) w2 (OpVerify wecomScheduleId managerId false rejectReason)
  end.

End Operations.

(* ================================================================== *)
(** * Rows of calendar mappings *)

Section MappingRows.
Context {H : Host}.

(** A row as [mergeCalendarMappingsByUser] reads it. *)
Definition normalizedRow (row : jsval) : option CalendarMapping :=
  toCalendarMappingRecord row
    (strOr (normalizeText (Js.and row (Js.get row "source"))) "db").

(** The rows that normalize, normalized. *)
Definition normalizedRows (rows : list jsval) : list CalendarMapping :=
  flat_map (fun row => match normalizedRow row with
                       | Some n => [n]
                       | None => []
                       end) rows.

Definition hasUser (u : string) (n : CalendarMapping) : bool :=
  String.eqb (user_id n) u.

(** The last row of a user. *)
Definition lastFor (u : string) (rows : list jsval) : option CalendarMapping :=
  find (hasUser u) (rev (normalizedRows rows)).

End MappingRows.

Definition hasKey (u : string) (kv : string * CalendarMapping) : bool :=
  String.eqb (fst kv) u.

(** The accumulator of [mergeCalendarMappingsByUser]: each value under
    its user id, no empty key, no key twice. *)
Definition keysOk (m : list (string * CalendarMapping)) : Prop :=
  Forall (fun kv => fst kv = user_id (snd kv) /\ Str.nonempty (fst kv) = true) m
  /\ NoDup (map fst m).

(* ================================================================== *)
(** * Rows under sync *)

(** The columns of the lifecycle of a task: what identifies the row
    and what the transitions of the lifecycle write. *)
Definition lifecycleOf (r : Db.TaskRow) :=
  (Db.id r, Db.wecom_schedule_id r, Db.created_at r,
   (Db.status r, Db.redo_count r, Db.reject_reason r),
   (Db.completion_time r, Db.completed_by_userid r,
    Db.verify_time r, Db.verified_by_userid r)).

(** A row at the start of its lifecycle. *)
Definition freshRow (r : Db.TaskRow) : Prop :=
  Db.status r = Some TASK_STATUS.PENDING
  /\ Db.redo_count r = Some 0
  /\ Db.completion_time r = None
  /\ Db.verify_time r = None.

(** The table grew quietly: the rows it had are there in their places
    with their lifecycle columns, and the rows that follow them are
    fresh. *)
Definition quietly (w w' : World) : Prop :=
  exists kept added : list Db.TaskRow,
    rows w' = (kept ++ added)%list
    /\ map lifecycleOf kept = map lifecycleOf (rows w)
    /\ Forall freshRow added.

(** The schedules a summary has counted, and those it counted as
    written. *)
Definition counted (s : Summary.t) : nat :=
  Summary.inserted_count s + Summary.updated_count s + Summary.skipped_count s.

Definition written (s : Summary.t) : nat :=
  Summary.inserted_count s + Summary.updated_count s.

(** The part of a summary the loop over schedules leaves alone. *)
Definition calendarsOf (s : Summary.t) :=
  (Summary.success s, Summary.calendar_count s, Summary.calendar_success_count s,
   Summary.calendar_failed_count s, Summary.calendar_errors s,
   Summary.schedule_count s).

(** An entry of [calendar_errors] for a calendar whose list request
    WeCom answered with an error code. *)
Definition listFailed (e : CalendarError.t) : Prop :=
  CalendarError.reason e = "wecom_schedule_list_failed"
  /\ CalendarError.cal_id e <> EmptyString
  /\ (exists code : jsval, CalendarError.errcode e = Some code /\ isZero code = false).

(* ================================================================== *)
(** * The characters of a login URL *)

(** The number of occurrences of a character. *)
Fixpoint countChar (c : ascii) (s : string) : nat :=
  match s with
  | EmptyString => O
  | String d rest => ((if Ascii.eqb d c then 1 else 0) + countChar c rest)%nat
  end.

(** What an encoded name or value consists of. *)
Definition isEncoded (c : ascii) : bool :=
  isFormSafe c || Ascii.eqb c "+" || Ascii.eqb c "%".

(** What a serialized query consists of. *)
Definition isQueryChar (c : ascii) : bool :=
  isEncoded c || Ascii.eqb c "=" || Ascii.eqb c "&".

(** What the loop over the calendars keeps, however it ends. *)
Definition calendarsDone (st st' : Progress) (calendars : nat) : Prop :=
  Summary.success (summary st') = Summary.success (summary st)
  /\ Summary.calendar_count (summary st') = Summary.calendar_count (summary st)
  /\ (Summary.calendar_success_count (summary st')
      + Summary.calendar_failed_count (summary st')
      = Summary.calendar_success_count (summary st)
        + Summary.calendar_failed_count (summary st) + calendars)%nat
  /\ (List.length (Summary.calendar_errors (summary st'))
      + Summary.calendar_failed_count (summary st)
      = List.length (Summary.calendar_errors (summary st))
        + Summary.calendar_failed_count (summary st'))%nat
  /\ (Forall listFailed (Summary.calendar_errors (summary st)) ->
      Forall listFailed (Summary.calendar_errors (summary st'))).

(* ================================================================== *)
(** * The pairwise form of USER_CALENDAR_MAP *)

(** A user id or calendar id as the pairwise form can carry it: not
    blank, trimmed, without the comma that separates the pairs. *)
Definition plainId (s : string) : Prop :=
  s <> EmptyString /\ Str.trim s = s /\ Str.includes "," s = false.

(** A user id of the pairwise form: without the colon that ends it,
    and not beginning like a JSON text. *)
Definition plainUser (u : string) : Prop :=
  plainId u
  /\ Str.includes ":" u = false
  /\ match u with
     | String "{" _ | String "[" _ => False
     | _ => True
     end.

Definition pairText (p : string * string) : string := fst p ++ ":" ++ snd p.

Definition pairMapping (p : string * string) : CalendarMapping :=
  {| user_id := fst p; cal_id := snd p; source := "env_map" |}.

(* ================================================================== *)
(** * Facts about strings and normalization *)

Lemma nonempty_true_iff (s : string) : Str.nonempty s = true <-> s <> EmptyString.
Proof. destruct s; simpl; split; congruence. Qed.

Lemma nonempty_false_iff (s : string) : Str.nonempty s = false <-> s = EmptyString.
Proof. destruct s; simpl; split; congruence. Qed.

Lemma ltrim_eq (s : string) :
  Str.ltrim s = match wsRest s with Some r => Str.ltrim r | None => s end.
Proof.
  destruct s as [|c1 [|c2 [|c3 s3]]]; cbn [Str.ltrim wsRest]; try reflexivity;
    destruct (Str.ws1 c1); try reflexivity;
    destruct (Str.ws2 c1 c2); try reflexivity;
    destruct (Str.ws3 c1 c2 c3); reflexivity.
Qed.

Lemma wsRest_length (s r : string) :
  wsRest s = Some r -> (String.length r < String.length s)%nat.
Proof.
  destruct s as [|c1 [|c2 [|c3 s3]]]; cbn [wsRest]; try discriminate;
    destruct (Str.ws1 c1); try discriminate; try (intros [= <-]; simpl; lia);
    destruct (Str.ws2 c1 c2); try discriminate; try (intros [= <-]; simpl; lia);
    destruct (Str.ws3 c1 c2 c3); try discriminate; intros [= <-]; simpl; lia.
Qed.

Lemma wsRest_app (p r t : string) :
  wsRest p = Some r -> wsRest (p ++ t) = Some (r ++ t).
Proof.
  destruct p as [|c1 [|c2 [|c3 p3]]]; cbn [wsRest append]; try discriminate;
    destruct (Str.ws1 c1); try discriminate; try (intros [= <-]; reflexivity);
    destruct (Str.ws2 c1 c2); try discriminate; try (intros [= <-]; reflexivity);
    destruct (Str.ws3 c1 c2 c3); try discriminate; intros [= <-]; reflexivity.
Qed.

Lemma by_length (P : string -> Prop) :
  (forall s, (forall r, (String.length r < String.length s)%nat -> P r) -> P s) ->
  forall s, P s.
Proof.
  intros step s.
  assert (H : forall n s, (String.length s < n)%nat -> P s).
  { induction n as [|n IH]; intros s0 Hs; [lia|].
    apply step. intros r Hr. apply IH. lia. }
  apply (H (S (String.length s))). lia.
Qed.

Lemma ltrim_headOk (s : string) : headOk (Str.ltrim s).
Proof.
  induction s as [s IH] using by_length.
  rewrite ltrim_eq. destruct (wsRest s) as [r|] eqn:E.
  - apply IH, wsRest_length, E.
  - exact E.
Qed.

Lemma ltrim_fixed (s : string) : headOk s -> Str.ltrim s = s.
Proof. intros H. rewrite ltrim_eq, H. reflexivity. Qed.

Lemma ltrim_app (a t : string) :
  Str.ltrim a = EmptyString -> Str.ltrim (a ++ t) = Str.ltrim t.
Proof.
  induction a as [a IH] using by_length. intros H.
  rewrite ltrim_eq in H. destruct (wsRest a) as [r|] eqn:E.
  - rewrite (ltrim_eq (a ++ t)), (wsRest_app _ _ t E).
    apply IH; [apply wsRest_length, E | exact H].
  - subst a. reflexivity.
Qed.

Lemma rtrim_cons (c : ascii) (s : string) :
  Str.rtrim (String c s) =
  if Str.blank (String c s) then EmptyString else String c (Str.rtrim s).
Proof. reflexivity. Qed.

Lemma blank_true (s : string) : Str.blank s = true <-> Str.ltrim s = EmptyString.
Proof. unfold Str.blank. destruct (Str.ltrim s); split; congruence. Qed.

Lemma rtrim_split (s : string) :
  exists t, s = Str.rtrim s ++ t /\ Str.ltrim t = EmptyString.
Proof.
  induction s as [|c s IH].
  - exists EmptyString. split; reflexivity.
  - rewrite rtrim_cons. destruct (Str.blank (String c s)) eqn:B.
    + exists (String c s). split; [reflexivity | apply blank_true, B].
    + destruct IH as (t & E & Ht). exists t. split; [|exact Ht].
      cbn [append]. f_equal. exact E.
Qed.

Lemma rtrim_headOk (s : string) : headOk s -> headOk (Str.rtrim s).
Proof.
  intros H. destruct (rtrim_split s) as (t & E & _). unfold headOk in *.
  destruct (wsRest (Str.rtrim s)) as [r|] eqn:W; [|reflexivity].
  apply (wsRest_app _ _ t) in W. rewrite <- E in W. congruence.
Qed.

Lemma rtrim_idem (s : string) : Str.rtrim (Str.rtrim s) = Str.rtrim s.
Proof.
  induction s as [|c s IH]; [reflexivity|].
  rewrite rtrim_cons. destruct (Str.blank (String c s)) eqn:B; [reflexivity|].
  rewrite rtrim_cons.
  assert (B' : Str.blank (String c (Str.rtrim s)) = false).
  { destruct (Str.blank (String c (Str.rtrim s))) eqn:B2; [|reflexivity].
    destruct (rtrim_split s) as (t & E & Ht).
    apply blank_true in B2.
    assert (Hb : Str.ltrim (String c s) = EmptyString).
    { rewrite E at 1.
      change (String c (Str.rtrim s ++ t)) with (String c (Str.rtrim s) ++ t).
      rewrite (ltrim_app _ t B2). exact Ht. }
    apply blank_true in Hb. congruence. }
  rewrite B', IH. reflexivity.
Qed.

Lemma trim_idem (s : string) : Str.trim (Str.trim s) = Str.trim s.
Proof.
  unfold Str.trim.
  rewrite (ltrim_fixed _ (rtrim_headOk _ (ltrim_headOk s))).
  apply rtrim_idem.
Qed.

Lemma wsByte_high (c : ascii) : (128 <= nat_of_ascii c)%nat -> wsByte c = true.
Proof.
  intros H. unfold wsByte. apply Nat.leb_le in H. rewrite H. apply orb_true_r.
Qed.

Ltac ws_props H :=
  repeat (rewrite ?orb_true_iff, ?andb_true_iff, ?Nat.eqb_eq, ?Nat.leb_le in H).

Lemma ws2_bytes (c1 c2 : ascii) :
  Str.ws2 c1 c2 = true -> wsByte c1 = true /\ wsByte c2 = true.
Proof.
  unfold Str.ws2. intros H. ws_props H. split; apply wsByte_high; lia.
Qed.

Lemma ws3_bytes (c1 c2 c3 : ascii) :
  Str.ws3 c1 c2 c3 = true ->
  wsByte c1 = true /\ wsByte c2 = true /\ wsByte c3 = true.
Proof.
  unfold Str.ws3. cbv zeta. intros H. ws_props H.
  repeat split; apply wsByte_high; lia.
Qed.

Lemma wsRest_sep (u : string) (sep : ascii) (x : string) :
  wsByte sep = false ->
  wsRest (u ++ String sep x) =
  match wsRest u with
  | Some r => Some (r ++ String sep x)
  | None => None
  end.
Proof.
  intros Hs.
  assert (H1 : Str.ws1 sep = false).
  { unfold wsByte in Hs. apply orb_false_elim in Hs. apply Hs. }
  assert (H2l : forall c, Str.ws2 sep c = false).
  { intros c. destruct (Str.ws2 sep c) eqn:E; [|reflexivity].
    apply ws2_bytes in E. destruct E; congruence. }
  assert (H2r : forall c, Str.ws2 c sep = false).
  { intros c. destruct (Str.ws2 c sep) eqn:E; [|reflexivity].
    apply ws2_bytes in E. destruct E; congruence. }
  assert (H3a : forall c d, Str.ws3 sep c d = false).
  { intros c d. destruct (Str.ws3 sep c d) eqn:E; [|reflexivity].
    apply ws3_bytes in E. destruct E as (? & ? & ?); congruence. }
  assert (H3b : forall c d, Str.ws3 c sep d = false).
  { intros c d. destruct (Str.ws3 c sep d) eqn:E; [|reflexivity].
    apply ws3_bytes in E. destruct E as (? & ? & ?); congruence. }
  assert (H3c : forall c d, Str.ws3 c d sep = false).
  { intros c d. destruct (Str.ws3 c d sep) eqn:E; [|reflexivity].
    apply ws3_bytes in E. destruct E as (? & ? & ?); congruence. }
  destruct u as [|c1 [|c2 [|c3 u3]]]; cbn [wsRest append].
  - rewrite H1. destruct x as [|c2 [|c3 x3]]; rewrite ?H2l, ?H3a; reflexivity.
  - destruct (Str.ws1 c1); [reflexivity|]. rewrite H2r.
    destruct x as [|c3 x3]; rewrite ?H3b; reflexivity.
  - destruct (Str.ws1 c1); [reflexivity|].
    destruct (Str.ws2 c1 c2); [reflexivity|]. rewrite H3c. reflexivity.
  - destruct (Str.ws1 c1); [reflexivity|].
    destruct (Str.ws2 c1 c2); [reflexivity|].
    destruct (Str.ws3 c1 c2 c3); reflexivity.
Qed.

Lemma headOk_sep (u : string) (sep : ascii) (x : string) :
  wsByte sep = false -> headOk u -> headOk (u ++ String sep x).
Proof. intros Hs H. unfold headOk in *. rewrite (wsRest_sep _ _ _ Hs), H. reflexivity. Qed.

Lemma ltrim_sep (a : string) (sep : ascii) (b : string) :
  wsByte sep = false -> Str.ltrim (a ++ String sep b) <> EmptyString.
Proof.
  intros Hs. induction a as [a IH] using by_length.
  rewrite ltrim_eq, (wsRest_sep _ _ _ Hs).
  destruct (wsRest a) as [r|] eqn:E.
  - apply IH, wsRest_length, E.
  - destruct a; discriminate.
Qed.

Lemma blank_sep (a : string) (sep : ascii) (b : string) :
  wsByte sep = false -> Str.blank (a ++ String sep b) = false.
Proof.
  intros Hs. destruct (Str.blank (a ++ String sep b)) eqn:B; [|reflexivity].
  apply blank_true in B. destruct (ltrim_sep a sep b Hs B).
Qed.

Lemma rtrim_sep (a : string) (sep : ascii) (b : string) :
  wsByte sep = false -> Str.rtrim b = b ->
  Str.rtrim (a ++ String sep b) = a ++ String sep b.
Proof.
  intros Hs Hb. induction a as [|c a IH]; cbn [append]; rewrite rtrim_cons.
  - rewrite (blank_sep EmptyString sep b Hs : Str.blank (String sep b) = false), Hb.
    reflexivity.
  - rewrite (blank_sep (String c a) sep b Hs
             : Str.blank (String c (a ++ String sep b)) = false), IH.
    reflexivity.
Qed.

Section NormalizeFacts.
Context {H : Host}.

Lemma normalizeText_trimmed :
  forall v : jsval, Str.trim (normalizeText v) = normalizeText v.
Proof.
  fix IH 1. intros v.
  destruct v as [| |b|x|s|l|props]; simpl; try reflexivity; try apply trim_idem.
  destruct l as [|first rest]; [reflexivity | apply IH].
Qed.

Lemma normalizeText_JStr (s : string) : normalizeText (JStr s) = Str.trim s.
Proof. reflexivity. Qed.

(** A normalized string read back from a column or a record is itself. *)
Lemma normalizeText_fixed (s : string) :
  Str.trim s = s -> normalizeText (JStr s) = s.
Proof. intros E. simpl. exact E. Qed.

End NormalizeFacts.

(* ================================================================== *)
(** * Lifecycle rules *)

Section LifecycleFacts.
Context {H : Host}.

Lemma canUserCompleteTask_status (task userId : jsval) :
  canUserCompleteTask task userId = true ->
  normalizeText (Js.get task "status") = TASK_STATUS.PENDING.
Proof.
  unfold canUserCompleteTask.
  destruct (Js.truthy task); simpl; [|discriminate].
  intros E. apply andb_prop in E. destruct E as [_ E].
  apply String.eqb_eq. exact E.
Qed.

Lemma canUserVerifyTask_status (task userId globalVerifiers : jsval) :
  canUserVerifyTask task userId globalVerifiers = true ->
  normalizeText (Js.get task "status") = TASK_STATUS.WAITING_VERIFY.
Proof.
  unfold canUserVerifyTask.
  destruct (Js.truthy task); simpl; [|discriminate].
  destruct (Str.nonempty (normalizeText userId)); simpl; [|discriminate].
  destruct (String.eqb (normalizeText (Js.get task "status")) TASK_STATUS.WAITING_VERIFY) eqn:E;
    simpl; [|discriminate].
  intros _. apply String.eqb_eq. exact E.
Qed.

(** C9. Whatever the row, the current user, the list of global
    verifiers and the time, the object [mapTaskRowToApi] returns never has
    both [can_complete] and [can_verify] set: [can_complete] needs the
    (normalized) status PENDING, [can_verify] needs WAITING_VERIFY. *)
Theorem mapTaskRowToApi_complete_verify_exclusive
    (clock : Z) (row : jsval) (options : MapOptions) (api : ApiTask)
    (Hmap : mapTaskRowToApi clock row options = Some api) :
  (can_complete api = true ->
     normalizeText (Js.get row "status") = TASK_STATUS.PENDING)
  /\ (can_verify api = true ->
     normalizeText (Js.get row "status") = TASK_STATUS.WAITING_VERIFY)
  /\ can_complete api && can_verify api = false.
Proof.
  unfold mapTaskRowToApi in Hmap.
  destruct (Js.nullish row); [discriminate|].
  injection Hmap as <-. simpl.
  assert (A := canUserCompleteTask_status row (JStr (normalizeText (opt_currentUserId options)))).
  assert (B := canUserVerifyTask_status row (JStr (normalizeText (opt_currentUserId options)))
                 (JArr (Js.arrayOrEmpty (opt_globalVerifiers options)))).
  split; [exact A|]. split; [exact B|].
  destruct (canUserCompleteTask _ _) eqn:EA; [|reflexivity].
  destruct (canUserVerifyTask _ _ _) eqn:EB; [|reflexivity].
  specialize (A eq_refl). specialize (B eq_refl).
  rewrite A in B. discriminate B.
Qed.

Lemma kind_eqb_NONE (k : ReminderKind) :
  REMINDER_KIND.eqb k NONE = false <-> k <> NONE.
Proof. destruct k; simpl; split; congruence. Qed.

(** C4. For a task object, a reminder kind and a time, with the
    default cooldown of 12 hours: [shouldSendReminder] is false for the
    kind NONE; it is true when no earlier kind is recorded or the recorded
    kind is another one; when the recorded kind is the classified one and
    the column [last_reminder_at] is not blank and [Date.parse] reads it
    as the time [previousReminderAt], it is true exactly when at least
    12 hours have passed since that time; and it is true when that column
    is blank or [Date.parse] does not read it. *)
Theorem shouldSendReminder_spec
    (props : list (string * jsval)) (reminderKind : ReminderKind) (now : Z) :
  let task := JObj props in
  let previousKind := normalizeText (Js.get task "last_reminder_kind") in
  let lastReminderAt := normalizeText (Js.get task "last_reminder_at") in
  shouldSendReminder task NONE now 12 = false
  /\ (reminderKind <> NONE ->
      previousKind = EmptyString \/ previousKind <> REMINDER_KIND.str reminderKind ->
      shouldSendReminder task reminderKind now 12 = true)
  /\ (reminderKind <> NONE ->
      previousKind = REMINDER_KIND.str reminderKind ->
      forall previousReminderAt : Z,
        lastReminderAt <> EmptyString ->
        Date_parse lastReminderAt = Some previousReminderAt ->
        (shouldSendReminder task reminderKind now 12 = true
         <-> 12 * 60 * 60 * 1000 <= now - previousReminderAt))
  /\ (reminderKind <> NONE ->
      previousKind = REMINDER_KIND.str reminderKind ->
      lastReminderAt = EmptyString \/ Date_parse lastReminderAt = None ->
      shouldSendReminder task reminderKind now 12 = true).
Proof.
  intros task previousKind lastReminderAt.
  split; [reflexivity|].
  assert (Hstr : forall k, k <> NONE -> Str.nonempty (REMINDER_KIND.str k) = true)
    by (intros [] ?; [congruence|reflexivity|reflexivity]).
  assert (Hunf : reminderKind <> NONE ->
            shouldSendReminder task reminderKind now 12 =
            if negb (Str.nonempty previousKind)
               || negb (String.eqb previousKind (REMINDER_KIND.str reminderKind))
            then true
            else if negb (Str.nonempty lastReminderAt) then true
            else match Date_parse lastReminderAt with
                 | None => true
                 | Some t => 12 * 60 * 60 * 1000 <=? now - t
                 end).
  { intros Hk. unfold shouldSendReminder, toDateOrNull.
    rewrite (proj2 (kind_eqb_NONE _) Hk).
    fold task. fold previousKind. fold lastReminderAt.
    destruct (negb (Str.nonempty previousKind)
              || negb (String.eqb previousKind (REMINDER_KIND.str reminderKind)));
      [reflexivity|].
    destruct (negb (Str.nonempty lastReminderAt)); reflexivity. }
  split; [|split].
  - intros Hk Hprev. rewrite (Hunf Hk).
    destruct Hprev as [E|E].
    + rewrite E. reflexivity.
    + apply String.eqb_neq in E. rewrite E. simpl.
      rewrite orb_true_r. reflexivity.
  - intros Hk Hprev t Hne Ht. rewrite (Hunf Hk).
    rewrite Hprev, (Hstr _ Hk), String.eqb_refl, Ht.
    apply nonempty_true_iff in Hne. rewrite Hne. simpl negb. simpl orb.
    cbv iota. rewrite Z.leb_le. reflexivity.
  - intros Hk Hprev Ht. rewrite (Hunf Hk).
    rewrite Hprev, (Hstr _ Hk), String.eqb_refl. simpl negb. simpl orb. cbv iota.
    destruct Ht as [E|E]; [rewrite E; reflexivity|].
    rewrite E. destruct (negb (Str.nonempty lastReminderAt)); reflexivity.
Qed.

Lemma getReminderKind_NONE (task : jsval) (now : Z) :
  normalizeText (Js.get task "status") <> TASK_STATUS.PENDING
  \/ toDateOrNull (Js.get task "end_time") = None ->
  getReminderKind task now = NONE.
Proof.
  intros [E|E]; unfold getReminderKind.
  - apply String.eqb_neq in E. rewrite E. simpl. rewrite orb_true_r. reflexivity.
  - rewrite E. destruct (_ || _); reflexivity.
Qed.

Lemma shouldSendReminder_NONE (task : jsval) (now cooldownHours : Z) :
  shouldSendReminder task NONE now cooldownHours = false.
Proof. unfold shouldSendReminder. simpl. rewrite orb_true_r. reflexivity. Qed.

End LifecycleFacts.

(* ================================================================== *)
(** * KPI aggregation *)

Lemma hundredths_nearest (m : positive) (e : Z) :
  e < 0 ->
  let n := hundredths m e in
  - 2 ^ (- e) <= 200 * Zpos m - n * 2 ^ (- e + 1) < 2 ^ (- e).
Proof.
  intros He n. subst n. unfold hundredths.
  destruct (0 <=? e) eqn:E; [apply Z.leb_le in E; lia|].
  set (k := - e). assert (Hk : 0 <= k) by (unfold k; lia).
  assert (Hp : 0 < 2 ^ k) by (apply Z.pow_pos_nonneg; lia).
  assert (Hs : 2 ^ (k + 1) = 2 * 2 ^ k) by (rewrite Z.pow_add_r by lia; lia).
  rewrite Hs.
  set (a := 200 * Z.pos m + 2 ^ k).
  assert (Hd := Z.div_mod a (2 * 2 ^ k) ltac:(lia)).
  assert (Hm := Z.mod_pos_bound a (2 * 2 ^ k) ltac:(lia)).
  unfold a in *. nia.
Qed.

Section KpiFacts.
Context {H : Host}.

Lemma completedOnTime_iff (item : jsval) :
  completedOnTime item = true <->
  normalizeText (Js.get item "status") = TASK_STATUS.COMPLETED
  /\ exists completionTime endTime : Z,
       toDateOrNull (if Js.truthy (Js.get item "completion_time")
                     then Js.get item "completion_time"
                     else Js.get item "verify_time") = Some completionTime
       /\ toDateOrNull (Js.get item "end_time") = Some endTime
       /\ completionTime <= endTime.
Proof.
  unfold completedOnTime, hasStatus, Js.or.
  destruct (String.eqb (normalizeText (Js.get item "status")) TASK_STATUS.COMPLETED) eqn:Es;
    simpl.
  - apply String.eqb_eq in Es.
    destruct (toDateOrNull (if Js.truthy (Js.get item "completion_time")
                            then Js.get item "completion_time"
                            else Js.get item "verify_time")) as [tc|];
      destruct (toDateOrNull (Js.get item "end_time")) as [te|].
    + rewrite Z.leb_le. split.
      * intros Hle. split; [exact Es|]. exists tc, te. auto.
      * intros [_ (tc' & te' & E1 & E2 & Hle)]. congruence.
    + split; [discriminate|]. intros [_ (? & ? & _ & E & _)]. discriminate E.
    + split; [discriminate|]. intros [_ (? & ? & E & _)]. discriminate E.
    + split; [discriminate|]. intros [_ (? & ? & E & _)]. discriminate E.
  - apply String.eqb_neq in Es. split; [discriminate|]. intros [E _]. contradiction.
Qed.

(** C6. [buildTaskKpi] returns, for an array without null elements,
    the number of rows, of COMPLETED rows, of WAITING_VERIFY rows, of
    overdue and of due-soon rows; [completion_rate] is
    completed / total * 100 printed with two decimals and read back (0
    without rows), [on_time_rate] the same of on-time / completed (0
    without a completed row); a row counts as on time exactly when it is
    COMPLETED and its completion time (the verify time when the completion
    time is absent) is at most its end time; the two printed decimals are
    those of the nearest hundredth.  For the three rows
    PENDING (end in 8 hours), WAITING_VERIFY (ended an hour ago),
    COMPLETED (ended two hours ago, completed three hours ago) the
    result is 3, 1, 1, 1, 1, 33.33 and 100. *)
Theorem buildTaskKpi_spec (rows : list jsval) (now : Z) :
  let total := List.length rows in
  let completed := count (hasStatus TASK_STATUS.COMPLETED) rows in
  let onTime := count completedOnTime rows in
  (existsb Js.nullish rows = false ->
     buildTaskKpi (JArr rows) now = Some {|
       total_tasks := total;
       completed_tasks := completed;
       waiting_verify_tasks := count (hasStatus TASK_STATUS.WAITING_VERIFY) rows;
       overdue_tasks := count (fun item => isTaskOverdue item now) rows;
       due_soon_tasks := count (fun item => isTaskDueSoon item now) rows;
       completion_rate :=
         match total with
         | O => 0%float
         | _ => toFixed2 (num_of_nat completed / num_of_nat total * 100)%float
         end;
       on_time_rate :=
         match completed with
         | O => 0%float
         | _ => toFixed2 (num_of_nat onTime / num_of_nat completed * 100)%float
         end |})
  /\ (forall item : jsval,
        completedOnTime item = true <->
        normalizeText (Js.get item "status") = TASK_STATUS.COMPLETED
        /\ exists completionTime endTime : Z,
             toDateOrNull (if Js.truthy (Js.get item "completion_time")
                           then Js.get item "completion_time"
                           else Js.get item "verify_time") = Some completionTime
             /\ toDateOrNull (Js.get item "end_time") = Some endTime
             /\ completionTime <= endTime)
  /\ (forall (m : positive) (e : Z),
        e < 0 ->
        - 2 ^ (- e) <= 200 * Zpos m - hundredths m e * 2 ^ (- e + 1) < 2 ^ (- e))
  /\ (forall end1 end2 end3 done3 : string,
        toDateOrNull (JStr end1) = Some (now + 8 * 3600000) ->
        toDateOrNull (JStr end2) = Some (now - 1 * 3600000) ->
        toDateOrNull (JStr end3) = Some (now - 2 * 3600000) ->
        toDateOrNull (JStr done3) = Some (now - 3 * 3600000) ->
        buildTaskKpi
          (JArr [JObj [("status", JStr "PENDING"); ("end_time", JStr end1)];
                 JObj [("status", JStr "WAITING_VERIFY"); ("end_time", JStr end2)];
                 JObj [("status", JStr "COMPLETED"); ("end_time", JStr end3);
                       ("completion_time", JStr done3)]])
          now
        = Some {| total_tasks := 3; completed_tasks := 1;
                  waiting_verify_tasks := 1; overdue_tasks := 1;
                  due_soon_tasks := 1;
                  completion_rate := 33.33%float;
                  on_time_rate := 100%float |}).
Proof.
  intros total completed onTime.
  split; [|split; [|split]].
  - intros Hn. unfold buildTaskKpi. cbn [Js.arrayOrEmpty]. rewrite Hn.
    fold total completed onTime.
    destruct total; destruct completed; reflexivity.
  - exact completedOnTime_iff.
  - exact hundredths_nearest.
  - intros end1 end2 end3 done3 H1 H2 H3 H4.
    set (r1 := JObj [("status", JStr "PENDING"); ("end_time", JStr end1)]).
    set (r2 := JObj [("status", JStr "WAITING_VERIFY"); ("end_time", JStr end2)]).
    set (r3 := JObj [("status", JStr "COMPLETED"); ("end_time", JStr end3);
                     ("completion_time", JStr done3)]).
    assert (Ht : Js.truthy (JStr done3) = true).
    { destruct done3; [|reflexivity]. discriminate H4. }
    assert (O1 : isTaskOverdue r1 now = false).
    { unfold isTaskOverdue.
      change (Js.and r1 (Js.get r1 "end_time")) with (JStr end1). rewrite H1.
      change ((now + 8 * 3600000 <? now) = false). apply Z.ltb_ge. lia. }
    assert (O2 : isTaskOverdue r2 now = true).
    { unfold isTaskOverdue.
      change (Js.and r2 (Js.get r2 "end_time")) with (JStr end2). rewrite H2.
      change ((now - 1 * 3600000 <? now) = true). apply Z.ltb_lt. lia. }
    assert (O3 : isTaskOverdue r3 now = false).
    { unfold isTaskOverdue.
      change (Js.and r3 (Js.get r3 "end_time")) with (JStr end3). rewrite H3.
      reflexivity. }
    assert (D1 : isTaskDueSoon r1 now = true).
    { unfold isTaskDueSoon.
      change (Js.and r1 (Js.get r1 "end_time")) with (JStr end1). rewrite H1.
      change ((0 <=? now + 8 * 3600000 - now)
              && (now + 8 * 3600000 - now <=? DAY_MS) = true).
      replace (now + 8 * 3600000 - now) with 28800000 by lia. reflexivity. }
    assert (D2 : isTaskDueSoon r2 now = false).
    { unfold isTaskDueSoon.
      change (Js.and r2 (Js.get r2 "end_time")) with (JStr end2). rewrite H2.
      reflexivity. }
    assert (D3 : isTaskDueSoon r3 now = false).
    { unfold isTaskDueSoon.
      change (Js.and r3 (Js.get r3 "end_time")) with (JStr end3). rewrite H3.
      reflexivity. }
    assert (T3 : completedOnTime r3 = true).
    { apply completedOnTime_iff. split; [reflexivity|].
      exists (now - 3 * 3600000), (now - 2 * 3600000).
      change (Js.get r3 "completion_time") with (JStr done3).
      change (Js.get r3 "end_time") with (JStr end3).
      rewrite Ht. repeat split; [exact H4 | exact H3 | lia]. }
    unfold buildTaskKpi, count.
    cbn [Js.arrayOrEmpty existsb filter].
    rewrite O1, O2, O3, D1, D2, D3, T3.
    reflexivity.
Qed.

End KpiFacts.

(* ================================================================== *)
(** * Picking the executor *)

Section PickExecutorFacts.
Context {H : Host}.

Lemma attendeeUserIds_nonempty (schedule : jsval) (a : string) :
  In a (attendeeUserIds schedule) -> Str.nonempty a = true.
Proof.
  unfold attendeeUserIds. intros Hin.
  apply filter_In in Hin. exact (proj2 Hin).
Qed.

Lemma pickExecutor_executorBySpec (schedule : jsval) :
  pickExecutor schedule
  = executorBySpec (organizerOf schedule) (attendeeUserIds schedule).
Proof.
  unfold pickExecutor, executorBySpec.
  destruct (find _ (attendeeUserIds schedule)) as [a|] eqn:Ef.
  - apply find_some in Ef. destruct Ef as [Hin _].
    simpl. rewrite (attendeeUserIds_nonempty _ _ Hin). reflexivity.
  - simpl. destruct (attendeeUserIds schedule) as [|a rest] eqn:Ea; [reflexivity|].
    simpl. rewrite (attendeeUserIds_nonempty schedule a); [reflexivity|].
    rewrite Ea. left. reflexivity.
Qed.


End PickExecutorFacts.

(* ================================================================== *)
(** * Sync targets *)

Lemma filter_filter {A : Type} (f g : A -> bool) (l : list A) :
  filter f (filter g l) = filter (fun x => g x && f x) l.
Proof.
  induction l as [|a l IH]; simpl; [reflexivity|].
  destruct (g a); simpl; [destruct (f a)|]; rewrite IH; reflexivity.
Qed.

Lemma find_filter {A : Type} (p g : A -> bool) (l : list A) :
  (forall x, p x = true -> g x = true) ->
  find p (filter g l) = find p l.
Proof.
  intros Hpg. induction l as [|a l IH]; simpl; [reflexivity|].
  destruct (p a) eqn:Ep.
  - rewrite (Hpg a Ep). simpl. rewrite Ep. reflexivity.
  - destruct (g a); simpl; [rewrite Ep|]; exact IH.
Qed.

Lemma hasCalId_other (x : string) (t u : CalendarMapping) :
  hasCalId x t = false -> hasCalId x u = true ->
  negb (String.eqb (cal_id u) (cal_id t)) = true.
Proof.
  unfold hasCalId. intros Ht Hu.
  apply String.eqb_eq in Hu. apply String.eqb_neq in Ht.
  apply negb_true_iff. apply String.eqb_neq. congruence.
Qed.

Lemma find_keepFirst (x : string) (l : list CalendarMapping) :
  find (hasCalId x) (keepFirstByCalId l) = find (hasCalId x) l.
Proof.
  induction l as [|t rest IH]; simpl; [reflexivity|].
  destruct (hasCalId x t) eqn:Et; [reflexivity|].
  rewrite find_filter; [exact IH|].
  intros u Hu. exact (hasCalId_other x t u Et Hu).
Qed.

(** Of the entries with calendar id [x], [keepFirstByCalId] keeps
    exactly the first. *)
Lemma filter_keepFirst (x : string) (l : list CalendarMapping) :
  filter (hasCalId x) (keepFirstByCalId l)
  = match find (hasCalId x) l with Some t => [t] | None => [] end.
Proof.
  induction l as [|t rest IH]; simpl; [reflexivity|].
  rewrite filter_filter.
  destruct (hasCalId x t) eqn:Et.
  - f_equal. apply String.eqb_eq in Et. subst x. clear IH.
    induction (keepFirstByCalId rest) as [|u l' IHl]; simpl; [reflexivity|].
    destruct (String.eqb (cal_id u) (cal_id t)) eqn:Eu; simpl; [exact IHl|].
    unfold hasCalId at 1. rewrite Eu. exact IHl.
  - rewrite <- IH. apply filter_ext_in. intros u _.
    destruct (hasCalId x u) eqn:Eu; [|apply andb_false_r].
    rewrite (hasCalId_other x t u Et Eu). reflexivity.
Qed.

Lemma keepFirst_incl (l : list CalendarMapping) (t : CalendarMapping) :
  In t (keepFirstByCalId l) -> In t l.
Proof.
  revert t. induction l as [|a rest IH]; simpl; [tauto|].
  intros t [E|Hin]; [left; exact E|].
  right. apply IH. apply filter_In in Hin. exact (proj1 Hin).
Qed.



Section CalendarFacts.
Context {H : Host}.
Variable JSON_parse : string -> option jsval.

Lemma strOr_wf (a b : string) :
  Str.trim a = a -> Str.trim b = b -> Str.nonempty b = true ->
  Str.trim (strOr a b) = strOr a b /\ Str.nonempty (strOr a b) = true.
Proof.
  intros Ha Hb Hnb. unfold strOr.
  destruct (Str.nonempty a) eqn:Ea; auto.
Qed.

Lemma toCalendarMappingRecord_wf (input : jsval) (fallbackSource : string)
    (m : CalendarMapping) :
  Str.trim fallbackSource = fallbackSource ->
  Str.nonempty fallbackSource = true ->
  toCalendarMappingRecord input fallbackSource = Some m ->
  wfMapping m.
Proof.
  intros Hf Hnf. unfold toCalendarMappingRecord.
  destruct (Str.nonempty (normalizeText (Js.and input _))) eqn:Ec; simpl; [|discriminate].
  intros E. injection E as <-. unfold wfMapping. simpl.
  repeat split; try apply normalizeText_trimmed; try exact Ec;
    apply strOr_wf; auto using normalizeText_trimmed.
Qed.

(** Normalizing a normalized record again gives it back, whatever the
    fallback source. *)
Lemma toCalendarMappingRecord_fixed (m : CalendarMapping) (fallbackSource : string) :
  wfMapping m ->
  toCalendarMappingRecord (mapping_js m) fallbackSource = Some m.
Proof.
  destruct m as [u c s]. unfold wfMapping. simpl.
  intros (Hu & Hc & Hnc & Hs & Hns).
  unfold toCalendarMappingRecord, mapping_js.
  cbn [Js.and Js.truthy Js.get Js.assoc String.eqb Ascii.eqb Bool.eqb].
  unfold Js.or. cbn [Js.truthy user_id cal_id source].
  rewrite Hnc.
  assert (Eu : normalizeText (if Str.nonempty u then JStr u else JUndefined) = u).
  { destruct u; [reflexivity|]. exact Hu. }
  rewrite Eu.
  rewrite (normalizeText_fixed c Hc), (normalizeText_fixed s Hs), Hnc.
  unfold strOr. rewrite Hns. reflexivity.
Qed.

(** On normalized records the loop of
    [deduplicateCalendarTargetsByCalId] keeps the first entry of each
    calendar id that is not in [seenCalIds]. *)
Lemma dedupFrom_keepFirst (l : list CalendarMapping) :
  Forall wfMapping l ->
  forall seenCalIds : list string,
    dedupFrom seenCalIds (map mapping_js l)
    = filter (fun u => negb (existsb (String.eqb (cal_id u)) seenCalIds))
        (keepFirstByCalId l).
Proof.
  induction 1 as [|t rest Ht Hrest IH]; intros seen; simpl; [reflexivity|].
  rewrite (toCalendarMappingRecord_fixed t _ Ht).
  destruct (existsb (String.eqb (cal_id t)) seen) eqn:Es; simpl.
  - rewrite IH, filter_filter. apply filter_ext_in. intros u _.
    destruct (existsb (String.eqb (cal_id u)) seen) eqn:Eu; simpl;
      [symmetry; apply andb_false_r|].
    rewrite andb_true_r. symmetry. apply negb_true_iff. apply String.eqb_neq.
    intros E. rewrite E in Eu. congruence.
  - f_equal. rewrite IH, filter_filter. apply filter_ext_in. intros u _.
    simpl. rewrite negb_orb. reflexivity.
Qed.

Lemma deduplicate_keepFirst (l : list CalendarMapping) :
  Forall wfMapping l ->
  deduplicateCalendarTargetsByCalId (JArr (map mapping_js l)) = keepFirstByCalId l.
Proof.
  intros Hl. unfold deduplicateCalendarTargetsByCalId. simpl.
  rewrite (dedupFrom_keepFirst l Hl []). simpl.
  induction (keepFirstByCalId l) as [|a l' IH]; simpl; [reflexivity|].
  rewrite IH. reflexivity.
Qed.

Lemma mapSet_wf (k : string) (v : CalendarMapping)
    (m : list (string * CalendarMapping)) :
  wfMapping v -> Forall (fun kv => wfMapping (snd kv)) m ->
  Forall (fun kv => wfMapping (snd kv)) (mapSet k v m).
Proof.
  intros Hv. induction 1 as [|[k' v'] rest Hkv Hrest IH]; simpl.
  - constructor; [exact Hv | constructor].
  - destruct (String.eqb k k'); constructor; auto.
Qed.

Lemma mergeCalendarMappingsByUser_wf (rows : jsval) :
  Forall wfMapping (mergeCalendarMappingsByUser rows).
Proof.
  unfold mergeCalendarMappingsByUser.
  assert (G : forall l acc,
             Forall (fun kv => wfMapping (snd kv)) acc ->
             Forall (fun kv => wfMapping (snd kv)) (fold_left mergeStep l acc)).
  { induction l as [|row l IH]; intros acc Hacc; simpl; [exact Hacc|].
    apply IH. unfold mergeStep.
    destruct (toCalendarMappingRecord row _) as [n|] eqn:En; [|exact Hacc].
    destruct (Str.nonempty (user_id n)); [|exact Hacc].
    apply mapSet_wf; [|exact Hacc].
    refine (toCalendarMappingRecord_wf _ _ _ _ _ En);
      apply strOr_wf; auto using normalizeText_trimmed. }
  specialize (G (Js.arrayOrEmpty rows) [] (Forall_nil _)).
  induction G as [|kv l Hkv Hl IH]; simpl; constructor; auto.
Qed.

Lemma Forall_keepFirst (P : CalendarMapping -> Prop) (l : list CalendarMapping) :
  Forall P l -> Forall P (keepFirstByCalId l).
Proof.
  intros Hl. apply Forall_forall. intros t Ht.
  apply keepFirst_incl in Ht. revert t Ht. apply Forall_forall. exact Hl.
Qed.

Lemma buildSyncCalendarTargets_keepFirst (options : CalendarOptions) :
  buildSyncCalendarTargets JSON_parse options
  = keepFirstByCalId
      (withDefault (normalizeText (defaultCalId options))
         (keepFirstByCalId (mergedByUser JSON_parse options))).
Proof.
  unfold buildSyncCalendarTargets.
  assert (Hm : Forall wfMapping (mergedByUser JSON_parse options))
    by apply mergeCalendarMappingsByUser_wf.
  rewrite (deduplicate_keepFirst _ Hm).
  fold (withDefault (normalizeText (defaultCalId options))
          (keepFirstByCalId (mergedByUser JSON_parse options))).
  apply deduplicate_keepFirst.
  unfold withDefault.
  destruct (Str.nonempty (normalizeText (defaultCalId options))) eqn:Ed;
    [|apply Forall_keepFirst; exact Hm].
  apply Forall_app. split; [apply Forall_keepFirst; exact Hm|].
  constructor; [|constructor].
  unfold wfMapping, defaultTarget. simpl.
  repeat split; auto using normalizeText_trimmed.
Qed.

Lemma find_app {A : Type} (p : A -> bool) (l1 l2 : list A) :
  find p (l1 ++ l2)
  = match find p l1 with Some x => Some x | None => find p l2 end.
Proof.
  induction l1 as [|a l1 IH]; simpl; [reflexivity|].
  destruct (p a); [reflexivity | exact IH].
Qed.


End CalendarFacts.

(* ================================================================== *)
(** * The task service *)

Lemma find_map_preserved {A : Type} (q : A -> bool) (g : A -> A) (l : list A) :
  (forall a, q (g a) = q a) ->
  find q (map g l) = option_map g (find q l).
Proof.
  intros Hq. induction l as [|a l IH]; simpl; [reflexivity|].
  rewrite Hq. destruct (q a); [reflexivity | exact IH].
Qed.

Lemma find_none_existsb {A : Type} (q : A -> bool) (l : list A) :
  find q l = None -> existsb q l = false.
Proof.
  induction l as [|a l IH]; simpl; [reflexivity|].
  destruct (q a); [discriminate | exact IH].
Qed.

Lemma filter_none_length {A : Type} (q : A -> bool) (l : list A) :
  (forall a, In a l -> q a = false) -> List.length (filter q l) = O.
Proof.
  induction l as [|a l IH]; simpl; [reflexivity|].
  intros Hq. rewrite (Hq a (or_introl eq_refl)). apply IH.
  intros b Hb. apply Hq. right. exact Hb.
Qed.

Lemma filter_some_length {A : Type} (q : A -> bool) (l : list A) (a : A) :
  In a l -> q a = true -> List.length (filter q l) <> O.
Proof.
  intros Hin Hq. assert (Hf : In a (filter q l)) by (apply filter_In; auto).
  destruct (filter q l); [contradiction | discriminate].
Qed.

Lemma syncFrame_refl (r : Db.TaskRow) : syncFrame r r.
Proof. unfold syncFrame. repeat split. Qed.

Section ServiceFacts.
Context {H : Host}.
Variable datetime_unixepoch : float -> option string.
Variable GLOBAL_VERIFIERS : string.

Lemma get_row_status (t : Db.TaskRow) :
  Js.get (Db.row_js t) "status" = Db.text_js (Db.status t).
Proof. reflexivity. Qed.

Lemma get_row_creator (t : Db.TaskRow) :
  Js.get (Db.row_js t) "creator_userid" = Db.text_js (Db.creator_userid t).
Proof. reflexivity. Qed.

Lemma get_row_executor (t : Db.TaskRow) :
  Js.get (Db.row_js t) "executor_userid" = Db.text_js (Db.executor_userid t).
Proof. reflexivity. Qed.

Lemma get_row_end_time (t : Db.TaskRow) :
  Js.get (Db.row_js t) "end_time" = Db.text_js (Db.end_time t).
Proof. reflexivity. Qed.

Lemma schedule_id_of_object (schedule : jsval) :
  normalizeText (Js.and schedule (Js.get schedule "schedule_id")) <> EmptyString ->
  Js.nullish schedule = false.
Proof. destruct schedule; simpl; congruence. Qed.

(** An empty executor leaves the creator empty as well: the organizer
    is the last resort of [pickExecutor]. *)
Lemma executor_empty_creator_empty (schedule : jsval) :
  pickExecutor schedule = EmptyString -> organizerOf schedule = EmptyString.
Proof.
  rewrite pickExecutor_executorBySpec.
  unfold executorBySpec.
  destruct (find _ (attendeeUserIds schedule)) as [a|] eqn:Ef.
  - apply find_some in Ef. destruct Ef as [Hin _].
    apply attendeeUserIds_nonempty in Hin. intros ->. discriminate Hin.
  - destruct (attendeeUserIds schedule) as [|a rest] eqn:Ea; [exact (fun h => h)|].
    assert (Hin : In a (attendeeUserIds schedule)) by (rewrite Ea; left; reflexivity).
    apply attendeeUserIds_nonempty in Hin. intros ->. discriminate Hin.
Qed.

Lemma afterSend_rows (w : World) (r : SendResult) : rows (afterSend w r) = rows w.
Proof. destruct r; reflexivity. Qed.

Lemma afterSend_seq (w : World) (r : SendResult) : seq (afterSend w r) = seq w.
Proof. destruct r; reflexivity. Qed.

Lemma setSynced_frame (nowSql : string) (p : TaskPayload) (r : Db.TaskRow) :
  syncFrame r (setSynced datetime_unixepoch nowSql p r).
Proof. unfold syncFrame. repeat split. Qed.

Lemma update_frame (where_ : Db.TaskRow -> bool) (set : Db.TaskRow -> Db.TaskRow)
    (l : list Db.TaskRow) :
  (forall r, syncFrame r (set r)) ->
  Forall2 syncFrame l (fst (Db.update where_ set l)).
Proof.
  intros Hset. simpl. induction l as [|r l IH]; simpl; constructor; [|exact IH].
  destruct (where_ r); [apply Hset | apply syncFrame_refl].
Qed.

(** What [syncScheduleTask] does once the schedule id, the creator
    and the executor are there: insert when no row has the schedule id,
    update the rows that have it otherwise. *)
Lemma syncScheduleTask_reconciles (env : Env) (w : World) (schedule : jsval)
    (calendarContext : list (string * jsval)) :
  let scheduleId := normalizeText (Js.and schedule (Js.get schedule "schedule_id")) in
  let p := taskPayload scheduleId schedule (JObj calendarContext) in
  scheduleId <> EmptyString ->
  organizerOf schedule <> EmptyString ->
  pickExecutor schedule <> EmptyString ->
  match getTaskByScheduleId w scheduleId with
  | None =>
      let t := insertedRow datetime_unixepoch (seq w + 1) (clock_sql env) p in
      exists w' : World,
        syncScheduleTask datetime_unixepoch env w schedule calendarContext
        = (w', Returned {| inserted := true; updated := false; skipped := false;
                           reason := None; task := Some t |})
        /\ rows w' = (rows w ++ [t])%list
        /\ getTaskByScheduleId w' scheduleId = Some t
  | Some _ =>
      exists w' : World,
        syncScheduleTask datetime_unixepoch env w schedule calendarContext
        = (w', Returned {| inserted := false; updated := true; skipped := false;
                           reason := None;
                           task := getTaskByScheduleId w' scheduleId |})
        /\ rows w'
           = map (fun r => if Db.hasScheduleId scheduleId r
                           then setSynced datetime_unixepoch (clock_sql env) p r
                           else r) (rows w)
        /\ seq w' = seq w /\ outbox w' = outbox w
  end.
Proof.
  intros scheduleId p Hid Hc He.
  unfold syncScheduleTask, syncScheduleTaskOverlapped, syncScheduleWrite.
  fold scheduleId. fold p.
  apply nonempty_true_iff in Hid. apply nonempty_true_iff in Hc.
  apply nonempty_true_iff in He.
  rewrite Hid.
  change (p_creator_userid p) with (organizerOf schedule).
  change (p_executor_userid p) with (pickExecutor schedule).
  rewrite Hc, He. cbn [negb orb].
  destruct (getTaskByScheduleId w scheduleId) as [old|] eqn:Eg.
  - cbn [Db.update]. eexists. split; [reflexivity|]. repeat split.
  - unfold insertTask. change (p_wecom_schedule_id p) with scheduleId.
    unfold getTaskByScheduleId in Eg. rewrite (find_none_existsb _ _ Eg).
    set (t := insertedRow datetime_unixepoch (seq w + 1) (clock_sql env) p).
    assert (Ef : getTaskByScheduleId
                   {| rows := (rows w ++ [t])%list; seq := seq w + 1; outbox := outbox w |}
                   scheduleId = Some t).
    { unfold getTaskByScheduleId. cbn [rows]. rewrite find_app, Eg. simpl.
      unfold Db.hasScheduleId. cbn [t insertedRow Db.wecom_schedule_id].
      change (p_wecom_schedule_id p) with scheduleId.
      rewrite String.eqb_refl. reflexivity. }
    rewrite Ef. eexists. split; [reflexivity|].
    split; [apply afterSend_rows|].
    unfold getTaskByScheduleId in *. rewrite afterSend_rows. exact Ef.
Qed.

Lemma syncScheduleTask_skips (env : Env) (w : World) (schedule : jsval)
    (calendarContext : list (string * jsval)) :
  normalizeText (Js.and schedule (Js.get schedule "schedule_id")) = EmptyString
  \/ organizerOf schedule = EmptyString \/ pickExecutor schedule = EmptyString ->
  exists why : string,
    syncScheduleTask datetime_unixepoch env w schedule calendarContext
    = (w, Returned (skipResult why)).
Proof.
  intros Hskip. unfold syncScheduleTask, syncScheduleTaskOverlapped.
  set (scheduleId := normalizeText (Js.and schedule (Js.get schedule "schedule_id"))) in *.
  destruct (Str.nonempty scheduleId) eqn:Eid; cbn [negb].
  - change (p_creator_userid (taskPayload scheduleId schedule (JObj calendarContext)))
      with (organizerOf schedule).
    change (p_executor_userid (taskPayload scheduleId schedule (JObj calendarContext)))
      with (pickExecutor schedule).
    destruct Hskip as [E|[E|E]].
    + apply nonempty_false_iff in E. congruence.
    + rewrite E. simpl. eexists. reflexivity.
    + rewrite E. simpl. rewrite orb_true_r. eexists. reflexivity.
  - eexists. reflexivity.
Qed.


Lemma setSynced_keeps_scheduleId (sid nowSql : string) (p : TaskPayload)
    (r : Db.TaskRow) :
  Db.hasScheduleId sid
    (if Db.hasScheduleId sid r then setSynced datetime_unixepoch nowSql p r else r)
  = Db.hasScheduleId sid r.
Proof. destruct (Db.hasScheduleId sid r) eqn:E; exact E. Qed.

(** C2 (as the code has it). A reconciliation that finds the task
    returns [{inserted: false, updated: true}] and overwrites, in the
    rows of that schedule id only, the title, description, creator,
    executor, owner, owner calendar, start time, end time and
    [updated_at]: the status, the redo count, the reject reason, the
    reminder bookkeeping and every other column of every row stay as they
    were.  The second of two calls with one schedule, when the first did
    not skip, is such a reconciliation. *)
Theorem syncScheduleTask_update_in_place (env1 env2 : Env) (w : World)
    (schedule : jsval) (calendarContext : list (string * jsval)) :
  let scheduleId := normalizeText (Js.and schedule (Js.get schedule "schedule_id")) in
  let p := taskPayload scheduleId schedule (JObj calendarContext) in
  let sync := syncScheduleTask datetime_unixepoch in
  let overwrite := fun r : Db.TaskRow =>
    if Db.hasScheduleId scheduleId r
    then setSynced datetime_unixepoch (clock_sql env2) p r else r in
  (scheduleId <> EmptyString -> organizerOf schedule <> EmptyString ->
   getTaskByScheduleId w scheduleId <> None ->
   exists w' : World,
     sync env2 w schedule calendarContext
     = (w', Returned {| inserted := false; updated := true; skipped := false;
                        reason := None;
                        task := getTaskByScheduleId w' scheduleId |})
     /\ rows w' = map overwrite (rows w)
     /\ Forall2 syncFrame (rows w) (rows w'))
  /\ (forall (w1 : World) (r1 : SyncResult),
        sync env1 w schedule calendarContext = (w1, Returned r1) ->
        skipped r1 = false ->
        exists (w2 : World) (r2 : SyncResult),
          sync env2 w1 schedule calendarContext = (w2, Returned r2)
          /\ inserted r2 = false /\ updated r2 = true /\ skipped r2 = false
          /\ rows w2 = map overwrite (rows w1)
          /\ Forall2 syncFrame (rows w1) (rows w2)).
Proof.
  intros scheduleId p sync overwrite.
  assert (Hupd : forall w0 : World,
            scheduleId <> EmptyString -> organizerOf schedule <> EmptyString ->
            getTaskByScheduleId w0 scheduleId <> None ->
            exists w' : World,
              sync env2 w0 schedule calendarContext
              = (w', Returned {| inserted := false; updated := true; skipped := false;
                                 reason := None;
                                 task := getTaskByScheduleId w' scheduleId |})
              /\ rows w' = map overwrite (rows w0)
              /\ Forall2 syncFrame (rows w0) (rows w')).
  { intros w0 Hid Hc Hg.
    assert (He : pickExecutor schedule <> EmptyString)
      by (intros E; apply Hc; apply executor_empty_creator_empty; exact E).
    assert (R := syncScheduleTask_reconciles env2 w0 schedule calendarContext Hid Hc He).
    cbv zeta in R. fold scheduleId in R.
    destruct (getTaskByScheduleId w0 scheduleId); [|congruence].
    destruct R as (w' & E & Hrows & _).
    exists w'. split; [exact E|]. split; [exact Hrows|].
    rewrite Hrows.
    apply (update_frame (Db.hasScheduleId scheduleId)
             (setSynced datetime_unixepoch (clock_sql env2) p)).
    apply setSynced_frame. }
  split; [exact (Hupd w)|].
  intros w1 r1 E1 Hs1.
  assert (Hcond : ~ (scheduleId = EmptyString \/ organizerOf schedule = EmptyString
                     \/ pickExecutor schedule = EmptyString)).
  { intros Hskip.
    destruct (syncScheduleTask_skips env1 w schedule calendarContext Hskip) as [why E].
    unfold sync in E1. rewrite E in E1. injection E1 as _ <-. discriminate Hs1. }
  assert (Hid : scheduleId <> EmptyString) by tauto.
  assert (Hc : organizerOf schedule <> EmptyString) by tauto.
  assert (He : pickExecutor schedule <> EmptyString) by tauto.
  assert (Hg1 : getTaskByScheduleId w1 scheduleId <> None).
  { assert (R := syncScheduleTask_reconciles env1 w schedule calendarContext Hid Hc He).
    cbv zeta in R. fold scheduleId in R.
    destruct (getTaskByScheduleId w scheduleId) as [old|] eqn:Eg.
    - destruct R as (w' & E & Hrows & _).
      unfold sync in E1. rewrite E in E1. injection E1 as <- _.
      unfold getTaskByScheduleId in *. rewrite Hrows.
      rewrite find_map_preserved by (intros a; apply setSynced_keeps_scheduleId).
      rewrite Eg. discriminate.
    - destruct R as (w' & E & _ & Hf).
      unfold sync in E1. rewrite E in E1. injection E1 as <- _.
      rewrite Hf. discriminate. }
  destruct (Hupd w1 Hid Hc Hg1) as (w2 & E2 & Hrows & Hframe).
  exists w2. eexists. split; [exact E2|]. repeat split; assumption.
Qed.

Lemma verifyUpdate_eq (env : Env) (rws : list Db.TaskRow) (sid : string)
    (managerId : jsval) (isApproved : bool) (rejectReason : jsval) :
  verifyUpdate env rws sid managerId isApproved rejectReason
  = (map (fun r => if verifyWhere sid r
                   then verifySet env managerId isApproved rejectReason r else r) rws,
     List.length (filter (verifyWhere sid) rws)).
Proof. reflexivity. Qed.

Lemma verifySet_keeps_scheduleId (env : Env) (sid : string) (managerId : jsval)
    (isApproved : bool) (rejectReason : jsval) (r : Db.TaskRow) :
  Db.hasScheduleId sid
    (if verifyWhere sid r then verifySet env managerId isApproved rejectReason r else r)
  = Db.hasScheduleId sid r.
Proof.
  destruct (verifyWhere sid r); [|reflexivity].
  unfold verifySet. destruct isApproved; reflexivity.
Qed.

(** Once the UPDATE ran, no row of the schedule is waiting for a
    verification any more. *)
Lemma verifySet_leaves_state (env : Env) (sid : string) (managerId : jsval)
    (isApproved : bool) (rejectReason : jsval) (r : Db.TaskRow) :
  verifyWhere sid
    (if verifyWhere sid r then verifySet env managerId isApproved rejectReason r else r)
  = false.
Proof.
  destruct (verifyWhere sid r) eqn:E; [|exact E].
  unfold verifyWhere, verifySet.
  destruct isApproved; unfold Db.hasStatus; simpl; apply andb_false_r.
Qed.

Lemma verifyCommit_conflict_iff (env : Env) (w : World) (sid : string)
    (managerId : jsval) (isApproved : bool) (rejectReason : jsval) :
  snd (verifyCommit env w sid managerId isApproved rejectReason)
  = Thrown TASK_STATUS_CONFLICT
  <-> snd (verifyUpdate env (rows w) sid managerId isApproved rejectReason) = O.
Proof.
  unfold verifyCommit. rewrite verifyUpdate_eq. cbn [snd].
  destruct (List.length (filter (verifyWhere sid) (rows w))) as [|n]; simpl.
  - split; reflexivity.
  - split; discriminate.
Qed.

(** The commit of a verification whose schedule has a row waiting for
    it. *)
Lemma verifyCommit_succeeds (env : Env) (w : World) (sid : string)
    (managerId : jsval) (isApproved : bool) (rejectReason : jsval) (t : Db.TaskRow) :
  getTaskByScheduleId w sid = Some t ->
  Db.status t = Some TASK_STATUS.WAITING_VERIFY ->
  exists w' : World,
    verifyCommit env w sid managerId isApproved rejectReason
    = (w', Returned {|
             v_message := if isApproved then "任务已验收通过" else "任务已驳回并退回执行";
             v_task := Some (verifySet env managerId isApproved rejectReason t) |})
    /\ rows w' = fst (verifyUpdate env (rows w) sid managerId isApproved rejectReason).
Proof.
  intros Hg Hst.
  assert (Hin : In t (rows w) /\ Db.hasScheduleId sid t = true)
    by (apply find_some; exact Hg).
  assert (Hw : verifyWhere sid t = true).
  { unfold verifyWhere. rewrite (proj2 Hin). unfold Db.hasStatus. rewrite Hst. reflexivity. }
  unfold verifyCommit. rewrite verifyUpdate_eq.
  destruct (List.length (filter (verifyWhere sid) (rows w))) as [|n] eqn:En.
  { exfalso. exact (filter_some_length _ _ t (proj1 Hin) Hw En). }
  cbn [Nat.eqb].
  set (g := fun r => if verifyWhere sid r
                     then verifySet env managerId isApproved rejectReason r else r).
  assert (Ef : getTaskByScheduleId {| rows := map g (rows w); seq := seq w; outbox := outbox w |} sid
               = Some (verifySet env managerId isApproved rejectReason t)).
  { unfold getTaskByScheduleId in *. cbn [rows].
    rewrite find_map_preserved by (intros a; apply verifySet_keeps_scheduleId).
    rewrite Hg. simpl. unfold g. rewrite Hw. reflexivity. }
  rewrite Ef. eexists. split; [reflexivity|].
  rewrite afterSend_rows. reflexivity.
Qed.

Lemma canUserVerifyTask_allowed (t : Db.TaskRow) (managerId : jsval)
    (verifiers : list string) :
  Db.status t = Some TASK_STATUS.WAITING_VERIFY ->
  normalizeText managerId <> EmptyString ->
  normalizeText managerId = normalizeText (Db.text_js (Db.creator_userid t))
  \/ In (normalizeText managerId) verifiers ->
  canUserVerifyTask (Db.row_js t) managerId (JArr (map JStr verifiers)) = true.
Proof.
  intros Hst Hne Hwho. unfold canUserVerifyTask.
  rewrite get_row_status, get_row_creator, Hst.
  apply nonempty_true_iff in Hne.
  cbn [Js.truthy Db.row_js negb Js.arrayOrEmpty]. rewrite Hne.
  change (String.eqb (normalizeText (Db.text_js (Some TASK_STATUS.WAITING_VERIFY)))
            TASK_STATUS.WAITING_VERIFY) with true.
  cbn [negb orb].
  destruct Hwho as [E|Hin].
  - rewrite <- E, String.eqb_refl. reflexivity.
  - apply orb_true_iff. right. apply existsb_exists.
    exists (normalizeText managerId). split; [|apply String.eqb_refl].
    apply filter_In. split; [|exact Hne].
    apply in_map_iff. exists (JStr (normalizeText managerId)).
    split; [apply normalizeText_fixed, normalizeText_trimmed|].
    apply in_map. exact Hin.
Qed.

(** C3. For a task in WAITING_VERIFY and a caller who is its creator
    or a configured global verifier, [verifyTask] with [approve = false]
    returns the task with the status PENDING, the verify time and the
    verifier id set, the reject reason set to the given reason (trimmed)
    or to the default when that is blank, and the redo count one higher.
    The UPDATE is conditional on the status WAITING_VERIFY, and the call
    throws the conflict error exactly when that UPDATE changes no row.  Of
    two verify calls (approving or rejecting) that both passed their check
    on one state, the first to commit succeeds and the other one then
    changes nothing and throws the conflict error. *)
Theorem verifyTask_reject_spec (env env' : Env) (w : World)
    (wecomScheduleId : string) (managerId rejectReason : jsval) (t : Db.TaskRow) :
  let uid := normalizeText managerId in
  let why := if Str.nonempty (normalizeText rejectReason)
             then normalizeText rejectReason else "领导驳回" in
  getTaskByScheduleId w wecomScheduleId = Some t ->
  Db.status t = Some TASK_STATUS.WAITING_VERIFY ->
  uid <> EmptyString ->
  uid = normalizeText (Db.text_js (Db.creator_userid t))
  \/ In uid (getGlobalVerifiers GLOBAL_VERIFIERS) ->
  (exists (w' : World) (t' : Db.TaskRow),
     verifyTask GLOBAL_VERIFIERS env w wecomScheduleId managerId false rejectReason
     = (w', Returned {| v_message := "任务已驳回并退回执行"; v_task := Some t' |})
     /\ rows w'
        = map (fun r =>
                 if Db.hasScheduleId wecomScheduleId r
                    && Db.hasStatus TASK_STATUS.WAITING_VERIFY r
                 then Db.setRejected uid why (clock_sql env) r else r) (rows w)
     /\ t' = Db.setRejected uid why (clock_sql env) t
     /\ Db.status t' = Some TASK_STATUS.PENDING
     /\ Db.verify_time t' = Some (clock_sql env)
     /\ Db.verified_by_userid t' = Some uid
     /\ Db.reject_reason t' = Some why
     /\ Db.redo_count t'
        = Some (match Db.redo_count t with Some n => n | None => 0 end + 1))
  /\ (forall (e : Env) (w0 : World) (m r : jsval) (approve : bool),
        snd (verifyCommit e w0 wecomScheduleId m approve r)
        = Thrown (TaskOperationError "TASK_STATUS_CONFLICT"
                    "任务状态已变更，请刷新后重试" 409)
        <-> snd (verifyUpdate e (rows w0) wecomScheduleId m approve r) = O)
  /\ (forall (managerId2 rejectReason2 : jsval) (approve1 approve2 : bool),
        ensureTaskForVerify GLOBAL_VERIFIERS
          (getTaskByScheduleId w wecomScheduleId) managerId2 = None ->
        exists (w1 : World) (done : VerifyResult),
          verifyTask GLOBAL_VERIFIERS env w wecomScheduleId managerId approve1 rejectReason
          = (w1, Returned done)
          /\ snd (verifyUpdate env (rows w) wecomScheduleId managerId approve1 rejectReason)
             <> O
          /\ ((List.length (filter (Db.hasScheduleId wecomScheduleId) (rows w)) <= 1)%nat ->
              snd (verifyUpdate env (rows w) wecomScheduleId managerId approve1 rejectReason)
              = 1%nat)
          /\ exists w2 : World,
               verifyCommit env' w1 wecomScheduleId managerId2 approve2 rejectReason2
               = (w2, Thrown (TaskOperationError "TASK_STATUS_CONFLICT"
                               "任务状态已变更，请刷新后重试" 409))
               /\ snd (verifyUpdate env' (rows w1) wecomScheduleId managerId2
                         approve2 rejectReason2) = O
               /\ rows w2 = rows w1).
Proof.
  intros uid why Hg Hst Hne Hwho.
  assert (Hens : ensureTaskForVerify GLOBAL_VERIFIERS
                   (getTaskByScheduleId w wecomScheduleId) managerId = None).
  { rewrite Hg. unfold ensureTaskForVerify.
    rewrite (canUserVerifyTask_allowed t managerId _ Hst Hne Hwho). reflexivity. }
  assert (Hcommit : forall approve,
            exists w' : World,
              verifyTask GLOBAL_VERIFIERS env w wecomScheduleId managerId approve rejectReason
              = (w', Returned {|
                       v_message := if approve then "任务已验收通过"
                                    else "任务已驳回并退回执行";
                       v_task := Some (verifySet env managerId approve rejectReason t) |})
              /\ rows w' = fst (verifyUpdate env (rows w) wecomScheduleId managerId
                                  approve rejectReason)).
  { intros approve. unfold verifyTask. rewrite Hens.
    apply verifyCommit_succeeds; assumption. }
  split; [|split].
  - destruct (Hcommit false) as (w' & E & Hrows).
    exists w', (Db.setRejected uid why (clock_sql env) t).
    split; [exact E|]. split; [exact Hrows|]. repeat split.
  - intros e w0 m r approve. apply verifyCommit_conflict_iff.
  - intros managerId2 rejectReason2 approve1 approve2 _.
    destruct (Hcommit approve1) as (w1 & E & Hrows).
    assert (Hin : In t (rows w) /\ Db.hasScheduleId wecomScheduleId t = true)
      by (apply find_some; exact Hg).
    assert (Hw : verifyWhere wecomScheduleId t = true).
    { unfold verifyWhere. rewrite (proj2 Hin). unfold Db.hasStatus. rewrite Hst.
      reflexivity. }
    assert (Hpos : List.length (filter (verifyWhere wecomScheduleId) (rows w)) <> O)
      by exact (filter_some_length _ _ t (proj1 Hin) Hw).
    exists w1. eexists. split; [exact E|].
    rewrite verifyUpdate_eq. cbn [snd]. split; [exact Hpos|]. split.
    + intros Hle.
      assert (Hsub : (List.length (filter (verifyWhere wecomScheduleId) (rows w))
                      <= List.length (filter (Db.hasScheduleId wecomScheduleId) (rows w)))%nat).
      { clear. induction (rows w) as [|r l IH]; simpl; [lia|].
        unfold verifyWhere at 1.
        destruct (Db.hasScheduleId wecomScheduleId r); simpl;
          [destruct (Db.hasStatus TASK_STATUS.WAITING_VERIFY r); simpl; lia | exact IH]. }
      lia.
    + assert (Hzero : List.length (filter (verifyWhere wecomScheduleId) (rows w1)) = O).
      { apply filter_none_length. intros a Ha.
        rewrite Hrows, verifyUpdate_eq in Ha. cbn [fst] in Ha.
        apply in_map_iff in Ha. destruct Ha as (r & <- & _).
        apply verifySet_leaves_state. }
      unfold verifyCommit. rewrite verifyUpdate_eq, Hzero. cbn [Nat.eqb snd].
      eexists. split; [reflexivity|]. split; [reflexivity|].
      cbn [rows]. rewrite <- (map_id (rows w1)) at 2.
      apply map_ext_in. intros a Ha.
      destruct (verifyWhere wecomScheduleId a) eqn:Ea; [|reflexivity].
      exfalso. exact (filter_some_length _ _ a Ha Ea Hzero).
Qed.

(** C10. A task whose (normalized) status is not PENDING, or whose
    end time does not parse, gets the reminder kind NONE, for which
    [shouldSendReminder] is false; so [dispatchTaskReminder] returns
    [{sent: false, kind: NONE}] and leaves the table and the outbox as
    they were. *)
Theorem dispatchTaskReminder_not_pending (env : Env) (w : World) (task : Db.TaskRow) :
  normalizeText (Db.text_js (Db.status task)) <> TASK_STATUS.PENDING
  \/ toDateOrNull (Db.text_js (Db.end_time task)) = None ->
  getReminderKind (Db.row_js task) (clock_ms env) = NONE
  /\ shouldSendReminder (Db.row_js task) NONE (clock_ms env) 12 = false
  /\ dispatchTaskReminder env w task = (w, {| sent := false; kind := NONE |}).
Proof.
  intros Hcond.
  assert (Hk : getReminderKind (Db.row_js task) (clock_ms env) = NONE).
  { apply getReminderKind_NONE. rewrite get_row_status, get_row_end_time. exact Hcond. }
  split; [exact Hk|]. split; [apply shouldSendReminder_NONE|].
  unfold dispatchTaskReminder. rewrite Hk, shouldSendReminder_NONE. reflexivity.
Qed.

(** C5 (as the code has it). When a reminder is due for a task whose
    executor id is empty, no card is delivered, and yet the call counts
    as sent: [dispatchTaskReminder] stamps [last_reminder_kind] and
    [last_reminder_at] (and [updated_at]) of the rows with the task's id
    and returns [{sent: true}]. *)
Theorem dispatchTaskReminder_empty_executor (env : Env) (w : World) (task : Db.TaskRow) :
  let reminderKind := getReminderKind (Db.row_js task) (clock_ms env) in
  shouldSendReminder (Db.row_js task) reminderKind (clock_ms env) 12 = true ->
  normalizeText (Db.text_js (Db.executor_userid task)) = EmptyString ->
  exists w' : World,
    dispatchTaskReminder env w task = (w', {| sent := true; kind := reminderKind |})
    /\ outbox w' = outbox w
    /\ rows w'
       = map (fun r =>
                if Db.id r =? Db.id task
                then Db.setReminded (REMINDER_KIND.str reminderKind) (clock_sql env) r
                else r) (rows w)
    /\ (forall r : Db.TaskRow,
          In r (rows w) -> Db.id r = Db.id task ->
          exists r' : Db.TaskRow,
            In r' (rows w')
            /\ Db.id r' = Db.id task
            /\ Db.last_reminder_kind r' = Some (REMINDER_KIND.str reminderKind)
            /\ Db.last_reminder_at r' = Some (clock_sql env)).
Proof.
  intros reminderKind Hsend Hexec.
  unfold dispatchTaskReminder. fold reminderKind. rewrite Hsend. cbn [negb].
  unfold sendExecutorActionCard. rewrite get_row_executor, Hexec. cbn [Str.nonempty negb].
  eexists. split; [reflexivity|]. split; [reflexivity|]. split; [reflexivity|].
  intros r Hin Hid.
  exists (Db.setReminded (REMINDER_KIND.str reminderKind) (clock_sql env) r).
  split; [|repeat split; exact Hid].
  cbn [stampReminder rows afterSend Db.update fst].
  apply in_map_iff. exists r. split; [|exact Hin].
  rewrite Hid, Z.eqb_refl. reflexivity.
Qed.

End ServiceFacts.

(* ================================================================== *)
(** * The lifecycle of a row *)

Lemma hasStatus_eq (st : string) (r : Db.TaskRow) :
  Db.hasStatus st r = true -> Db.status r = Some st.
Proof.
  unfold Db.hasStatus. destruct (Db.status r) as [s|]; [|discriminate].
  intros E. apply String.eqb_eq in E. congruence.
Qed.

Lemma statusStep_refl (s : option string) : statusStep s s.
Proof. left. reflexivity. Qed.

Lemma rowStep_refl (r : Db.TaskRow) : rowStep r r.
Proof. unfold rowStep. repeat split; [apply statusStep_refl | left; reflexivity]. Qed.

Lemma Forall2_rowStep_refl (l : list Db.TaskRow) : Forall2 rowStep l l.
Proof. induction l; constructor; auto using rowStep_refl. Qed.

Lemma Forall2_map_step (R : Db.TaskRow -> Db.TaskRow -> Prop)
    (g : Db.TaskRow -> Db.TaskRow) (l : list Db.TaskRow) :
  (forall r, R r (g r)) -> Forall2 R l (map g l).
Proof. intros Hg. induction l; simpl; constructor; auto. Qed.

Lemma NoDup_snoc {A : Type} (l : list A) (x : A) :
  NoDup l -> ~ In x l -> NoDup (l ++ [x]).
Proof.
  induction l as [|a l IH]; simpl; intros Hnd Hx.
  - constructor; [exact (fun h => h) | constructor].
  - inversion Hnd as [|? ? Ha Hl]; subst. constructor.
    + intros Hin. apply in_app_or in Hin. destruct Hin as [Hin|[E|[]]]; [tauto|].
      apply Hx. left. symmetry. exact E.
    + apply IH; [exact Hl|]. intros Hin. apply Hx. right. exact Hin.
Qed.

Lemma world_eta (w : World) :
  {| rows := rows w; seq := seq w; outbox := outbox w |} = w.
Proof. destruct w. reflexivity. Qed.

Lemma map_unmatched {A : Type} (q : A -> bool) (g : A -> A) (l : list A) :
  List.length (filter q l) = O ->
  map (fun a => if q a then g a else a) l = l.
Proof.
  induction l as [|a l IH]; simpl; [reflexivity|].
  destruct (q a); simpl; [discriminate|]. intros E. rewrite (IH E). reflexivity.
Qed.

Section RowLifecycle.
Context {H : Host}.
Variable datetime_unixepoch : float -> option string.
Variable GLOBAL_VERIFIERS : string.

Lemma submitUpdate_eq (env : Env) (rws : list Db.TaskRow) (sid : string)
    (executorId : jsval) :
  submitUpdate env rws sid executorId
  = (map (fun r => if submitWhere sid r
                   then setSubmitted (normalizeText executorId) (clock_sql env) r
                   else r) rws,
     List.length (filter (submitWhere sid) rws)).
Proof. reflexivity. Qed.

Lemma setSubmitted_step (sid executorId nowSql : string) (r : Db.TaskRow) :
  rowStep r (if submitWhere sid r then setSubmitted executorId nowSql r else r).
Proof.
  destruct (submitWhere sid r) eqn:E; [|apply rowStep_refl].
  unfold submitWhere in E. apply andb_prop in E. destruct E as [_ E].
  apply hasStatus_eq in E.
  unfold rowStep. simpl. repeat split.
  - right. left. split; [exact E | reflexivity].
  - left. reflexivity.
Qed.

Lemma verifySet_step (env : Env) (sid : string) (managerId : jsval)
    (isApproved : bool) (rejectReason : jsval) (r : Db.TaskRow) :
  rowStep r (if verifyWhere sid r
             then verifySet env managerId isApproved rejectReason r else r).
Proof.
  destruct (verifyWhere sid r) eqn:E; [|apply rowStep_refl].
  unfold verifyWhere in E. apply andb_prop in E. destruct E as [_ E].
  apply hasStatus_eq in E.
  unfold rowStep, verifySet. destruct isApproved; simpl; repeat split.
  - right. right. split; [exact E | left; reflexivity].
  - left. reflexivity.
  - right. right. split; [exact E | right; reflexivity].
  - right. split; [exact E|]. split; reflexivity.
Qed.

Lemma setSynced_step (sid nowSql : string) (p : TaskPayload) (r : Db.TaskRow) :
  rowStep r (if Db.hasScheduleId sid r
             then setSynced datetime_unixepoch nowSql p r else r).
Proof.
  destruct (Db.hasScheduleId sid r); [|apply rowStep_refl].
  unfold rowStep. simpl. repeat split; [apply statusStep_refl | left; reflexivity].
Qed.

Lemma setReminded_step (taskId : Z) (kindStr nowSql : string) (r : Db.TaskRow) :
  rowStep r (if Db.id r =? taskId then Db.setReminded kindStr nowSql r else r).
Proof.
  destruct (Db.id r =? taskId); [|apply rowStep_refl].
  unfold rowStep. simpl. repeat split; [apply statusStep_refl | left; reflexivity].
Qed.

(** The rows after [submitForVerification], returned or thrown. *)
Lemma submitForVerification_rows (env : Env) (w : World) (sid : string)
    (executorId : jsval) :
  let w' := fst (submitForVerification GLOBAL_VERIFIERS env w sid executorId) in
  seq w' = seq w
  /\ (rows w' = rows w
      \/ rows w' = map (fun r => if submitWhere sid r
                                 then setSubmitted (normalizeText executorId)
                                        (clock_sql env) r
                                 else r) (rows w)).
Proof.
  unfold submitForVerification.
  destruct (ensureTaskForComplete _ _); [simpl; auto|].
  unfold submitCommit. rewrite submitUpdate_eq.
  destruct (List.length (filter (submitWhere sid) (rows w)) =? 0)%nat; simpl.
  - auto.
  - destruct (getTaskByScheduleId _ _); simpl;
      rewrite ?afterSend_rows, ?afterSend_seq; simpl; auto.
Qed.

(** The rows after [verifyTask], returned or thrown. *)
Lemma verifyTask_rows (env : Env) (w : World) (sid : string)
    (managerId : jsval) (isApproved : bool) (rejectReason : jsval) :
  let w' := fst (verifyTask GLOBAL_VERIFIERS env w sid managerId isApproved rejectReason) in
  seq w' = seq w
  /\ (rows w' = rows w
      \/ rows w' = map (fun r => if verifyWhere sid r
                                 then verifySet env managerId isApproved rejectReason r
                                 else r) (rows w)).
Proof.
  unfold verifyTask.
  destruct (ensureTaskForVerify _ _ _); [simpl; auto|].
  unfold verifyCommit. rewrite verifyUpdate_eq.
  destruct (List.length (filter (verifyWhere sid) (rows w)) =? 0)%nat; simpl.
  - auto.
  - destruct (getTaskByScheduleId _ _); simpl;
      rewrite ?afterSend_rows, ?afterSend_seq; simpl; auto.
Qed.

(** The rows after [dispatchTaskReminder]. *)
Lemma dispatchTaskReminder_rows (env : Env) (w : World) (task : Db.TaskRow) :
  let w' := fst (dispatchTaskReminder env w task) in
  let reminderKind := getReminderKind (Db.row_js task) (clock_ms env) in
  seq w' = seq w
  /\ (w' = w
      \/ (sent (snd (dispatchTaskReminder env w task)) = true
          /\ rows w' = map (fun r => if Db.id r =? Db.id task
                                     then Db.setReminded (REMINDER_KIND.str reminderKind)
                                            (clock_sql env) r
                                     else r) (rows w))).
Proof.
  unfold dispatchTaskReminder.
  destruct (shouldSendReminder _ _ _ _); simpl; [|auto].
  destruct (sendExecutorActionCard _ _ _ _ _) as [|c|]; simpl; auto.
Qed.

Lemma syncScheduleTask_step (env : Env) (w : World) (schedule : jsval)
    (calendarContext : list (string * jsval)) :
  worldStep w (fst (syncScheduleTask datetime_unixepoch env w schedule calendarContext)).
Proof.
  set (scheduleId := normalizeText (Js.and schedule (Js.get schedule "schedule_id"))).
  destruct (string_dec scheduleId EmptyString) as [Eid|Hid];
    [|destruct (string_dec (organizerOf schedule) EmptyString) as [Ec|Hc];
      [|destruct (string_dec (pickExecutor schedule) EmptyString) as [Ee|He]]].
  1-3: destruct (syncScheduleTask_skips datetime_unixepoch env w schedule calendarContext)
         as [why E]; [tauto|];
       rewrite E; left; split; [apply Forall2_rowStep_refl | reflexivity].
  assert (R := syncScheduleTask_reconciles datetime_unixepoch env w schedule
                 calendarContext Hid Hc He).
  cbv zeta in R. fold scheduleId in R.
  destruct (getTaskByScheduleId w scheduleId) as [old|] eqn:Eg.
  - destruct R as (w' & E & Hrows & Hseq & _). rewrite E. simpl.
    left. split; [|exact Hseq]. rewrite Hrows.
    apply Forall2_map_step. intros r. apply setSynced_step.
  - destruct R as (w' & E & Hrows & _). rewrite E. simpl.
    right. eexists. exists scheduleId. split; [exact Hrows|].
    assert (Hseq : seq w' = seq w + 1).
    { revert E. unfold syncScheduleTask, syncScheduleTaskOverlapped, syncScheduleWrite.
      fold scheduleId.
      apply nonempty_true_iff in Hid. apply nonempty_true_iff in Hc.
      apply nonempty_true_iff in He. rewrite Hid.
      change (p_creator_userid (taskPayload scheduleId schedule (JObj calendarContext)))
        with (organizerOf schedule).
      change (p_executor_userid (taskPayload scheduleId schedule (JObj calendarContext)))
        with (pickExecutor schedule).
      rewrite Hc, He, Eg. cbn [negb orb]. unfold insertTask.
      change (p_wecom_schedule_id (taskPayload scheduleId schedule (JObj calendarContext)))
        with scheduleId.
      unfold getTaskByScheduleId in Eg. rewrite (find_none_existsb _ _ Eg).
      destruct (getTaskByScheduleId _ scheduleId); intros E; injection E as <- _;
        rewrite ?afterSend_seq; reflexivity. }
    split; [exact Hseq|]. repeat split.
    apply find_none_existsb. exact Eg.
Qed.

Lemma runOp_step (env : Env) (w : World) (op : Op) :
  worldStep w (runOp datetime_unixepoch GLOBAL_VERIFIERS env w op).
Proof.
  destruct op as [sid executorId | sid managerId isApproved rejectReason
                  | schedule calendarContext | task]; simpl.
  - destruct (submitForVerification_rows env w sid executorId) as [Hseq [E|E]];
      left; (split; [|exact Hseq]); rewrite E;
      [apply Forall2_rowStep_refl | apply Forall2_map_step].
    intros r. apply setSubmitted_step.
  - destruct (verifyTask_rows env w sid managerId isApproved rejectReason)
      as [Hseq [E|E]];
      left; (split; [|exact Hseq]); rewrite E;
      [apply Forall2_rowStep_refl | apply Forall2_map_step].
    intros r. apply verifySet_step.
  - apply syncScheduleTask_step.
  - destruct (dispatchTaskReminder_rows env w task) as [Hseq [E|[_ E]]];
      left; (split; [|exact Hseq]); rewrite E;
      [apply Forall2_rowStep_refl | apply Forall2_map_step].
    intros r. apply setReminded_step.
Qed.

Lemma rowStep_kept (r r' : Db.TaskRow) : rowStep r r' -> rowKept r r'.
Proof.
  unfold rowStep, rowKept, statusStep, redoOf.
  unfold TASK_STATUS.PENDING, TASK_STATUS.WAITING_VERIFY, TASK_STATUS.COMPLETED.
  intros (Hid & Hsid & Hc & Hst & Hredo).
  split; [exact Hid|]. split; [exact Hsid|]. split; [exact Hc|].
  split; [|split].
  - destruct Hredo as [E|(_ & _ & E)]; rewrite E; simpl; lia.
  - intros Hdone. rewrite Hdone in Hst, Hredo.
    destruct Hst as [E|[(E & _)|(E & _)]]; try discriminate E.
    split; [exact E|].
    destruct Hredo as [E'|(E' & _)]; [exact E' | discriminate E'].
  - intros Hp Hw.
    destruct Hst as [E|[(E & _)|(E & _)]]; try contradiction.
    split; [exact E|].
    destruct Hredo as [E'|(E' & _)]; [exact E' | contradiction].
Qed.

Lemma rowKept_refl (r : Db.TaskRow) : rowKept r r.
Proof. apply rowStep_kept, rowStep_refl. Qed.

Lemma rowKept_trans (a b c : Db.TaskRow) : rowKept a b -> rowKept b c -> rowKept a c.
Proof.
  unfold rowKept.
  intros (A1 & A2 & A3 & A4 & A5 & A6) (B1 & B2 & B3 & B4 & B5 & B6).
  split; [congruence|]. split; [congruence|]. split; [congruence|].
  split; [lia|]. split.
  - intros Hdone. destruct (A5 Hdone) as [E1 E2]. destruct (B5 E1) as [E3 E4].
    split; congruence.
  - intros Hp Hw. destruct (A6 Hp Hw) as [E1 E2].
    assert (Hp' : Db.status b <> Some TASK_STATUS.PENDING) by congruence.
    assert (Hw' : Db.status b <> Some TASK_STATUS.WAITING_VERIFY) by congruence.
    destruct (B6 Hp' Hw') as [E3 E4]. split; congruence.
Qed.

Lemma Forall2_rowKept_trans (l1 l2 l3 : list Db.TaskRow) :
  Forall2 rowKept l1 l2 -> Forall2 rowKept l2 l3 -> Forall2 rowKept l1 l3.
Proof.
  intros H12. revert l3. induction H12 as [|a b l1 l2 Hab _ IH]; intros l3 H23.
  - inversion H23. constructor.
  - inversion H23 as [|? c ? l3' Hbc H23']; subst. constructor.
    + exact (rowKept_trans a b c Hab Hbc).
    + apply IH. exact H23'.
Qed.

(** The original rows are a prefix of the table after a call. *)
Lemma worldStep_kept (w w' : World) :
  worldStep w w' ->
  exists kept added : list Db.TaskRow,
    rows w' = (kept ++ added)%list /\ Forall2 rowKept (rows w) kept.
Proof.
  intros [[Hrows _] | (t & sid & Hrows & _)].
  - exists (rows w'), []. rewrite app_nil_r. split; [reflexivity|].
    clear -Hrows. induction Hrows; constructor; auto using rowStep_kept.
  - exists (rows w), [t]. split; [exact Hrows|].
    clear. induction (rows w); constructor; auto using rowKept_refl.
Qed.

Lemma runOps_kept (calls : list (Env * Op)) (w : World) :
  exists kept added : list Db.TaskRow,
    rows (runOps datetime_unixepoch GLOBAL_VERIFIERS w calls) = (kept ++ added)%list
    /\ Forall2 rowKept (rows w) kept.
Proof.
  revert w. induction calls as [|[env op] rest IH]; intros w; simpl.
  - exists (rows w), []. rewrite app_nil_r. split; [reflexivity|].
    induction (rows w); constructor; auto using rowKept_refl.
  - destruct (worldStep_kept _ _ (runOp_step env w op)) as (k1 & a1 & E1 & F1).
    destruct (IH (runOp datetime_unixepoch GLOBAL_VERIFIERS env w op))
      as (k2 & a2 & E2 & F2).
    rewrite E1 in F2. apply Forall2_app_inv_l in F2.
    destruct F2 as (k2a & k2b & Fa & Fb & ->).
    exists k2a, (k2b ++ a2)%list. split; [rewrite E2, app_assoc; reflexivity|].
    exact (Forall2_rowKept_trans _ _ _ F1 Fa).
Qed.

(** X1. Every call of the service (submit, verify, reconcile,
    remind), whatever it returns or throws, either changes rows in place,
    keeping each row's id, schedule id and creation time, moving its
    status only from PENDING to WAITING_VERIFY or from WAITING_VERIFY to
    COMPLETED or PENDING, and its redo count only with a rejection (by
    one), or appends one PENDING row with redo count 0 under the next id
    and a schedule id no row has.  So after any sequence of calls the
    original rows are still the first rows of the table, in their order,
    with their ids and schedule ids, a redo count that is not smaller, and
    a COMPLETED row is COMPLETED for good. *)
Theorem service_keeps_lifecycle (calls : list (Env * Op)) (w : World) :
  (forall (env : Env) (op : Op),
     worldStep w (runOp datetime_unixepoch GLOBAL_VERIFIERS env w op))
  /\ exists kept added : list Db.TaskRow,
       rows (runOps datetime_unixepoch GLOBAL_VERIFIERS w calls) = (kept ++ added)%list
       /\ Forall2 rowKept (rows w) kept.
Proof.
  split.
  - intros env op. apply runOp_step.
  - apply runOps_kept.
Qed.

Lemma rowStep_ids (l l' : list Db.TaskRow) :
  Forall2 rowStep l l' ->
  map Db.id l' = map Db.id l /\ scheduleIds l' = scheduleIds l.
Proof.
  induction 1 as [|r r' l l' (Hid & Hsid & _) _ [IH1 IH2]]; simpl; [auto|].
  rewrite Hid, Hsid, IH1, IH2. auto.
Qed.

Lemma scheduleIds_app (l1 l2 : list Db.TaskRow) :
  scheduleIds (l1 ++ l2) = (scheduleIds l1 ++ scheduleIds l2)%list.
Proof. unfold scheduleIds. apply flat_map_app. Qed.

Lemma scheduleIds_absent (sid : string) (l : list Db.TaskRow) :
  existsb (Db.hasScheduleId sid) l = false -> ~ In sid (scheduleIds l).
Proof.
  induction l as [|r l IH]; simpl; [tauto|].
  intros E. apply orb_false_iff in E. destruct E as [Er El].
  intros Hin. apply in_app_or in Hin. destruct Hin as [Hin|Hin]; [|exact (IH El Hin)].
  unfold Db.hasScheduleId in Er.
  destruct (Db.wecom_schedule_id r) as [s|]; [|contradiction].
  destruct Hin as [E|[]]. subst s. rewrite String.eqb_refl in Er. discriminate Er.
Qed.

Lemma worldStep_storeOk (w w' : World) : worldStep w w' -> storeOk w -> storeOk w'.
Proof.
  unfold storeOk.
  intros [[Hrows Hseq] | (t & sid & Hrows & Hseq & Hid & Hsid & Habs & _)]
         (Hnd & Hle & Hns).
  - destruct (rowStep_ids _ _ Hrows) as [E1 E2]. rewrite E1, E2, Hseq.
    split; [exact Hnd|]. split; [|exact Hns].
    intros r' Hin. apply (in_map Db.id) in Hin. rewrite E1 in Hin.
    apply in_map_iff in Hin. destruct Hin as (r & <- & Hr). apply Hle. exact Hr.
  - rewrite Hrows, Hseq, map_app, scheduleIds_app. simpl.
    rewrite Hsid, Hid. simpl.
    split; [|split].
    + apply NoDup_snoc; [exact Hnd|]. intros Hin. apply in_map_iff in Hin.
      destruct Hin as (r & Er & Hr). specialize (Hle r Hr). lia.
    + intros r Hin. apply in_app_or in Hin. destruct Hin as [Hin|[<-|[]]].
      * specialize (Hle r Hin). lia.
      * lia.
    + apply NoDup_snoc; [exact Hns|]. apply scheduleIds_absent. exact Habs.
Qed.




Lemma canUserCompleteTask_allowed (t : Db.TaskRow) (executorId : jsval) :
  Db.status t = Some TASK_STATUS.PENDING ->
  normalizeText executorId <> EmptyString ->
  normalizeText executorId = normalizeText (Db.text_js (Db.executor_userid t)) ->
  canUserCompleteTask (Db.row_js t) executorId = true.
Proof.
  intros Hst Hne Hwho. unfold canUserCompleteTask.
  rewrite get_row_status, get_row_executor, Hst, <- Hwho.
  apply nonempty_true_iff in Hne.
  cbn [Js.truthy Db.row_js negb]. rewrite Hne, String.eqb_refl. reflexivity.
Qed.

Lemma setSubmitted_keeps_scheduleId (sid executorId nowSql : string) (r : Db.TaskRow) :
  Db.hasScheduleId sid
    (if submitWhere sid r then setSubmitted executorId nowSql r else r)
  = Db.hasScheduleId sid r.
Proof. destruct (submitWhere sid r); reflexivity. Qed.

(** The commit of a submission whose schedule has a pending row. *)
Lemma submitCommit_succeeds (env : Env) (w : World) (sid : string)
    (executorId : jsval) (t : Db.TaskRow) :
  getTaskByScheduleId w sid = Some t ->
  Db.status t = Some TASK_STATUS.PENDING ->
  let t' := setSubmitted (normalizeText executorId) (clock_sql env) t in
  let w1 := {| rows := fst (submitUpdate env (rows w) sid executorId);
               seq := seq w; outbox := outbox w |} in
  submitCommit GLOBAL_VERIFIERS env w sid executorId
  = (afterSend w1 (sendVerifierCard GLOBAL_VERIFIERS env (Db.row_js t')),
     Returned {| v_message := "任务已提交验收"; v_task := Some t' |}).
Proof.
  intros Hg Hst t' w1.
  assert (Hin : In t (rows w) /\ Db.hasScheduleId sid t = true)
    by (apply find_some; exact Hg).
  assert (Hw : submitWhere sid t = true).
  { unfold submitWhere. rewrite (proj2 Hin). unfold Db.hasStatus. rewrite Hst.
    reflexivity. }
  unfold submitCommit. subst w1. rewrite submitUpdate_eq. cbn [fst].
  destruct (List.length (filter (submitWhere sid) (rows w))) as [|n] eqn:En.
  { exfalso. exact (filter_some_length _ _ t (proj1 Hin) Hw En). }
  cbn [Nat.eqb].
  set (g := fun r => if submitWhere sid r
                     then setSubmitted (normalizeText executorId) (clock_sql env) r
                     else r).
  assert (Ef : getTaskByScheduleId
                 {| rows := map g (rows w); seq := seq w; outbox := outbox w |} sid
               = Some t').
  { unfold getTaskByScheduleId in *. cbn [rows].
    rewrite find_map_preserved by (intros a; apply setSubmitted_keeps_scheduleId).
    rewrite Hg. simpl. unfold g. rewrite Hw. reflexivity. }
  rewrite Ef. reflexivity.
Qed.

(** X3. A transition that throws changes nothing, and it throws one
    of three errors: TASK_NOT_FOUND when no row has the schedule id, the
    FORBIDDEN error of the call when the permission check on the row
    found fails, and TASK_STATUS_CONFLICT when the check passes and the
    conditional UPDATE changes no row. *)
Theorem failed_transition_changes_nothing (env : Env) (w : World) (sid : string)
    (userId : jsval) (isApproved : bool) (rejectReason : jsval) (e : Exn) :
  (snd (submitForVerification GLOBAL_VERIFIERS env w sid userId) = Thrown e ->
   fst (submitForVerification GLOBAL_VERIFIERS env w sid userId) = w
   /\ ((e = TASK_NOT_FOUND /\ getTaskByScheduleId w sid = None)
       \/ (e = TASK_COMPLETE_FORBIDDEN
           /\ exists t : Db.TaskRow,
                getTaskByScheduleId w sid = Some t
                /\ canUserCompleteTask (Db.row_js t) userId = false)
       \/ (e = TASK_STATUS_CONFLICT
           /\ snd (submitUpdate env (rows w) sid userId) = O
           /\ exists t : Db.TaskRow,
                getTaskByScheduleId w sid = Some t
                /\ canUserCompleteTask (Db.row_js t) userId = true)))
  /\ (snd (verifyTask GLOBAL_VERIFIERS env w sid userId isApproved rejectReason)
      = Thrown e ->
      fst (verifyTask GLOBAL_VERIFIERS env w sid userId isApproved rejectReason) = w
      /\ ((e = TASK_NOT_FOUND /\ getTaskByScheduleId w sid = None)
          \/ (e = TASK_VERIFY_FORBIDDEN
              /\ exists t : Db.TaskRow,
                   getTaskByScheduleId w sid = Some t
                   /\ canUserVerifyTask (Db.row_js t) userId
                        (JArr (map JStr (getGlobalVerifiers GLOBAL_VERIFIERS))) = false)
          \/ (e = TASK_STATUS_CONFLICT
              /\ snd (verifyUpdate env (rows w) sid userId isApproved rejectReason) = O
              /\ exists t : Db.TaskRow,
                   getTaskByScheduleId w sid = Some t
                   /\ canUserVerifyTask (Db.row_js t) userId
                        (JArr (map JStr (getGlobalVerifiers GLOBAL_VERIFIERS))) = true))).
Proof.
  split.
  - unfold submitForVerification, ensureTaskForComplete.
    destruct (getTaskByScheduleId w sid) as [t|] eqn:Eg.
    + destruct (canUserCompleteTask (Db.row_js t) userId) eqn:Ec; cbn [negb].
      * unfold submitCommit. rewrite submitUpdate_eq. cbn [snd].
        destruct (List.length (filter (submitWhere sid) (rows w))) as [|n] eqn:En;
          cbn [Nat.eqb fst snd].
        -- intros E. injection E as <-. split.
           ++ rewrite (map_unmatched _ _ _ En). apply world_eta.
           ++ right. right. split; [reflexivity|]. split; [reflexivity|].
              exists t. auto.
        -- discriminate.
      * simpl. intros E. injection E as <-. split; [reflexivity|].
        right. left. split; [reflexivity|]. exists t. auto.
    + simpl. intros E. injection E as <-. split; [reflexivity|]. left. auto.
  - unfold verifyTask, ensureTaskForVerify.
    destruct (getTaskByScheduleId w sid) as [t|] eqn:Eg.
    + destruct (canUserVerifyTask (Db.row_js t) userId _) eqn:Ec; cbn [negb].
      * unfold verifyCommit. rewrite verifyUpdate_eq. cbn [snd].
        destruct (List.length (filter (verifyWhere sid) (rows w))) as [|n] eqn:En;
          cbn [Nat.eqb fst snd].
        -- intros E. injection E as <-. split.
           ++ rewrite (map_unmatched _ _ _ En). apply world_eta.
           ++ right. right. split; [reflexivity|]. split; [reflexivity|].
              exists t. auto.
        -- discriminate.
      * simpl. intros E. injection E as <-. split; [reflexivity|].
        right. left. split; [reflexivity|]. exists t. auto.
    + simpl. intros E. injection E as <-. split; [reflexivity|]. left. auto.
Qed.

(** X4. For a task in PENDING and a caller who is its executor,
    [submitForVerification] returns the task with the status
    WAITING_VERIFY, the completion time and the submitting user set, the
    reject reason cleared and the redo count as it was; only rows of that
    schedule id in PENDING change; and whether the card to the verifiers
    is delivered or the request fails changes neither the result nor the
    table. *)
Theorem submitForVerification_spec (env : Env) (w : World) (sid : string)
    (executorId : jsval) (t : Db.TaskRow) :
  let uid := normalizeText executorId in
  getTaskByScheduleId w sid = Some t ->
  Db.status t = Some TASK_STATUS.PENDING ->
  uid <> EmptyString ->
  uid = normalizeText (Db.text_js (Db.executor_userid t)) ->
  exists (w' : World) (t' : Db.TaskRow),
    submitForVerification GLOBAL_VERIFIERS env w sid executorId
    = (w', Returned {| v_message := "任务已提交验收"; v_task := Some t' |})
    /\ rows w' = map (fun r => if Db.hasScheduleId sid r
                                  && Db.hasStatus TASK_STATUS.PENDING r
                               then setSubmitted uid (clock_sql env) r else r) (rows w)
    /\ Db.status t' = Some TASK_STATUS.WAITING_VERIFY
    /\ Db.completion_time t' = Some (clock_sql env)
    /\ Db.completed_by_userid t' = Some uid
    /\ Db.reject_reason t' = None
    /\ Db.redo_count t' = Db.redo_count t
    /\ Db.executor_userid t' = Db.executor_userid t
    /\ Db.creator_userid t' = Db.creator_userid t
    /\ (forall env' : Env,
          clock_sql env' = clock_sql env ->
          snd (submitForVerification GLOBAL_VERIFIERS env' w sid executorId)
          = Returned {| v_message := "任务已提交验收"; v_task := Some t' |}
          /\ rows (fst (submitForVerification GLOBAL_VERIFIERS env' w sid executorId))
             = rows w').
Proof.
  intros uid Hg Hst Hne Hwho.
  assert (Hens : ensureTaskForComplete (getTaskByScheduleId w sid) executorId = None).
  { rewrite Hg. unfold ensureTaskForComplete.
    rewrite (canUserCompleteTask_allowed t executorId Hst Hne Hwho). reflexivity. }
  assert (Hrun : forall e : Env,
            submitForVerification GLOBAL_VERIFIERS e w sid executorId
            = (afterSend {| rows := fst (submitUpdate e (rows w) sid executorId);
                            seq := seq w; outbox := outbox w |}
                 (sendVerifierCard GLOBAL_VERIFIERS e
                    (Db.row_js (setSubmitted uid (clock_sql e) t))),
               Returned {| v_message := "任务已提交验收";
                           v_task := Some (setSubmitted uid (clock_sql e) t) |})).
  { intros e. unfold submitForVerification. rewrite Hens.
    apply submitCommit_succeeds; assumption. }
  eexists. exists (setSubmitted uid (clock_sql env) t).
  split; [apply Hrun|]. rewrite afterSend_rows. cbn [rows].
  do 8 (split; [reflexivity|]).
  intros env' Hclock. rewrite Hrun. cbn [fst snd].
  rewrite !afterSend_rows. cbn [rows]. rewrite !submitUpdate_eq, Hclock.
  split; reflexivity.
Qed.

(** X5. For a task in WAITING_VERIFY and a caller who is its creator
    or a configured global verifier, [verifyTask] with [approve = true]
    returns the task with the status COMPLETED, the verify time and the
    verifier id set, the reject reason cleared and the redo count as it
    was, whatever reason is passed along. *)
Theorem verifyTask_approve_spec (env : Env) (w : World) (sid : string)
    (managerId rejectReason : jsval) (t : Db.TaskRow) :
  let uid := normalizeText managerId in
  getTaskByScheduleId w sid = Some t ->
  Db.status t = Some TASK_STATUS.WAITING_VERIFY ->
  uid <> EmptyString ->
  uid = normalizeText (Db.text_js (Db.creator_userid t))
  \/ In uid (getGlobalVerifiers GLOBAL_VERIFIERS) ->
  exists (w' : World) (t' : Db.TaskRow),
    verifyTask GLOBAL_VERIFIERS env w sid managerId true rejectReason
    = (w', Returned {| v_message := "任务已验收通过"; v_task := Some t' |})
    /\ rows w' = map (fun r => if Db.hasScheduleId sid r
                                  && Db.hasStatus TASK_STATUS.WAITING_VERIFY r
                               then Db.setApproved uid (clock_sql env) r else r) (rows w)
    /\ Db.status t' = Some TASK_STATUS.COMPLETED
    /\ Db.verify_time t' = Some (clock_sql env)
    /\ Db.verified_by_userid t' = Some uid
    /\ Db.reject_reason t' = None
    /\ Db.redo_count t' = Db.redo_count t
    /\ Db.completion_time t' = Db.completion_time t.
Proof.
  intros uid Hg Hst Hne Hwho.
  assert (Hens : ensureTaskForVerify GLOBAL_VERIFIERS
                   (getTaskByScheduleId w sid) managerId = None).
  { rewrite Hg. unfold ensureTaskForVerify.
    rewrite (canUserVerifyTask_allowed t managerId _ Hst Hne Hwho). reflexivity. }
  destruct (verifyCommit_succeeds env w sid managerId true rejectReason t Hg Hst)
    as (w' & E & Hrows).
  exists w', (Db.setApproved uid (clock_sql env) t).
  split; [unfold verifyTask; rewrite Hens; exact E|].
  split; [exact Hrows|]. repeat split.
Qed.

(** One round of submitting and rejecting, on the row found under the
    schedule id. *)
Lemma reject_round (envS envR : Env) (w : World) (sid : string)
    (executorId managerId rejectReason : jsval) (t : Db.TaskRow) :
  getTaskByScheduleId w sid = Some t ->
  Db.status t = Some TASK_STATUS.PENDING ->
  normalizeText executorId <> EmptyString ->
  normalizeText executorId = normalizeText (Db.text_js (Db.executor_userid t)) ->
  normalizeText managerId <> EmptyString ->
  normalizeText managerId = normalizeText (Db.text_js (Db.creator_userid t))
  \/ In (normalizeText managerId) (getGlobalVerifiers GLOBAL_VERIFIERS) ->
  getTaskByScheduleId
    (runOp datetime_unixepoch GLOBAL_VERIFIERS envR
       (runOp datetime_unixepoch GLOBAL_VERIFIERS envS w (OpSubmit sid executorId))
       (OpVerify sid managerId false rejectReason)) sid
  = Some (verifySet envR managerId false rejectReason
            (setSubmitted (normalizeText executorId) (clock_sql envS) t)).
Proof.
  intros Hg Hst HneE HwhoE HneM HwhoM. simpl.
  assert (HensS : ensureTaskForComplete (getTaskByScheduleId w sid) executorId = None).
  { rewrite Hg. unfold ensureTaskForComplete.
    rewrite (canUserCompleteTask_allowed t executorId Hst HneE HwhoE). reflexivity. }
  unfold submitForVerification. rewrite HensS.
  rewrite (submitCommit_succeeds envS w sid executorId t Hg Hst). cbn [fst].
  set (t1 := setSubmitted (normalizeText executorId) (clock_sql envS) t).
  set (w1 := afterSend _ _).
  assert (Hg1 : getTaskByScheduleId w1 sid = Some t1).
  { unfold getTaskByScheduleId, w1. rewrite afterSend_rows. cbn [rows].
    rewrite submitUpdate_eq. cbn [fst].
    rewrite find_map_preserved by (intros a; apply setSubmitted_keeps_scheduleId).
    unfold getTaskByScheduleId in Hg. rewrite Hg. simpl.
    assert (Hw : submitWhere sid t = true).
    { unfold submitWhere. rewrite (proj2 (find_some _ _ Hg)).
      unfold Db.hasStatus. rewrite Hst. reflexivity. }
    rewrite Hw. reflexivity. }
  assert (HensR : ensureTaskForVerify GLOBAL_VERIFIERS
                    (getTaskByScheduleId w1 sid) managerId = None).
  { rewrite Hg1. unfold ensureTaskForVerify.
    rewrite (canUserVerifyTask_allowed t1 managerId _ eq_refl HneM HwhoM). reflexivity. }
  unfold verifyTask. rewrite HensR.
  destruct (verifyCommit_succeeds envR w1 sid managerId false rejectReason t1 Hg1 eq_refl)
    as (w2 & E & Hrows).
  rewrite E. cbn [fst].
  unfold getTaskByScheduleId. rewrite Hrows, verifyUpdate_eq. cbn [fst].
  rewrite find_map_preserved by (intros a; apply verifySet_keeps_scheduleId).
  unfold getTaskByScheduleId in Hg1. rewrite Hg1. simpl.
  assert (Hw1 : verifyWhere sid t1 = true).
  { unfold verifyWhere. rewrite (proj2 (find_some _ _ Hg1)). reflexivity. }
  rewrite Hw1. reflexivity.
Qed.

(** X6. The reject and redo loop: from a PENDING task, [n] rounds of
    the executor submitting and the creator (or a global verifier)
    rejecting leave the task PENDING with a redo count [n] higher, the
    executor and the creator as they were, and, after at least one round,
    the reject reason of the last rejection (the trimmed reason, or the
    default when it is blank). *)
Theorem rejectRounds_redo_count (n : nat) (envs : nat -> Env * Env) (w : World)
    (sid : string) (executorId managerId rejectReason : jsval) (t : Db.TaskRow) :
  getTaskByScheduleId w sid = Some t ->
  Db.status t = Some TASK_STATUS.PENDING ->
  normalizeText executorId <> EmptyString ->
  normalizeText executorId = normalizeText (Db.text_js (Db.executor_userid t)) ->
  normalizeText managerId <> EmptyString ->
  normalizeText managerId = normalizeText (Db.text_js (Db.creator_userid t))
  \/ In (normalizeText managerId) (getGlobalVerifiers GLOBAL_VERIFIERS) ->
  exists tn : Db.TaskRow,
    getTaskByScheduleId
      (rejectRounds datetime_unixepoch GLOBAL_VERIFIERS n envs w sid
         executorId managerId rejectReason) sid = Some tn
    /\ Db.status tn = Some TASK_STATUS.PENDING
    /\ redoOf tn = redoOf t + Z.of_nat n
    /\ Db.executor_userid tn = Db.executor_userid t
    /\ Db.creator_userid tn = Db.creator_userid t
    /\ (n <> O ->
        Db.reject_reason tn
        = Some (if Str.nonempty (normalizeText rejectReason)
                then normalizeText rejectReason else "领导驳回")).
Proof.
  intros Hg Hst HneE HwhoE HneM HwhoM.
  induction n as [|k IH].
  - exists t. simpl. repeat split; [exact Hg | exact Hst | lia | congruence].
  - destruct IH as (tk & Hgk & Hstk & Hredo & Hex & Hcr & _).
    eexists. split.
    + simpl rejectRounds.
      apply (reject_round (fst (envs k)) (snd (envs k)) _ sid executorId managerId
               rejectReason tk Hgk Hstk HneE); [congruence | exact HneM | ].
      rewrite Hcr. exact HwhoM.
    + unfold verifySet, redoOf in *. simpl.
      repeat split; try assumption.
      rewrite Hredo. lia.
Qed.

End RowLifecycle.

(* ================================================================== *)
(** * Classification, permissions and counts *)

Lemma uniq_In (x : string) (l : list string) : In x (uniq l) <-> In x l.
Proof.
  induction l as [|a l IH]; simpl; [tauto|].
  rewrite filter_In, IH. split.
  - intros [E|[Hin _]]; auto.
  - intros [E|Hin]; [left; exact E|].
    destruct (String.eqb x a) eqn:Ex.
    + left. apply String.eqb_eq in Ex. congruence.
    + right. split; [exact Hin | reflexivity].
Qed.

Lemma filter_NoDup {A : Type} (f : A -> bool) (l : list A) :
  NoDup l -> NoDup (filter f l).
Proof.
  induction 1 as [|a l Ha Hl IH]; simpl; [constructor|].
  destruct (f a); [|exact IH]. constructor; [|exact IH].
  intros Hin. apply filter_In in Hin. tauto.
Qed.

Lemma uniq_NoDup (l : list string) : NoDup (uniq l).
Proof.
  induction l as [|a l IH]; simpl; constructor.
  - intros Hin. apply filter_In in Hin. destruct Hin as [_ E].
    rewrite String.eqb_refl in E. discriminate E.
  - apply filter_NoDup. exact IH.
Qed.

Lemma count_exclusive (f g : jsval -> bool) (l : list jsval) :
  (forall x, f x = true -> g x = false) ->
  (count f l + count g l <= List.length l)%nat.
Proof.
  intros Hfg. unfold count. induction l as [|a l IH]; simpl; [lia|].
  destruct (f a) eqn:Ef; [rewrite (Hfg a Ef)|destruct (g a)]; simpl; lia.
Qed.

Lemma count_exclusive3 (f g h : jsval -> bool) (l : list jsval) :
  (forall x, f x = true -> g x = false /\ h x = false) ->
  (forall x, g x = true -> h x = false) ->
  (count f l + count g l + count h l <= List.length l)%nat.
Proof.
  intros Hf Hg. unfold count. induction l as [|a l IH]; simpl; [lia|].
  destruct (f a) eqn:Ef.
  - destruct (Hf a Ef) as [-> ->]. simpl. lia.
  - destruct (g a) eqn:Eg; [rewrite (Hg a Eg)|destruct (h a)]; simpl; lia.
Qed.

Section ClassificationFacts.
Context {H : Host}.

(** [getReminderKind] on a task that passes its first test. *)
Lemma getReminderKind_pending (task : jsval) (now : Z) :
  Js.truthy task = true ->
  normalizeText (Js.get task "status") = TASK_STATUS.PENDING ->
  getReminderKind task now
  = match toDateOrNull (Js.get task "end_time") with
    | None => NONE
    | Some endTime =>
        if endTime - now <? 0 then OVERDUE
        else if endTime - now <=? DAY_MS then DUE_SOON else NONE
    end.
Proof.
  intros Ht Hs. unfold getReminderKind. rewrite Ht, Hs. reflexivity.
Qed.

Lemma getReminderKind_not_NONE (task : jsval) (now : Z) :
  getReminderKind task now <> NONE ->
  Js.truthy task = true
  /\ normalizeText (Js.get task "status") = TASK_STATUS.PENDING.
Proof.
  unfold getReminderKind.
  destruct (Js.truthy task); simpl; [|congruence].
  destruct (String.eqb _ TASK_STATUS.PENDING) eqn:E; simpl; [|congruence].
  intros _. split; [reflexivity|]. apply String.eqb_eq. exact E.
Qed.

Lemma isTaskDueSoon_true (task : jsval) (now : Z) :
  isTaskDueSoon task now = true ->
  Js.truthy task = true
  /\ normalizeText (Js.get task "status") = TASK_STATUS.PENDING
  /\ exists endTime : Z,
       toDateOrNull (Js.get task "end_time") = Some endTime
       /\ 0 <= endTime - now <= DAY_MS.
Proof.
  unfold isTaskDueSoon, Js.and.
  destruct (Js.truthy task) eqn:Ht.
  - destruct (toDateOrNull (Js.get task "end_time")) as [endTime|]; [|discriminate].
    cbn [negb].
    destruct (String.eqb _ TASK_STATUS.PENDING) eqn:Es; cbn [negb]; [|discriminate].
    intros E. apply andb_prop in E. destruct E as [E1 E2].
    apply Z.leb_le in E1. apply Z.leb_le in E2. apply String.eqb_eq in Es.
    split; [reflexivity|]. split; [exact Es|]. exists endTime. split; [reflexivity | lia].
  - destruct (toDateOrNull task); [|discriminate]. cbn [negb]. discriminate.
Qed.

Lemma isTaskOverdue_true (task : jsval) (now : Z) :
  isTaskOverdue task now = true ->
  Js.truthy task = true
  /\ normalizeText (Js.get task "status") <> TASK_STATUS.COMPLETED
  /\ exists endTime : Z,
       toDateOrNull (Js.get task "end_time") = Some endTime /\ endTime < now.
Proof.
  unfold isTaskOverdue, Js.and.
  destruct (Js.truthy task) eqn:Ht.
  - destruct (toDateOrNull (Js.get task "end_time")) as [endTime|]; [|discriminate].
    cbn [negb].
    destruct (String.eqb _ TASK_STATUS.COMPLETED) eqn:Es; [discriminate|].
    intros E. apply Z.ltb_lt in E. apply String.eqb_neq in Es.
    split; [reflexivity|]. split; [exact Es|]. exists endTime. auto.
  - destruct (toDateOrNull task); [|discriminate]. cbn [negb]. discriminate.
Qed.

(** X7. The three classifiers agree: a task is due soon exactly when
    its reminder kind is DUE_SOON; its reminder kind is OVERDUE exactly
    when it is overdue and PENDING; never is a task both due soon and
    overdue; and a task whose end time is exactly [now] is due soon, not
    overdue. *)
Theorem reminder_kind_agrees_with_flags (task : jsval) (now : Z) :
  (isTaskDueSoon task now = true <-> getReminderKind task now = DUE_SOON)
  /\ (getReminderKind task now = OVERDUE
      <-> isTaskOverdue task now = true
          /\ normalizeText (Js.get task "status") = TASK_STATUS.PENDING)
  /\ isTaskDueSoon task now && isTaskOverdue task now = false
  /\ (Js.truthy task = true ->
      normalizeText (Js.get task "status") = TASK_STATUS.PENDING ->
      toDateOrNull (Js.get task "end_time") = Some now ->
      getReminderKind task now = DUE_SOON /\ isTaskOverdue task now = false).
Proof.
  assert (Hdue : isTaskDueSoon task now = true <-> getReminderKind task now = DUE_SOON).
  { split.
    - intros E. destruct (isTaskDueSoon_true task now E) as (Ht & Hs & endTime & He & Hr).
      rewrite (getReminderKind_pending task now Ht Hs), He.
      destruct (endTime - now <? 0) eqn:E1; [apply Z.ltb_lt in E1; lia|].
      destruct (endTime - now <=? DAY_MS) eqn:E2; [reflexivity|].
      apply Z.leb_gt in E2. lia.
    - intros E.
      destruct (getReminderKind_not_NONE task now) as [Ht Hs]; [congruence|].
      rewrite (getReminderKind_pending task now Ht Hs) in E.
      unfold isTaskDueSoon, Js.and. rewrite Ht, Hs.
      destruct (toDateOrNull (Js.get task "end_time")) as [endTime|]; [|discriminate].
      destruct (endTime - now <? 0) eqn:E1; [discriminate|].
      destruct (endTime - now <=? DAY_MS) eqn:E2; [|discriminate].
      apply Z.ltb_ge in E1. apply Z.leb_le in E1. rewrite E1. reflexivity. }
  split; [exact Hdue|]. split; [|split].
  - split.
    + intros E.
      destruct (getReminderKind_not_NONE task now) as [Ht Hs]; [congruence|].
      rewrite (getReminderKind_pending task now Ht Hs) in E.
      split; [|exact Hs].
      unfold isTaskOverdue, Js.and. rewrite Ht, Hs.
      destruct (toDateOrNull (Js.get task "end_time")) as [endTime|]; [|discriminate].
      destruct (endTime - now <? 0) eqn:E1.
      * apply Z.ltb_lt in E1. simpl. apply Z.ltb_lt. lia.
      * destruct (endTime - now <=? DAY_MS); discriminate.
    + intros [E Hs].
      destruct (isTaskOverdue_true task now E) as (Ht & _ & endTime & He & Hr).
      rewrite (getReminderKind_pending task now Ht Hs), He.
      destruct (endTime - now <? 0) eqn:E1; [reflexivity|].
      apply Z.ltb_ge in E1. lia.
  - destruct (isTaskDueSoon task now) eqn:Ed; [|reflexivity].
    destruct (isTaskOverdue task now) eqn:Eo; [|reflexivity].
    destruct (isTaskDueSoon_true task now Ed) as (_ & _ & e1 & He1 & Hr1).
    destruct (isTaskOverdue_true task now Eo) as (_ & _ & e2 & He2 & Hr2).
    rewrite He1 in He2. injection He2 as <-. lia.
  - intros Ht Hs He. split.
    + rewrite (getReminderKind_pending task now Ht Hs), He.
      rewrite Z.sub_diag. reflexivity.
    + unfold isTaskOverdue, Js.and. rewrite Ht, He, Hs. simpl. apply Z.ltb_irrefl.
Qed.

(** X8. As time passes a task's reminder only becomes more urgent: an
    overdue task stays overdue, a task due soon stays due soon or becomes
    overdue; and a reminder that is due stays due until one is recorded
    (with a cooldown that is not negative nothing else is needed). *)
Theorem reminders_only_escalate (task : jsval) (reminderKind : ReminderKind)
    (now later cooldownHours : Z) :
  now <= later ->
  (getReminderKind task now = OVERDUE -> getReminderKind task later = OVERDUE)
  /\ (getReminderKind task now = DUE_SOON ->
      getReminderKind task later = DUE_SOON \/ getReminderKind task later = OVERDUE)
  /\ (shouldSendReminder task reminderKind now cooldownHours = true ->
      shouldSendReminder task reminderKind later cooldownHours = true).
Proof.
  intros Hle. split; [|split].
  - intros E.
    destruct (getReminderKind_not_NONE task now) as [Ht Hs]; [congruence|].
    rewrite (getReminderKind_pending task now Ht Hs) in E.
    rewrite (getReminderKind_pending task later Ht Hs).
    destruct (toDateOrNull (Js.get task "end_time")) as [endTime|]; [|discriminate].
    destruct (endTime - now <? 0) eqn:E1.
    + apply Z.ltb_lt in E1.
      replace (endTime - later <? 0) with true by (symmetry; apply Z.ltb_lt; lia).
      reflexivity.
    + destruct (endTime - now <=? DAY_MS); discriminate.
  - intros E.
    destruct (getReminderKind_not_NONE task now) as [Ht Hs]; [congruence|].
    rewrite (getReminderKind_pending task now Ht Hs) in E.
    rewrite (getReminderKind_pending task later Ht Hs).
    destruct (toDateOrNull (Js.get task "end_time")) as [endTime|]; [|discriminate].
    destruct (endTime - now <? 0) eqn:E1; [discriminate|].
    destruct (endTime - now <=? DAY_MS) eqn:E2; [|discriminate].
    apply Z.leb_le in E2.
    destruct (endTime - later <? 0); [right; reflexivity|].
    replace (endTime - later <=? DAY_MS) with true by (symmetry; apply Z.leb_le; lia).
    left. reflexivity.
  - unfold shouldSendReminder.
    destruct (negb (Js.truthy task) || REMINDER_KIND.eqb reminderKind NONE);
      [discriminate|].
    cbv zeta.
    destruct (negb (Str.nonempty _) || negb (String.eqb _ _)); [reflexivity|].
    destruct (toDateOrNull (Js.get task "last_reminder_at")) as [t|]; [|reflexivity].
    intros E. apply Z.leb_le in E. apply Z.leb_le. lia.
Qed.

(** X9. The permission checks: a user may submit a task exactly when
    the task is PENDING and the user's id, not empty, is the executor's;
    may verify it exactly when the task is WAITING_VERIFY and the user's
    id, not empty, is the creator's or is in the list of global
    verifiers.  So a user without id may do neither, even on a task
    without executor or creator. *)
Theorem permissions_spec (props : list (string * jsval)) (userId : jsval)
    (verifiers : list jsval) :
  let task := JObj props in
  let uid := normalizeText userId in
  (canUserCompleteTask task userId = true
   <-> uid <> EmptyString
       /\ uid = normalizeText (Js.get task "executor_userid")
       /\ normalizeText (Js.get task "status") = TASK_STATUS.PENDING)
  /\ (canUserVerifyTask task userId (JArr verifiers) = true
      <-> uid <> EmptyString
          /\ normalizeText (Js.get task "status") = TASK_STATUS.WAITING_VERIFY
          /\ (uid = normalizeText (Js.get task "creator_userid")
              \/ exists v : jsval, In v verifiers /\ normalizeText v = uid))
  /\ (uid = EmptyString ->
      canUserCompleteTask task userId = false
      /\ canUserVerifyTask task userId (JArr verifiers) = false).
Proof.
  intros task uid.
  assert (Hc : canUserCompleteTask task userId = true
               <-> uid <> EmptyString
                   /\ uid = normalizeText (Js.get task "executor_userid")
                   /\ normalizeText (Js.get task "status") = TASK_STATUS.PENDING).
  { unfold canUserCompleteTask. cbn [Js.truthy task negb]. fold uid.
    rewrite !andb_true_iff, !String.eqb_eq, nonempty_true_iff, nonempty_true_iff.
    split.
    - intros [[[A B] C] D]. auto.
    - intros (A & B & C). repeat split; auto. rewrite <- B. exact A. }
  assert (Hv : canUserVerifyTask task userId (JArr verifiers) = true
               <-> uid <> EmptyString
                   /\ normalizeText (Js.get task "status") = TASK_STATUS.WAITING_VERIFY
                   /\ (uid = normalizeText (Js.get task "creator_userid")
                       \/ exists v : jsval, In v verifiers /\ normalizeText v = uid)).
  { unfold canUserVerifyTask. cbn [Js.truthy task negb Js.arrayOrEmpty]. fold uid.
    destruct (Str.nonempty uid) eqn:En; cbn [negb orb].
    - apply nonempty_true_iff in En.
      destruct (String.eqb (normalizeText (Js.get task "status"))
                  TASK_STATUS.WAITING_VERIFY) eqn:Es; cbn [negb].
      + apply String.eqb_eq in Es.
        rewrite orb_true_iff, String.eqb_eq, existsb_exists. split.
        * intros [E|(x & Hx & Ex)]; (split; [exact En|]); (split; [exact Es|]).
          -- left. exact E.
          -- right. apply filter_In in Hx. destruct Hx as [Hx _].
             apply in_map_iff in Hx. destruct Hx as (v & Ev & Hv).
             apply String.eqb_eq in Ex. exists v. split; [exact Hv | congruence].
        * intros (_ & _ & [E|(v & Hv & Ev)]); [left; exact E|].
          right. exists uid. split; [|apply String.eqb_refl].
          apply filter_In. split; [|apply nonempty_true_iff; exact En].
          apply in_map_iff. exists v. auto.
      + apply String.eqb_neq in Es. split; [discriminate|]. intros (_ & E & _).
        contradiction.
    - apply nonempty_false_iff in En. split; [discriminate|]. intros (A & _).
      contradiction. }
  split; [exact Hc|]. split; [exact Hv|].
  intros E. split; apply Bool.not_true_is_false; intros Ec.
  - apply Hc in Ec. tauto.
  - apply Hv in Ec. tauto.
Qed.

(** X10. [parseGlobalVerifiers] returns the trimmed, non-empty pieces
    of the comma-separated value, each once: the list has no duplicate, no
    empty and no untrimmed entry, a user id is in it exactly when it is
    not empty and is the trimmed form of a piece, and a blank value gives
    the empty list. *)
Theorem parseGlobalVerifiers_spec (rawValue : jsval) :
  let result := parseGlobalVerifiers rawValue in
  NoDup result
  /\ (forall u : string,
        In u result
        <-> u <> EmptyString
            /\ exists piece : string,
                 In piece (Str.split "," (normalizeText rawValue))
                 /\ Str.trim piece = u)
  /\ (forall u : string, In u result -> Str.trim u = u)
  /\ (normalizeText rawValue = EmptyString -> result = []).
Proof.
  intros result.
  assert (Hin : forall u : string,
            In u result
            <-> u <> EmptyString
                /\ exists piece : string,
                     In piece (Str.split "," (normalizeText rawValue))
                     /\ Str.trim piece = u).
  { intros u. unfold result, parseGlobalVerifiers.
    destruct (Str.nonempty (normalizeText rawValue)) eqn:En; cbn [negb].
    - rewrite uniq_In, filter_In, in_map_iff, nonempty_true_iff. split.
      + intros [(piece & E & Hp) Hu]. split; [exact Hu|]. exists piece. auto.
      + intros [Hu (piece & Hp & E)]. split; [|exact Hu]. exists piece. auto.
    - apply nonempty_false_iff in En. rewrite En. simpl. split; [tauto|].
      intros [Hu (piece & [<-|[]] & E)]. apply Hu. rewrite <- E. reflexivity. }
  split; [|split; [exact Hin|split]].
  - unfold result, parseGlobalVerifiers.
    destruct (negb (Str.nonempty (normalizeText rawValue))); [constructor|].
    apply uniq_NoDup.
  - intros u Hu. apply Hin in Hu. destruct Hu as [_ (piece & _ & <-)].
    apply trim_idem.
  - intros E. unfold result, parseGlobalVerifiers. rewrite E. reflexivity.
Qed.

Lemma hasStatus_exclusive (s1 s2 : string) (item : jsval) :
  s1 <> s2 -> hasStatus s1 item = true -> hasStatus s2 item = false.
Proof.
  unfold hasStatus. intros Hne E. apply String.eqb_eq in E.
  apply String.eqb_neq. congruence.
Qed.

(** X11. The counts of [buildTaskKpi] fit together: completed,
    waiting-for-verification and due-soon rows are different rows, so
    their counts add up to at most the total; so do the completed and the
    overdue rows, and the overdue and the due-soon rows; and the rows
    completed on time are among the completed rows. *)
Theorem buildTaskKpi_counts (rows : list jsval) (now : Z) (kpi : TaskKpi) :
  buildTaskKpi (JArr rows) now = Some kpi ->
  (completed_tasks kpi + waiting_verify_tasks kpi + due_soon_tasks kpi
   <= total_tasks kpi)%nat
  /\ (completed_tasks kpi + overdue_tasks kpi <= total_tasks kpi)%nat
  /\ (overdue_tasks kpi + due_soon_tasks kpi <= total_tasks kpi)%nat
  /\ (count completedOnTime rows <= completed_tasks kpi)%nat
  /\ total_tasks kpi = List.length rows.
Proof.
  unfold buildTaskKpi. cbn [Js.arrayOrEmpty].
  destruct (existsb Js.nullish rows); [discriminate|].
  intros E. injection E as <-. cbn [completed_tasks waiting_verify_tasks due_soon_tasks
                                     overdue_tasks total_tasks].
  assert (Hdue : forall x, isTaskDueSoon x now = true ->
                   hasStatus TASK_STATUS.PENDING x = true).
  { intros x Ex. destruct (isTaskDueSoon_true x now Ex) as (_ & Hs & _).
    unfold hasStatus. rewrite Hs. reflexivity. }
  split; [|split; [|split; [|split]]].
  - apply count_exclusive3.
    + intros x Ex. split.
      * apply (hasStatus_exclusive TASK_STATUS.COMPLETED); [discriminate | exact Ex].
      * destruct (isTaskDueSoon x now) eqn:Ed; [|reflexivity].
        apply Hdue in Ed.
        apply (hasStatus_exclusive TASK_STATUS.COMPLETED TASK_STATUS.PENDING) in Ex;
          [congruence | discriminate].
    + intros x Ex. destruct (isTaskDueSoon x now) eqn:Ed; [|reflexivity].
      apply Hdue in Ed.
      apply (hasStatus_exclusive TASK_STATUS.WAITING_VERIFY TASK_STATUS.PENDING) in Ex;
        [congruence | discriminate].
  - apply count_exclusive. intros x Ex.
    destruct (isTaskOverdue x now) eqn:Eo; [|reflexivity].
    destruct (isTaskOverdue_true x now Eo) as (_ & Hs & _).
    unfold hasStatus in Ex. apply String.eqb_eq in Ex. contradiction.
  - apply count_exclusive. intros x Ex.
    destruct (isTaskDueSoon x now) eqn:Ed; [|reflexivity].
    destruct (isTaskDueSoon_true x now Ed) as (_ & _ & e1 & He1 & Hr1).
    destruct (isTaskOverdue_true x now Ex) as (_ & _ & e2 & He2 & Hr2).
    rewrite He1 in He2. injection He2 as <-. lia.
  - unfold count. induction rows as [|a l IH]; simpl; [lia|].
    unfold completedOnTime at 1.
    destruct (hasStatus TASK_STATUS.COMPLETED a); cbn [negb].
    + destruct (match _ with Some _ => _ | None => _ end); simpl; lia.
    + exact IH.
  - reflexivity.
Qed.

End ClassificationFacts.

(* ================================================================== *)
(** * Reminders over time *)

Section ReminderFacts.
Context {H : Host}.

Lemma kind_str_normal (k : ReminderKind) :
  normalizeText (JStr (REMINDER_KIND.str k)) = REMINDER_KIND.str k.
Proof. destruct k; reflexivity. Qed.

Lemma kind_str_inj (a b : ReminderKind) :
  REMINDER_KIND.str a = REMINDER_KIND.str b -> a = b.
Proof. destruct a, b; simpl; congruence. Qed.

Lemma shouldSendReminder_stamped (task : Db.TaskRow) (k k' : ReminderKind)
    (stampSql : string) (now : Z) :
  k' <> NONE ->
  shouldSendReminder (Db.row_js (Db.setReminded (REMINDER_KIND.str k) stampSql task))
    k' now 12
  = if negb (REMINDER_KIND.eqb k k') then true
    else match toDateOrNull (JStr stampSql) with
         | None => true
         | Some stampedAt => 12 * 60 * 60 * 1000 <=? now - stampedAt
         end.
Proof.
  intros Hk. unfold shouldSendReminder.
  rewrite (proj2 (kind_eqb_NONE _) Hk).
  change (Js.get (Db.row_js (Db.setReminded (REMINDER_KIND.str k) stampSql task))
            "last_reminder_kind") with (JStr (REMINDER_KIND.str k)).
  change (Js.get (Db.row_js (Db.setReminded (REMINDER_KIND.str k) stampSql task))
            "last_reminder_at") with (JStr stampSql).
  rewrite kind_str_normal. cbn [Js.truthy Db.row_js negb orb].
  replace (Str.nonempty (REMINDER_KIND.str k)) with true by (destruct k; reflexivity).
  cbn [negb orb].
  destruct (String.eqb (REMINDER_KIND.str k) (REMINDER_KIND.str k')) eqn:E.
  - apply String.eqb_eq, kind_str_inj in E. subst k'.
    replace (REMINDER_KIND.eqb k k) with true by (destruct k; reflexivity).
    reflexivity.
  - apply String.eqb_neq in E.
    replace (REMINDER_KIND.eqb k k') with false; [reflexivity|].
    destruct k, k'; simpl in *; congruence.
Qed.

(** X12. The cooldown at work: when [dispatchTaskReminder] counts a
    reminder as sent, it stamps the kind and the time on the rows with the
    task's id and changes nothing else of the table; the stamp does not
    change what kind the task is classified as; and for the stamped task,
    as long as the kind is the same and less than 12 hours have passed
    since the stamped time (as [Date.parse] reads it), the next call
    sends nothing and changes nothing, while after 12 hours, or at once
    when the kind has changed, a reminder is due again. *)
Theorem dispatchTaskReminder_cooldown (env1 env2 : Env) (w w2 : World)
    (task : Db.TaskRow) (stampedAt : Z) :
  let k := getReminderKind (Db.row_js task) (clock_ms env1) in
  let stamped := Db.setReminded (REMINDER_KIND.str k) (clock_sql env1) task in
  let k2 := getReminderKind (Db.row_js stamped) (clock_ms env2) in
  sent (snd (dispatchTaskReminder env1 w task)) = true ->
  toDateOrNull (JStr (clock_sql env1)) = Some stampedAt ->
  rows (fst (dispatchTaskReminder env1 w task))
  = map (fun r => if Db.id r =? Db.id task
                  then Db.setReminded (REMINDER_KIND.str k) (clock_sql env1) r
                  else r) (rows w)
  /\ k2 = getReminderKind (Db.row_js task) (clock_ms env2)
  /\ (k2 = k -> clock_ms env2 - stampedAt < 12 * 60 * 60 * 1000 ->
      dispatchTaskReminder env2 w2 stamped = (w2, {| sent := false; kind := k |}))
  /\ (k2 = k -> 12 * 60 * 60 * 1000 <= clock_ms env2 - stampedAt ->
      shouldSendReminder (Db.row_js stamped) k2 (clock_ms env2) 12 = true)
  /\ (k2 <> k -> k2 <> NONE ->
      shouldSendReminder (Db.row_js stamped) k2 (clock_ms env2) 12 = true).
Proof.
  intros k stamped k2 Hsent Hparse.
  assert (Hk : k <> NONE).
  { intros E. revert Hsent. unfold dispatchTaskReminder. fold k. rewrite E.
    rewrite shouldSendReminder_NONE. simpl. discriminate. }
  split; [|split; [reflexivity|split; [|split]]].
  - revert Hsent. unfold dispatchTaskReminder. fold k.
    destruct (shouldSendReminder _ k _ _); cbn [negb]; [|simpl; discriminate].
    destruct (sendExecutorActionCard _ _ _ _ _) as [|c|]; simpl; intros E;
      try discriminate E; reflexivity.
  - intros E2 Hlt. unfold dispatchTaskReminder. fold k2. rewrite E2.
    unfold stamped. rewrite (shouldSendReminder_stamped task k k _ _ Hk), Hparse.
    replace (REMINDER_KIND.eqb k k) with true by (destruct k; reflexivity).
    cbn [negb].
    replace (12 * 60 * 60 * 1000 <=? clock_ms env2 - stampedAt) with false
      by (symmetry; apply Z.leb_gt; lia).
    reflexivity.
  - intros E2 Hge. rewrite E2.
    unfold stamped. rewrite (shouldSendReminder_stamped task k k _ _ Hk), Hparse.
    replace (REMINDER_KIND.eqb k k) with true by (destruct k; reflexivity).
    cbn [negb]. apply Z.leb_le. exact Hge.
  - intros Hne Hn2.
    unfold stamped. rewrite (shouldSendReminder_stamped task k k2 _ _ Hn2).
    replace (REMINDER_KIND.eqb k k2) with false; [reflexivity|].
    destruct k, k2; simpl; congruence.
Qed.

End ReminderFacts.

(* ================================================================== *)
(** * Mappings by user *)

Lemma find_unique {A : Type} (f : A -> string) (u : string) (l : list A) (x : A) :
  NoDup (map f l) -> In x l -> f x = u ->
  find (fun a => String.eqb (f a) u) l = Some x.
Proof.
  induction l as [|a l IH]; simpl; [tauto|].
  intros Hnd Hin Hx. inversion Hnd as [|? ? Ha Hl]; subst.
  destruct Hin as [->|Hin].
  - rewrite String.eqb_refl. reflexivity.
  - destruct (String.eqb (f a) (f x)) eqn:E; [|apply IH; auto].
    apply String.eqb_eq in E. exfalso. apply Ha. rewrite E. apply in_map. exact Hin.
Qed.

Lemma find_rev_unique {A : Type} (f : A -> string) (u : string) (l : list A) :
  NoDup (map f l) ->
  find (fun a => String.eqb (f a) u) (rev l) = find (fun a => String.eqb (f a) u) l.
Proof.
  intros Hnd.
  destruct (find (fun a => String.eqb (f a) u) l) as [x|] eqn:E.
  - destruct (find_some _ _ E) as [Hin Hx]. apply String.eqb_eq in Hx.
    apply find_unique; [|apply in_rev in Hin; exact Hin|exact Hx].
    rewrite map_rev. apply NoDup_rev. exact Hnd.
  - destruct (find (fun a => String.eqb (f a) u) (rev l)) as [y|] eqn:E'; [|reflexivity].
    destruct (find_some _ _ E') as [Hin Hy]. apply in_rev in Hin.
    rewrite (find_none _ _ E y Hin) in Hy. discriminate Hy.
Qed.

Lemma mapSet_find (u k : string) (v : CalendarMapping)
    (m : list (string * CalendarMapping)) :
  find (hasKey u) (mapSet k v m)
  = if String.eqb k u then Some (k, v) else find (hasKey u) m.
Proof.
  induction m as [|[k' v'] rest IH]; simpl.
  - unfold hasKey. simpl. destruct (String.eqb k u); reflexivity.
  - destruct (String.eqb k k') eqn:Ek; simpl; unfold hasKey at 1; simpl.
    + apply String.eqb_eq in Ek. subst k'.
      unfold hasKey at 2. simpl. destruct (String.eqb k u); reflexivity.
    + unfold hasKey at 2. simpl. rewrite IH.
      destruct (String.eqb k' u) eqn:Ek'; [|reflexivity].
      apply String.eqb_eq in Ek'. subst k'. rewrite Ek. reflexivity.
Qed.

Lemma mapSet_keys (k : string) (v : CalendarMapping)
    (m : list (string * CalendarMapping)) :
  map fst (mapSet k v m)
  = if existsb (String.eqb k) (map fst m) then map fst m
    else (map fst m ++ [k])%list.
Proof.
  induction m as [|[k' v'] rest IH]; simpl; [reflexivity|].
  destruct (String.eqb k k') eqn:Ek; simpl.
  - apply String.eqb_eq in Ek. subst k'. reflexivity.
  - rewrite IH. destruct (existsb (String.eqb k) (map fst rest)); reflexivity.
Qed.

Lemma mapSet_keysOk (k : string) (v : CalendarMapping)
    (m : list (string * CalendarMapping)) :
  k = user_id v -> Str.nonempty k = true -> keysOk m -> keysOk (mapSet k v m).
Proof.
  intros Hk Hne [Hall Hnd]. split.
  - clear Hnd. induction Hall as [|[k' v'] rest Hkv Hrest IH]; simpl.
    + constructor; [split; assumption | constructor].
    + destruct (String.eqb k k'); constructor; auto; split; assumption.
  - rewrite mapSet_keys.
    destruct (existsb (String.eqb k) (map fst m)) eqn:E; [exact Hnd|].
    apply NoDup_snoc; [exact Hnd|]. intros Hin.
    assert (Hex : existsb (String.eqb k) (map fst m) = true).
    { apply existsb_exists. exists k. split; [exact Hin | apply String.eqb_refl]. }
    congruence.
Qed.

Lemma keysOk_values (u : string) (m : list (string * CalendarMapping)) :
  keysOk m ->
  find (fun n => String.eqb (user_id n) u) (map snd m)
  = option_map snd (find (hasKey u) m)
  /\ map user_id (map snd m) = map fst m.
Proof.
  intros [Hall _]. induction Hall as [|[k v] rest [Hkv _] _ [IH1 IH2]]; simpl; [auto|].
  simpl in Hkv. unfold hasKey at 1. simpl. rewrite <- Hkv, IH2.
  split; [|reflexivity].
  destruct (String.eqb k u); [reflexivity | exact IH1].
Qed.

Section MappingFacts.
Context {H : Host}.
Variable JSON_parse : string -> option jsval.

Lemma mergeStep_eq (merged : list (string * CalendarMapping)) (row : jsval) :
  mergeStep merged row
  = match normalizedRow row with
    | Some n => if Str.nonempty (user_id n) then mapSet (user_id n) n merged else merged
    | None => merged
    end.
Proof. reflexivity. Qed.

Lemma mergeStep_keysOk (rows : list jsval) (acc : list (string * CalendarMapping)) :
  keysOk acc -> keysOk (fold_left mergeStep rows acc).
Proof.
  revert acc. induction rows as [|row rows IH]; intros acc Hacc; simpl; [exact Hacc|].
  apply IH. rewrite mergeStep_eq.
  destruct (normalizedRow row) as [n|]; [|exact Hacc].
  destruct (Str.nonempty (user_id n)) eqn:En; [|exact Hacc].
  apply mapSet_keysOk; auto.
Qed.

Lemma mergeStep_find (u : string) (rows : list jsval)
    (acc : list (string * CalendarMapping)) :
  u <> EmptyString ->
  find (hasKey u) (fold_left mergeStep rows acc)
  = match lastFor u rows with
    | Some n => Some (u, n)
    | None => find (hasKey u) acc
    end.
Proof.
  intros Hu. revert acc. induction rows as [|row rows IH]; intros acc; simpl;
    [reflexivity|].
  rewrite IH. unfold lastFor. simpl. rewrite rev_app_distr, find_app.
  destruct (find (hasUser u) (rev (normalizedRows rows))) as [n|]; [reflexivity|].
  rewrite mergeStep_eq.
  destruct (normalizedRow row) as [n|]; simpl; [|reflexivity].
  unfold hasUser at 1.
  destruct (Str.nonempty (user_id n)) eqn:En.
  - rewrite mapSet_find. destruct (String.eqb (user_id n) u) eqn:E; [|reflexivity].
    apply String.eqb_eq in E. rewrite E. reflexivity.
  - apply nonempty_false_iff in En. rewrite En.
    destruct (String.eqb EmptyString u) eqn:E; [|reflexivity].
    apply String.eqb_eq in E. congruence.
Qed.

Lemma keysOk_nil : keysOk [].
Proof. split; constructor. Qed.

Lemma merge_lookup (u : string) (rows : list jsval) :
  u <> EmptyString ->
  find (hasUser u) (mergeCalendarMappingsByUser (JArr rows)) = lastFor u rows.
Proof.
  intros Hu. unfold mergeCalendarMappingsByUser. cbn [Js.arrayOrEmpty].
  destruct (keysOk_values u _ (mergeStep_keysOk rows [] keysOk_nil)) as [E _].
  unfold hasUser at 1. rewrite E, (mergeStep_find u rows [] Hu).
  destruct (lastFor u rows); reflexivity.
Qed.

Lemma merge_users (rows : jsval) :
  NoDup (map user_id (mergeCalendarMappingsByUser rows))
  /\ Forall (fun n => Str.nonempty (user_id n) = true)
       (mergeCalendarMappingsByUser rows).
Proof.
  unfold mergeCalendarMappingsByUser.
  assert (Hok := mergeStep_keysOk (Js.arrayOrEmpty rows) [] keysOk_nil).
  destruct (keysOk_values EmptyString _ Hok) as [_ E].
  split; [rewrite E; exact (proj2 Hok)|].
  clear E. destruct Hok as [Hall _].
  generalize dependent (fold_left mergeStep (Js.arrayOrEmpty rows) []).
  intros m Hall.
  induction Hall as [|[k v] rest [Hkv Hne] _ IH]; simpl; constructor; [|exact IH].
  simpl in *. rewrite <- Hkv. exact Hne.
Qed.

Lemma normalizedRows_js (l : list CalendarMapping) :
  Forall wfMapping l -> normalizedRows (map mapping_js l) = l.
Proof.
  induction 1 as [|m l Hm _ IH]; simpl; [reflexivity|].
  unfold normalizedRow. rewrite (toCalendarMappingRecord_fixed m _ Hm). simpl.
  rewrite IH. reflexivity.
Qed.

Lemma lastFor_app (u : string) (l1 l2 : list jsval) :
  lastFor u (l1 ++ l2)
  = match lastFor u l2 with Some n => Some n | None => lastFor u l1 end.
Proof.
  unfold lastFor, normalizedRows. rewrite flat_map_app, rev_app_distr, find_app.
  reflexivity.
Qed.

(** Merging rows that were merged already changes no lookup. *)
Lemma lastFor_merged (u : string) (rows : list jsval) :
  u <> EmptyString ->
  lastFor u (map mapping_js (mergeCalendarMappingsByUser (JArr rows)))
  = lastFor u rows.
Proof.
  intros Hu. unfold lastFor at 1.
  rewrite (normalizedRows_js _ (mergeCalendarMappingsByUser_wf (JArr rows))).
  unfold hasUser.
  rewrite (find_rev_unique user_id u _ (proj1 (merge_users (JArr rows)))).
  apply merge_lookup. exact Hu.
Qed.

(** X13. [mergeCalendarMappingsByUser] returns one mapping per user:
    no user id twice, no empty user id, no empty calendar id, no empty
    source, every one of the three fields trimmed; the mapping of a user
    is the last row of that user (last write wins); and what is not an
    array merges to nothing. *)
Theorem mergeCalendarMappingsByUser_spec (rows : jsval) :
  let result := mergeCalendarMappingsByUser rows in
  NoDup (map user_id result)
  /\ (forall n : CalendarMapping,
        In n result ->
        user_id n <> EmptyString /\ cal_id n <> EmptyString
        /\ source n <> EmptyString
        /\ Str.trim (user_id n) = user_id n /\ Str.trim (cal_id n) = cal_id n
        /\ Str.trim (source n) = source n)
  /\ (forall u : string,
        u <> EmptyString ->
        find (hasUser u) result = lastFor u (Js.arrayOrEmpty rows))
  /\ ((forall l : list jsval, rows <> JArr l) -> result = []).
Proof.
  intros result. destruct (merge_users rows) as [Hnd Hne].
  split; [exact Hnd|]. split; [|split].
  - intros n Hn.
    assert (Hwf : wfMapping n).
    { assert (Hall := mergeCalendarMappingsByUser_wf rows).
      rewrite Forall_forall in Hall. apply Hall. exact Hn. }
    rewrite Forall_forall in Hne. specialize (Hne n Hn).
    destruct Hwf as (Hu & Hc & Hnc & Hs & Hns).
    repeat split; try assumption; apply nonempty_true_iff; assumption.
  - intros u Hu. unfold result.
    destruct rows as [| | | | |l|]; try reflexivity.
    apply merge_lookup. exact Hu.
  - intros Hna. unfold result. destruct rows as [| | | | |l|]; try reflexivity.
    exfalso. exact (Hna l eq_refl).
Qed.

Lemma keepFirst_nil_iff (l : list CalendarMapping) :
  keepFirstByCalId l = [] <-> l = [].
Proof. destruct l; simpl; split; congruence. Qed.

(** The lookup of a user in the merged list of [buildSyncCalendarTargets]
    and in the list of [resolveCalendarIdByUser]. *)
Lemma mergedByUser_lookup (u : string) (options : CalendarOptions) :
  u <> EmptyString ->
  find (hasUser u) (mergedByUser JSON_parse options)
  = find (hasUser u)
      (mergeCalendarMappingsByUser
         (JArr (map mapping_js (parseUserCalendarMap JSON_parse
                                  (userCalendarMapRaw options))
                ++ Js.arrayOrEmpty (userCalendarRows options)))).
Proof.
  intros Hu. unfold mergedByUser.
  rewrite !(merge_lookup u _ Hu), map_app, !lastFor_app.
  assert (E : mergeCalendarMappingsByUser (Js.or (userCalendarRows options) (JArr []))
              = mergeCalendarMappingsByUser
                  (JArr (Js.arrayOrEmpty (userCalendarRows options)))).
  { unfold mergeCalendarMappingsByUser. f_equal. f_equal.
    destruct (userCalendarRows options) as [| |b|x|str|l|props]; try reflexivity;
      unfold Js.or; destruct (Js.truthy _); reflexivity. }
  rewrite E, (lastFor_merged u _ Hu). reflexivity.
Qed.

Lemma targets_cover (c : string) (options : CalendarOptions) :
  (exists n : CalendarMapping,
     In n (mergedByUser JSON_parse options) /\ cal_id n = c)
  \/ (Str.nonempty (normalizeText (defaultCalId options)) = true
      /\ normalizeText (defaultCalId options) = c) ->
  exists t : CalendarMapping,
    In t (buildSyncCalendarTargets JSON_parse options) /\ cal_id t = c.
Proof.
  intros Hsrc.
  assert (Hfind : exists first : CalendarMapping,
            find (hasCalId c)
              (withDefault (normalizeText (defaultCalId options))
                 (keepFirstByCalId (mergedByUser JSON_parse options))) = Some first).
  { unfold withDefault. destruct Hsrc as [(n & Hn & Ec) | [Hd Ec]].
    - assert (Hsome : exists first,
                find (hasCalId c) (mergedByUser JSON_parse options) = Some first).
      { destruct (find (hasCalId c) (mergedByUser JSON_parse options)) as [f|] eqn:Ef;
          [exists f; reflexivity|].
        exfalso. assert (Hf := find_none _ _ Ef n Hn).
        unfold hasCalId in Hf. rewrite Ec, String.eqb_refl in Hf. discriminate Hf. }
      destruct Hsome as [first Ef]. exists first.
      destruct (Str.nonempty (normalizeText (defaultCalId options)));
        rewrite ?find_app, find_keepFirst, Ef; reflexivity.
    - rewrite Hd, find_app.
      destruct (find (hasCalId c) (keepFirstByCalId (mergedByUser JSON_parse options)))
        as [f|]; [exists f; reflexivity|].
      simpl. unfold hasCalId. simpl. rewrite Ec, String.eqb_refl.
      eexists. reflexivity. }
  destruct Hfind as [first Ef].
  exists first.
  assert (Hin : In first (filter (hasCalId c) (buildSyncCalendarTargets JSON_parse options))).
  { rewrite buildSyncCalendarTargets_keepFirst, filter_keepFirst, Ef. left. reflexivity. }
  apply filter_In in Hin. destruct Hin as [Hin Hc].
  split; [exact Hin|]. apply String.eqb_eq. exact Hc.
Qed.

(** X14. [resolveCalendarIdByUser] gives the default calendar to a
    user without id and to a user nobody mapped, and to a mapped user the
    calendar of the user's last mapping (storage rows after config
    entries); and whenever the calendar it gives is not empty, that
    calendar is one of the sync targets of the same options: the calendar
    a task is written to is a calendar the sync polls. *)
Theorem resolveCalendarIdByUser_spec (userId : jsval) (options : CalendarOptions) :
  let uid := normalizeText userId in
  let default := normalizeText (defaultCalId options) in
  let rows := (map mapping_js (parseUserCalendarMap JSON_parse
                                 (userCalendarMapRaw options))
               ++ Js.arrayOrEmpty (userCalendarRows options))%list in
  let resolved := resolveCalendarIdByUser JSON_parse userId options in
  (uid = EmptyString -> resolved = default)
  /\ (uid <> EmptyString ->
      resolved = match lastFor uid rows with
                 | Some n => cal_id n
                 | None => default
                 end)
  /\ (resolved <> EmptyString ->
      exists t : CalendarMapping,
        In t (buildSyncCalendarTargets JSON_parse options) /\ cal_id t = resolved).
Proof.
  intros uid default rows resolved.
  assert (Hres : uid <> EmptyString ->
            resolved = match lastFor uid rows with
                       | Some n => cal_id n
                       | None => default
                       end).
  { intros Hu. unfold resolved, resolveCalendarIdByUser. fold uid default rows.
    apply nonempty_true_iff in Hu. rewrite Hu. cbn [negb].
    apply nonempty_true_iff in Hu.
    change (fun item : CalendarMapping => String.eqb (user_id item) uid)
      with (fun item : CalendarMapping => String.eqb (user_id item) uid).
    rewrite (find_rev_unique user_id uid _ (proj1 (merge_users (JArr rows)))).
    fold (hasUser uid). rewrite (merge_lookup uid rows Hu). reflexivity. }
  assert (Hempty : uid = EmptyString -> resolved = default).
  { intros Hu. unfold resolved, resolveCalendarIdByUser. fold uid. rewrite Hu.
    reflexivity. }
  split; [exact Hempty|]. split; [exact Hres|].
  intros Hne. apply targets_cover.
  destruct (string_dec uid EmptyString) as [Hu|Hu].
  - right. rewrite (Hempty Hu) in Hne. fold default.
    split; [apply nonempty_true_iff; exact Hne | symmetry; exact (Hempty Hu)].
  - rewrite (Hres Hu) in *.
    destruct (lastFor uid rows) as [n|] eqn:El.
    + left. exists n. split; [|reflexivity].
      assert (Ef : find (hasUser uid) (mergedByUser JSON_parse options) = Some n).
      { rewrite (mergedByUser_lookup uid options Hu). fold rows.
        rewrite (merge_lookup uid rows Hu). exact El. }
      exact (proj1 (find_some _ _ Ef)).
    + right. fold default. split; [apply nonempty_true_iff; exact Hne | reflexivity].
Qed.

Lemma buildSyncCalendarTargets_cal_id (options : CalendarOptions)
    (t : CalendarMapping) :
  In t (buildSyncCalendarTargets JSON_parse options) ->
  cal_id t <> EmptyString /\ Str.trim (cal_id t) = cal_id t.
Proof.
  rewrite buildSyncCalendarTargets_keepFirst.
  assert (Hm : Forall wfMapping (mergedByUser JSON_parse options))
    by apply mergeCalendarMappingsByUser_wf.
  intros Ht. apply keepFirst_incl in Ht. unfold withDefault in Ht.
  assert (Hwf : wfMapping t \/ (t = defaultTarget (normalizeText (defaultCalId options))
                                /\ Str.nonempty (normalizeText (defaultCalId options)) = true)).
  { destruct (Str.nonempty (normalizeText (defaultCalId options))) eqn:Ed.
    - apply in_app_or in Ht. destruct Ht as [Ht|[<-|[]]]; [|right; auto].
      left. apply keepFirst_incl in Ht. rewrite Forall_forall in Hm. auto.
    - left. apply keepFirst_incl in Ht. rewrite Forall_forall in Hm. auto. }
  destruct Hwf as [(_ & Hc & Hnc & _) | [-> Hd]].
  - split; [apply nonempty_true_iff; exact Hnc | exact Hc].
  - simpl. split; [apply nonempty_true_iff; exact Hd | apply normalizeText_trimmed].
Qed.

(** X15. The sync targets are usable as they are: every target has a
    calendar id that is not empty (and trimmed), and there is no target
    at all exactly when no user is mapped and no default calendar is
    configured. *)
Theorem buildSyncCalendarTargets_usable (options : CalendarOptions) :
  let result := buildSyncCalendarTargets JSON_parse options in
  (forall t : CalendarMapping,
     In t result -> cal_id t <> EmptyString /\ Str.trim (cal_id t) = cal_id t)
  /\ (result = []
      <-> mergedByUser JSON_parse options = []
          /\ normalizeText (defaultCalId options) = EmptyString).
Proof.
  intros result. split; [apply buildSyncCalendarTargets_cal_id|].
  unfold result. rewrite buildSyncCalendarTargets_keepFirst.
  rewrite keepFirst_nil_iff. unfold withDefault.
  destruct (Str.nonempty (normalizeText (defaultCalId options))) eqn:Ed.
  - split.
    + intros E. apply app_eq_nil in E. destruct E as [_ E]. discriminate E.
    + intros [_ E]. apply nonempty_true_iff in Ed. contradiction.
  - rewrite keepFirst_nil_iff. apply nonempty_false_iff in Ed. tauto.
Qed.

End MappingFacts.

(* ================================================================== *)
(** * A run of the sync service *)

Lemma lifecycleOf_fresh (r r' : Db.TaskRow) :
  lifecycleOf r = lifecycleOf r' -> freshRow r' -> freshRow r.
Proof.
  unfold lifecycleOf, freshRow. intros E (H1 & H2 & H3 & H4).
  injection E as _ _ _ Es Er _ Ec _ Ev _. repeat split; congruence.
Qed.

Lemma map_lifecycleOf_fresh (l l' : list Db.TaskRow) :
  map lifecycleOf l = map lifecycleOf l' -> Forall freshRow l' -> Forall freshRow l.
Proof.
  revert l'. induction l as [|r l IH]; intros [|r' l'] E Hf; try discriminate E;
    constructor; inversion Hf; subst;
    pose proof (f_equal (hd (lifecycleOf r)) E) as E1;
    pose proof (f_equal (@tl _) E) as E2; simpl in E1, E2.
  - apply (lifecycleOf_fresh r r' E1). assumption.
  - eapply IH; eauto.
Qed.

Lemma map_lifecycleOf_cond (q : Db.TaskRow -> bool) (g : Db.TaskRow -> Db.TaskRow)
    (l : list Db.TaskRow) :
  (forall r, lifecycleOf (g r) = lifecycleOf r) ->
  map lifecycleOf (map (fun r => if q r then g r else r) l) = map lifecycleOf l.
Proof.
  intros Hg. induction l as [|r l IH]; simpl; [reflexivity|].
  rewrite IH. destruct (q r); [rewrite Hg|]; reflexivity.
Qed.

Lemma map_lifecycleOf_pending (l l' : list Db.TaskRow) (st : string) :
  map lifecycleOf l = map lifecycleOf l' ->
  List.length (filter (Db.hasStatus st) l) = List.length (filter (Db.hasStatus st) l').
Proof.
  revert l'. induction l as [|r l IH]; intros [|r' l'] E; try discriminate E;
    [reflexivity|].
  pose proof (f_equal (hd (lifecycleOf r)) E) as E1.
  pose proof (f_equal (@tl _) E) as E2. simpl in E1, E2. simpl.
  assert (Es : Db.hasStatus st r = Db.hasStatus st r').
  { unfold Db.hasStatus. unfold lifecycleOf in E1.
    injection E1 as _ _ _ Es _ _ _ _ _ _. rewrite Es. reflexivity. }
  rewrite Es. destruct (Db.hasStatus st r'); simpl; rewrite (IH l' E2); reflexivity.
Qed.

Lemma quietly_same (w w' : World) :
  map lifecycleOf (rows w') = map lifecycleOf (rows w) -> quietly w w'.
Proof.
  intros E. exists (rows w'), []. rewrite app_nil_r.
  split; [reflexivity|]. split; [exact E | constructor].
Qed.

Lemma quietly_refl (w : World) : quietly w w.
Proof. apply quietly_same. reflexivity. Qed.

Lemma quietly_trans (a b c : World) : quietly a b -> quietly b c -> quietly a c.
Proof.
  intros (k1 & a1 & E1 & L1 & F1) (k2 & a2 & E2 & L2 & F2).
  rewrite E1, map_app in L2.
  exists (firstn (List.length k1) k2), (skipn (List.length k1) k2 ++ a2)%list.
  split; [|split].
  - rewrite app_assoc, firstn_skipn. exact E2.
  - rewrite <- firstn_map, L2, <- (length_map lifecycleOf k1), firstn_app,
      firstn_all, Nat.sub_diag. simpl. rewrite app_nil_r. exact L1.
  - apply Forall_app. split; [|exact F2].
    apply (map_lifecycleOf_fresh _ a1); [|exact F1].
    rewrite <- skipn_map, L2, <- (length_map lifecycleOf k1), skipn_app,
      skipn_all, Nat.sub_diag. reflexivity.
Qed.

Lemma quietly_length (w w' : World) :
  quietly w w' -> (List.length (rows w) <= List.length (rows w'))%nat.
Proof.
  intros (k & a & E & L & _). rewrite E, length_app.
  rewrite <- (length_map lifecycleOf (rows w)), <- L, length_map. lia.
Qed.

Lemma countSchedule_counted (a b : bool) (s : Summary.t) :
  counted (countSchedule a b s) = S (counted s)
  /\ (written (countSchedule a b s) <= S (written s))%nat
  /\ (written s <= written (countSchedule a b s))%nat
  /\ Summary.inserted_count (countSchedule a b s)
     = (Summary.inserted_count s + if a then 1 else 0)%nat
  /\ calendarsOf (countSchedule a b s) = calendarsOf s.
Proof.
  unfold counted, written, calendarsOf. destruct a, b; simpl; repeat split; lia.
Qed.

Lemma countSchedule_skipped (s : Summary.t) :
  written (countSchedule false false s) = written s.
Proof. reflexivity. Qed.

Section SyncFacts.
Context {H : Host}.
Variable JSON_parse : string -> option jsval.
Variable datetime_unixepoch : float -> option string.
Variable wecom_getScheduleList : nat -> string -> Response.
Variable wecom_getSchedule : nat -> jsval -> Response.
Variable envAt : nat -> Env.

Lemma syncScheduleTask_quiet (env : Env) (w : World) (schedule : jsval)
    (calendarContext : list (string * jsval)) :
  let result := syncScheduleTask datetime_unixepoch env w schedule calendarContext in
  quietly w (fst result)
  /\ List.length (rows (fst result))
     = (List.length (rows w)
        + match snd result with
          | Returned r => if inserted r then 1 else 0
          | Thrown _ => 0
          end)%nat.
Proof.
  cbv zeta.
  set (scheduleId := normalizeText (Js.and schedule (Js.get schedule "schedule_id"))).
  destruct (string_dec scheduleId EmptyString) as [Eid|Hid];
    [|destruct (string_dec (organizerOf schedule) EmptyString) as [Ec|Hc];
      [|destruct (string_dec (pickExecutor schedule) EmptyString) as [Ee|He]]].
  1-3: destruct (syncScheduleTask_skips datetime_unixepoch env w schedule calendarContext)
         as [why E]; [tauto|];
       rewrite E; simpl; split; [apply quietly_refl | lia].
  assert (R := syncScheduleTask_reconciles datetime_unixepoch env w schedule
                 calendarContext Hid Hc He).
  cbv zeta in R. fold scheduleId in R.
  destruct (getTaskByScheduleId w scheduleId) as [old|] eqn:Eg.
  - destruct R as (w' & E & Hrows & _). rewrite E. simpl. split.
    + apply quietly_same. rewrite Hrows. apply map_lifecycleOf_cond. reflexivity.
    + rewrite Hrows, length_map. lia.
  - destruct R as (w' & E & Hrows & _). rewrite E. simpl. split.
    + eexists (rows w), [_]. split; [exact Hrows|]. split; [reflexivity|].
      constructor; [repeat split | constructor].
    + rewrite Hrows, length_app. simpl. lia.
Qed.

Lemma processSchedule_quiet (n : nat) (w : World) (scheduleId : jsval)
    (calendarContext : list (string * jsval)) :
  let result :=
    processSchedule datetime_unixepoch wecom_getSchedule envAt n w scheduleId
      calendarContext in
  quietly w (fst result)
  /\ List.length (rows (fst result))
     = (List.length (rows w) + if inserted (snd result) then 1 else 0)%nat
  /\ (storeOk w -> storeOk (fst result)).
Proof.
  cbv zeta. unfold processSchedule.
  assert (Hsame : quietly w w
                  /\ List.length (rows w) = (List.length (rows w) + 0)%nat
                  /\ (storeOk w -> storeOk w)).
  { split; [apply quietly_refl|]. split; [lia | auto]. }
  destruct (wecom_getSchedule n scheduleId) as [details|message]; [|exact Hsame].
  destruct (Js.nullish details); [exact Hsame|].
  destruct (negb (isZero (Js.get details "errcode"))
            || negb (Js.truthy (Js.get details "schedule"))); [exact Hsame|].
  assert (Q := syncScheduleTask_quiet (envAt n) w (Js.get details "schedule")
                 calendarContext).
  assert (St := syncScheduleTask_step datetime_unixepoch (envAt n) w
                  (Js.get details "schedule") calendarContext).
  cbv zeta in Q.
  destruct (syncScheduleTask datetime_unixepoch (envAt n) w
              (Js.get details "schedule") calendarContext) as [w' [r|e]];
    simpl in *; destruct Q as [Q1 Q2];
    (split; [exact Q1|]); (split; [exact Q2 | apply worldStep_storeOk; exact St]).
Qed.

Lemma processSchedules_inv (calendarTarget : CalendarMapping) (schedules : list jsval)
    (st : Progress) :
  let st' :=
    processSchedules datetime_unixepoch wecom_getSchedule envAt calendarTarget
      schedules st in
  quietly (world st) (world st')
  /\ (storeOk (world st) -> storeOk (world st'))
  /\ (List.length (rows (world st')) + Summary.inserted_count (summary st)
      = List.length (rows (world st)) + Summary.inserted_count (summary st'))%nat
  /\ counted (summary st') = (counted (summary st) + List.length schedules)%nat
  /\ (written (summary st') + List.length (processedScheduleIds st)
      <= written (summary st) + List.length (processedScheduleIds st'))%nat
  /\ (List.length (processedScheduleIds st')
      <= List.length (processedScheduleIds st) + List.length schedules)%nat
  /\ (List.length (processedScheduleIds st)
      <= List.length (processedScheduleIds st'))%nat
  /\ calendarsOf (summary st') = calendarsOf (summary st).
Proof.
  revert st. induction schedules as [|item rest IH]; intros st; cbv zeta.
  - simpl. split; [apply quietly_refl|]. split; [exact (fun ok => ok)|].
    repeat split; lia.
  - cbn [processSchedules].
    destruct (negb (Js.truthy (Js.and item (Js.get item "schedule_id")))
              || existsb (sameValueZero (Js.and item (Js.get item "schedule_id")))
                   (processedScheduleIds st)).
    + match goal with
      | |- context [processSchedules _ _ _ _ rest ?s] => specialize (IH s)
      end.
      cbv zeta in IH. cbn [world tick processedScheduleIds summary] in IH.
      destruct IH as (I1 & I2 & I3 & I4 & I5 & I6 & I7 & I8).
      destruct (countSchedule_counted false false (summary st))
        as (C1 & C2 & C3 & C4 & C5).
      rewrite countSchedule_skipped in I5.
      split; [exact I1|]. split; [exact I2|].
      rewrite C4 in I3. rewrite C1 in I4. rewrite C5 in I8.
      cbn [List.length]. repeat split; try assumption; lia.
    + assert (P := processSchedule_quiet (tick st) (world st)
                     (Js.and item (Js.get item "schedule_id"))
                     (targetProps calendarTarget)).
      cbv zeta in P.
      destruct (processSchedule datetime_unixepoch wecom_getSchedule envAt (tick st)
                  (world st) (Js.and item (Js.get item "schedule_id"))
                  (targetProps calendarTarget)) as [w' processResult].
      cbn [fst snd] in P. destruct P as (P1 & P2 & P3).
      match goal with
      | |- context [processSchedules _ _ _ _ rest ?s] => specialize (IH s)
      end.
      cbv zeta in IH. cbn [world tick processedScheduleIds summary] in IH.
      destruct IH as (I1 & I2 & I3 & I4 & I5 & I6 & I7 & I8).
      destruct (countSchedule_counted (inserted processResult) (updated processResult)
                  (summary st)) as (C1 & C2 & C3 & C4 & C5).
      split; [exact (quietly_trans _ _ _ P1 I1)|]. split; [auto|].
      rewrite C4 in I3. rewrite C1 in I4. rewrite C5 in I8.
      cbn [List.length] in *. repeat split; try assumption; lia.
Qed.

Lemma failCalendar_counts (e : CalendarError.t) (s : Summary.t) :
  counted (failCalendar e s) = counted s
  /\ written (failCalendar e s) = written s
  /\ Summary.inserted_count (failCalendar e s) = Summary.inserted_count s
  /\ Summary.schedule_count (failCalendar e s) = Summary.schedule_count s.
Proof. repeat split. Qed.

Lemma openCalendar_counts (n : nat) (s : Summary.t) :
  counted (openCalendar n s) = counted s
  /\ written (openCalendar n s) = written s
  /\ Summary.inserted_count (openCalendar n s) = Summary.inserted_count s
  /\ Summary.schedule_count (openCalendar n s) = (Summary.schedule_count s + n)%nat.
Proof. repeat split. Qed.

Lemma calendarsOf_done (st st' : Progress) :
  calendarsOf (summary st') = calendarsOf (summary st) -> calendarsDone st st' 0.
Proof.
  unfold calendarsOf, calendarsDone. intros E.
  injection E as E1 E2 E3 E4 E5 E6. rewrite E1, E2, E3, E4, E5.
  repeat split; auto; lia.
Qed.

Lemma processCalendars_inv (calendarTargets : list CalendarMapping) (st st' : Progress)
    (err : option ErrorMessage) :
  Forall (fun t => cal_id t <> EmptyString) calendarTargets ->
  processCalendars datetime_unixepoch wecom_getScheduleList wecom_getSchedule envAt
    calendarTargets st = (st', err) ->
  quietly (world st) (world st')
  /\ (storeOk (world st) -> storeOk (world st'))
  /\ (List.length (rows (world st')) + Summary.inserted_count (summary st)
      = List.length (rows (world st)) + Summary.inserted_count (summary st'))%nat
  /\ (counted (summary st') + Summary.schedule_count (summary st)
      = counted (summary st) + Summary.schedule_count (summary st'))%nat
  /\ (written (summary st') + List.length (processedScheduleIds st)
      <= written (summary st) + List.length (processedScheduleIds st'))%nat
  /\ (List.length (processedScheduleIds st') + Summary.schedule_count (summary st)
      <= List.length (processedScheduleIds st) + Summary.schedule_count (summary st'))%nat
  /\ (err = None -> calendarsDone st st' (List.length calendarTargets)).
Proof.
  intros Hids. revert st. induction Hids as [|calendarTarget rest Hid _ IH]; intros st.
  - simpl. intros E. injection E as <- <-.
    split; [apply quietly_refl|]. split; [exact (fun ok => ok)|].
    repeat split; auto; lia.
  - cbn [processCalendars]. apply nonempty_true_iff in Hid. rewrite Hid. cbn [negb].
    destruct (wecom_getScheduleList (tick st) (cal_id calendarTarget))
      as [scheduleListResult|message].
    2:{ intros E. injection E as <- <-.
        split; [apply quietly_refl|]. split; [exact (fun ok => ok)|].
        split; [lia|]. split; [lia|]. split; [lia|]. split; [lia|]. discriminate. }
    destruct (Js.nullish scheduleListResult).
    { intros E. injection E as <- <-.
      split; [apply quietly_refl|]. split; [exact (fun ok => ok)|].
      split; [lia|]. split; [lia|]. split; [lia|]. split; [lia|]. discriminate. }
    destruct (isZero (Js.get scheduleListResult "errcode")) eqn:Ez; cbn [negb].
    + match goal with
      | |- processCalendars _ _ _ _ rest ?s = _ -> _ =>
          intros E; specialize (IH s E); set (mid := s) in *
      end.
      assert (P := processSchedules_inv calendarTarget
                     (Js.arrayOrEmpty (Js.get scheduleListResult "schedule_list"))
                     {| world := world st;
                        tick := S (tick st);
                        processedScheduleIds := processedScheduleIds st;
                        summary :=
                          openCalendar
                            (List.length
                               (Js.arrayOrEmpty (Js.get scheduleListResult "schedule_list")))
                            (summary st) |}).
      cbv zeta in P. fold mid in P.
      cbn [world tick processedScheduleIds summary] in P.
      destruct P as (P1 & P2 & P3 & P4 & P5 & P6 & P7 & P8).
      destruct IH as (I1 & I2 & I3 & I4 & I5 & I6 & I7).
      destruct (openCalendar_counts
                  (List.length (Js.arrayOrEmpty (Js.get scheduleListResult "schedule_list")))
                  (summary st)) as (O1 & O2 & O3 & O4).
      rewrite O3 in P3. rewrite O1 in P4. rewrite O2 in P5.
      assert (Hsc : Summary.schedule_count (summary mid)
                    = (Summary.schedule_count (summary st)
                       + List.length
                           (Js.arrayOrEmpty (Js.get scheduleListResult "schedule_list")))%nat).
      { unfold calendarsOf in P8. injection P8 as _ _ _ _ _ E6. exact E6. }
      split; [exact (quietly_trans _ _ _ P1 I1)|]. split; [auto|].
      split; [lia|]. split; [lia|]. split; [lia|]. split; [lia|].
      intros En. specialize (I7 En).
      unfold calendarsOf in P8. injection P8 as E1 E2 E3 E4 E5 _.
      unfold calendarsDone in *. rewrite E1, E2, E3, E4, E5 in I7.
      cbn [openCalendar Summary.success Summary.calendar_count
             Summary.calendar_success_count Summary.calendar_failed_count
             Summary.calendar_errors List.length] in I7 |- *.
      destruct I7 as (J1 & J2 & J3 & J4 & J5).
      repeat split; auto; lia.
    + match goal with
      | |- processCalendars _ _ _ _ rest ?s = _ -> _ =>
          intros E; specialize (IH s E)
      end.
      cbn [world tick processedScheduleIds summary] in IH.
      destruct IH as (I1 & I2 & I3 & I4 & I5 & I6 & I7).
      split; [exact I1|]. split; [exact I2|].
      split; [exact I3|]. split; [exact I4|]. split; [exact I5|]. split; [exact I6|].
      intros En. specialize (I7 En). unfold calendarsDone in *.
      cbn [failCalendar Summary.success Summary.calendar_count
             Summary.calendar_success_count Summary.calendar_failed_count
             Summary.calendar_errors List.length summary] in I7 |- *.
      rewrite length_app in I7. cbn [List.length] in I7.
      destruct I7 as (J1 & J2 & J3 & J4 & J5).
      repeat split; auto; try lia.
      intros Hf. apply J5. apply Forall_app. split; [exact Hf|].
      constructor; [|constructor].
      unfold listFailed. cbn [CalendarError.reason CalendarError.cal_id
                                CalendarError.errcode].
      split; [reflexivity|]. split; [apply nonempty_true_iff; exact Hid|].
      eexists. split; [reflexivity | exact Ez].
Qed.

Lemma remindEach_inv (pendingTasks : list Db.TaskRow) (n : nat) (w : World)
    (sentCount checkedCount : nat) :
  let result := remindEach envAt pendingTasks n w sentCount checkedCount in
  map lifecycleOf (rows (fst result)) = map lifecycleOf (rows w)
  /\ (storeOk w -> storeOk (fst result))
  /\ (sentCount <= sent_count (snd result))%nat
  /\ (sent_count (snd result) <= sentCount + List.length pendingTasks)%nat
  /\ checked_count (snd result) = (checkedCount + List.length pendingTasks)%nat.
Proof.
  revert n w sentCount checkedCount.
  induction pendingTasks as [|task rest IH]; intros n w sentCount checkedCount;
    cbv zeta.
  - simpl. split; [reflexivity|]. split; [exact (fun ok => ok)|]. repeat split; lia.
  - cbn [remindEach].
    assert (R := dispatchTaskReminder_rows (envAt n) w task).
    assert (St := runOp_step datetime_unixepoch EmptyString (envAt n) w (OpRemind task)).
    cbn [runOp] in St. cbv zeta in R.
    destruct (dispatchTaskReminder (envAt n) w task) as [w' result].
    cbn [fst snd] in R, St.
    specialize (IH (S n) w' (if sent result then S sentCount else sentCount)
                  (S checkedCount)).
    cbv zeta in IH. destruct IH as (I1 & I2 & I3 & I4 & I5).
    split; [|split; [|split; [|split]]].
    + rewrite I1. destruct R as [_ [-> | [_ E]]]; [reflexivity|].
      rewrite E. apply map_lifecycleOf_cond. reflexivity.
    + intros Hok. apply I2. apply (worldStep_storeOk w); assumption.
    + destruct (sent result); lia.
    + cbn [List.length]. destruct (sent result); lia.
    + cbn [List.length]. lia.
Qed.

Lemma calendarTargets_cal_ids (this : SyncService) (penv : ProcessEnv) :
  Forall (fun t => cal_id t <> EmptyString)
    (resolveSyncCalendarTargets JSON_parse this penv).
Proof.
  apply Forall_forall. intros t Ht.
  exact (proj1 (buildSyncCalendarTargets_cal_id JSON_parse _ t Ht)).
Qed.

(** X16. The summary of [syncSchedules] adds up.  Without a sync
    target nothing is requested and nothing is written.  With targets,
    a run that returns its summary has handled every calendar once
    (succeeded plus failed is the number of targets), has one error
    entry per failed calendar, each for a list request that WeCom
    answered with an error code (the branch for a target without
    calendar id is never taken), has counted every listed schedule once
    as inserted, updated or skipped, has written no more schedules than
    it found distinct ids, and has sent no more reminders than there are
    PENDING rows in the table it leaves. *)
Theorem syncSchedules_accounting (this : SyncService) (penv : ProcessEnv) (w : World) :
  let calendarTargets := resolveSyncCalendarTargets JSON_parse this penv in
  let result :=
    syncSchedules JSON_parse datetime_unixepoch wecom_getScheduleList
      wecom_getSchedule envAt this penv w in
  match snd result with
  | MissingCalendarTargets => calendarTargets = [] /\ fst result = w
  | SyncSummary s =>
      calendarTargets <> []
      /\ Summary.success s = true
      /\ Summary.calendar_count s = List.length calendarTargets
      /\ (Summary.calendar_success_count s + Summary.calendar_failed_count s
          = Summary.calendar_count s)%nat
      /\ List.length (Summary.calendar_errors s) = Summary.calendar_failed_count s
      /\ Forall listFailed (Summary.calendar_errors s)
      /\ (Summary.inserted_count s + Summary.updated_count s + Summary.skipped_count s
          = Summary.schedule_count s)%nat
      /\ (Summary.inserted_count s + Summary.updated_count s
          <= Summary.unique_schedule_count s)%nat
      /\ (Summary.unique_schedule_count s <= Summary.schedule_count s)%nat
      /\ (Summary.reminder_sent_count s
          <= List.length (listPendingTasks (fst result)))%nat
  | SyncException _ => calendarTargets <> []
  end.
Proof.
  intros calendarTargets result. unfold result, syncSchedules. fold calendarTargets.
  assert (Hids := calendarTargets_cal_ids this penv). fold calendarTargets in Hids.
  destruct (List.length calendarTargets =? 0)%nat eqn:El.
  { simpl. apply Nat.eqb_eq in El. split; [|reflexivity].
    destruct calendarTargets; [reflexivity | discriminate El]. }
  assert (Hne : calendarTargets <> []).
  { intros E. rewrite E in El. discriminate El. }
  set (st0 := {| world := w; tick := 0; processedScheduleIds := [];
                 summary := newSummary (List.length calendarTargets) |}).
  destruct (processCalendars datetime_unixepoch wecom_getScheduleList wecom_getSchedule
              envAt calendarTargets st0) as [st [message|]] eqn:Ep; [exact Hne|].
  destruct (processCalendars_inv calendarTargets st0 st None Hids Ep)
    as (_ & _ & _ & I4 & I5 & I6 & I7).
  specialize (I7 eq_refl). destruct I7 as (J1 & J2 & J3 & J4 & J5).
  assert (R := remindEach_inv (listPendingTasks (world st)) (tick st) (world st) 0 0).
  unfold dispatchDateReminders. cbv zeta in R.
  destruct (remindEach envAt (listPendingTasks (world st)) (tick st) (world st) 0 0)
    as [w' reminderResult].
  cbn [fst snd] in R |- *. destruct R as (R1 & _ & _ & R4 & _).
  cbn [st0 summary processedScheduleIds newSummary Summary.success
         Summary.calendar_count Summary.calendar_success_count
         Summary.calendar_failed_count Summary.calendar_errors
         Summary.schedule_count List.length] in *.
  unfold counted, written in *.
  cbn [newSummary Summary.inserted_count Summary.updated_count Summary.skipped_count]
    in *.
  cbn [closeSummary Summary.success Summary.calendar_count
         Summary.calendar_success_count Summary.calendar_failed_count
         Summary.calendar_errors Summary.schedule_count Summary.unique_schedule_count
         Summary.inserted_count Summary.updated_count Summary.skipped_count
         Summary.reminder_sent_count].
  split; [exact Hne|]. split; [exact J1|]. split; [exact J2|].
  split; [lia|]. split; [lia|]. split; [apply J5; constructor|].
  split; [lia|]. split; [lia|]. split; [lia|].
  unfold listPendingTasks in *.
  rewrite (map_lifecycleOf_pending _ _ TASK_STATUS.PENDING R1). lia.
Qed.

(** X17. A run of [syncSchedules] moves no task along its lifecycle,
    whether it returns a summary or ends in its [catch]: the rows the
    table had are in their places with their id, schedule id, status,
    redo count, rejection, completion and verification columns, and the
    rows after them are new PENDING rows with redo count 0, as many as
    the summary counts as inserted.  The constraints of the table hold
    after the run if they held before. *)
Theorem syncSchedules_keeps_lifecycle (this : SyncService) (penv : ProcessEnv)
    (w : World) :
  let result :=
    syncSchedules JSON_parse datetime_unixepoch wecom_getScheduleList
      wecom_getSchedule envAt this penv w in
  quietly w (fst result)
  /\ (storeOk w -> storeOk (fst result))
  /\ (forall s : Summary.t,
        snd result = SyncSummary s ->
        List.length (rows (fst result))
        = (List.length (rows w) + Summary.inserted_count s)%nat).
Proof.
  intros result. unfold result, syncSchedules.
  assert (Hids := calendarTargets_cal_ids this penv).
  set (calendarTargets := resolveSyncCalendarTargets JSON_parse this penv) in *.
  destruct (List.length calendarTargets =? 0)%nat.
  { simpl. split; [apply quietly_refl|]. split; [auto|]. intros s E. discriminate E. }
  set (st0 := {| world := w; tick := 0; processedScheduleIds := [];
                 summary := newSummary (List.length calendarTargets) |}).
  destruct (processCalendars datetime_unixepoch wecom_getScheduleList wecom_getSchedule
              envAt calendarTargets st0) as [st err] eqn:Ep.
  destruct (processCalendars_inv calendarTargets st0 st err Hids Ep)
    as (I1 & I2 & I3 & _).
  cbn [st0 world summary newSummary Summary.inserted_count] in I1, I2, I3.
  destruct err as [message|].
  { simpl. split; [exact I1|]. split; [exact I2|]. intros s E. discriminate E. }
  assert (R := remindEach_inv (listPendingTasks (world st)) (tick st) (world st) 0 0).
  unfold dispatchDateReminders. cbv zeta in R.
  destruct (remindEach envAt (listPendingTasks (world st)) (tick st) (world st) 0 0)
    as [w' reminderResult].
  cbn [fst snd] in R |- *. destruct R as (R1 & R2 & _).
  split; [exact (quietly_trans _ _ _ I1 (quietly_same _ _ R1))|].
  split; [auto|].
  intros s E. injection E as <-.
  cbn [closeSummary Summary.inserted_count].
  rewrite <- (length_map lifecycleOf (rows w')), R1, length_map. lia.
Qed.

End SyncFacts.

(* ================================================================== *)
(** * Calls by id and by card, tasks made by hand *)

Lemma filter_length_witness {A : Type} (q : A -> bool) (l : list A) :
  List.length (filter q l) <> O -> exists a : A, In a l /\ q a = true.
Proof.
  destruct (filter q l) as [|a f] eqn:E; [tauto|].
  intros _. exists a. apply filter_In. rewrite E. left. reflexivity.
Qed.

Lemma scheduleIds_In (sid : string) (r : Db.TaskRow) (l : list Db.TaskRow) :
  In r l -> Db.hasScheduleId sid r = true -> In sid (scheduleIds l).
Proof.
  intros Hin Hr. destruct (in_dec string_dec sid (scheduleIds l)) as [Hs|Hs];
    [exact Hs|].
  exfalso.
  assert (Ex : existsb (Db.hasScheduleId sid) l = true).
  { apply existsb_exists. exists r. auto. }
  unfold Db.hasScheduleId in Hr.
  destruct (Db.wecom_schedule_id r) as [s|] eqn:Es; [|discriminate Hr].
  apply String.eqb_eq in Hr. subst s.
  apply Hs. unfold scheduleIds. apply in_flat_map. exists r. rewrite Es.
  split; [exact Hin | left; reflexivity].
Qed.

(** Under distinct schedule ids, the row found for a schedule id is
    the only row that has it. *)
Lemma scheduleId_unique (sid : string) (l : list Db.TaskRow) (t r : Db.TaskRow) :
  NoDup (scheduleIds l) ->
  find (Db.hasScheduleId sid) l = Some t ->
  In r l -> Db.hasScheduleId sid r = true -> r = t.
Proof.
  induction l as [|a l IH]; intros Hnd Hf Hin Hr; [contradiction|].
  assert (E : scheduleIds (a :: l)
              = ((match Db.wecom_schedule_id a with
                  | Some s => [s]
                  | None => []
                  end) ++ scheduleIds l)%list) by reflexivity.
  rewrite E in Hnd. simpl in Hf.
  destruct (Db.hasScheduleId sid a) eqn:Ea.
  - injection Hf as <-. destruct Hin as [->|Hin]; [reflexivity|].
    exfalso. unfold Db.hasScheduleId in Ea.
    destruct (Db.wecom_schedule_id a) as [s|]; [|discriminate Ea].
    apply String.eqb_eq in Ea. subst s. simpl in Hnd.
    inversion Hnd as [|? ? Hno _]; subst. apply Hno.
    exact (scheduleIds_In sid r l Hin Hr).
  - destruct Hin as [->|Hin]; [congruence|].
    apply IH; try assumption.
    destruct (Db.wecom_schedule_id a); [inversion Hnd; assumption | exact Hnd].
Qed.

(** Under distinct ids, the row found for an id is the only row that
    has it. *)
Lemma id_unique (taskId : Z) (l : list Db.TaskRow) (t r : Db.TaskRow) :
  NoDup (map Db.id l) ->
  find (fun x => Db.id x =? taskId) l = Some t ->
  In r l -> Db.id r = taskId -> r = t.
Proof.
  induction l as [|a l IH]; intros Hnd Hf Hin Hr; [contradiction|].
  simpl in Hf, Hnd. inversion Hnd as [|? ? Hno Hl]; subst.
  destruct (Db.id a =? Db.id r) eqn:Ea.
  - injection Hf as <-. destruct Hin as [->|Hin]; [reflexivity|].
    exfalso. apply Z.eqb_eq in Ea. apply Hno. rewrite Ea. apply in_map. exact Hin.
  - destruct Hin as [->|Hin]; [rewrite Z.eqb_refl in Ea; discriminate Ea|].
    apply IH; auto.
Qed.

Section EntryFacts.
Context {H : Host} {C : CaseHost}.
Variable GLOBAL_VERIFIERS : string.

(** What [submitForVerification] does, by its outcome. *)
Lemma submit_outcome (env : Env) (w : World) (sid : string) (executorId : jsval) :
  storeOk w ->
  match submitForVerification GLOBAL_VERIFIERS env w sid executorId with
  | (w', Thrown _) => w' = w
  | (w', Returned r) =>
      worldStep w w'
      /\ exists t : Db.TaskRow,
           getTaskByScheduleId w sid = Some t
           /\ Db.status t = Some TASK_STATUS.PENDING
           /\ normalizeText executorId = normalizeText (Db.text_js (Db.executor_userid t))
           /\ v_task r = Some (setSubmitted (normalizeText executorId) (clock_sql env) t)
  end.
Proof.
  intros (_ & _ & Hns).
  assert (St := runOp_step (fun _ => None) GLOBAL_VERIFIERS env w
                  (OpSubmit sid executorId)).
  cbn [runOp] in St. revert St.
  unfold submitForVerification, ensureTaskForComplete.
  destruct (getTaskByScheduleId w sid) as [t|] eqn:Eg; [|reflexivity].
  destruct (canUserCompleteTask (Db.row_js t) executorId) eqn:Ec; cbn [negb];
    [|reflexivity].
  destruct (List.length (filter (submitWhere sid) (rows w))) as [|n] eqn:En.
  - unfold submitCommit. rewrite submitUpdate_eq, En. cbn [Nat.eqb].
    intros _. rewrite (map_unmatched _ _ _ En). apply world_eta.
  - destruct (filter_length_witness (submitWhere sid) (rows w)) as (r0 & Hin & Hw);
      [rewrite En; discriminate|].
    assert (Hw' := Hw). unfold submitWhere in Hw'. apply andb_prop in Hw'.
    destruct Hw' as [Hsid Hst].
    assert (E0 : r0 = t) by exact (scheduleId_unique sid (rows w) t r0 Hns Eg Hin Hsid).
    subst r0. apply hasStatus_eq in Hst.
    rewrite (submitCommit_succeeds GLOBAL_VERIFIERS env w sid executorId t Eg Hst).
    cbn [fst]. intros St. split; [exact St|]. exists t.
    split; [reflexivity|]. split; [exact Hst|]. split; [|reflexivity].
    revert Ec. unfold canUserCompleteTask. rewrite get_row_executor.
    cbn [Js.truthy Db.row_js negb]. intros Ec.
    apply andb_prop in Ec. destruct Ec as [Ec _].
    apply andb_prop in Ec. destruct Ec as [_ Ec]. apply String.eqb_eq. exact Ec.
Qed.

(** What [verifyTask] does, by its outcome. *)
Lemma verify_outcome (env : Env) (w : World) (sid : string) (managerId : jsval)
    (isApproved : bool) (rejectReason : jsval) :
  storeOk w ->
  match verifyTask GLOBAL_VERIFIERS env w sid managerId isApproved rejectReason with
  | (w', Thrown _) => w' = w
  | (w', Returned r) =>
      worldStep w w'
      /\ exists t : Db.TaskRow,
           getTaskByScheduleId w sid = Some t
           /\ Db.status t = Some TASK_STATUS.WAITING_VERIFY
           /\ v_task r = Some (verifySet env managerId isApproved rejectReason t)
  end.
Proof.
  intros (_ & _ & Hns).
  assert (St := runOp_step (fun _ => None) GLOBAL_VERIFIERS env w
                  (OpVerify sid managerId isApproved rejectReason)).
  cbn [runOp] in St. revert St.
  unfold verifyTask, ensureTaskForVerify.
  destruct (getTaskByScheduleId w sid) as [t|] eqn:Eg; [|reflexivity].
  destruct (canUserVerifyTask (Db.row_js t) managerId _) eqn:Ec; cbn [negb];
    [|reflexivity].
  destruct (List.length (filter (verifyWhere sid) (rows w))) as [|n] eqn:En.
  - unfold verifyCommit. rewrite verifyUpdate_eq, En. cbn [Nat.eqb].
    intros _. rewrite (map_unmatched _ _ _ En). apply world_eta.
  - destruct (filter_length_witness (verifyWhere sid) (rows w)) as (r0 & Hin & Hw);
      [rewrite En; discriminate|].
    assert (Hw' := Hw). unfold verifyWhere in Hw'. apply andb_prop in Hw'.
    destruct Hw' as [Hsid Hst].
    assert (E0 : r0 = t) by exact (scheduleId_unique sid (rows w) t r0 Hns Eg Hin Hsid).
    subst r0. apply hasStatus_eq in Hst.
    destruct (verifyCommit_succeeds env w sid managerId isApproved rejectReason t Eg Hst)
      as (w' & E & _).
    rewrite E. cbn [fst]. intros St. split; [exact St|]. exists t.
    split; [reflexivity|]. split; [exact Hst | reflexivity].
Qed.

(** X18. A card callback either changes nothing and throws, or makes
    exactly the transition of its button on the task of its [TaskId], in
    the name of its [UserID]: "ACTION_COMPLETE" moves the PENDING task
    of that executor to WAITING_VERIFY, "ACTION_PASS" moves a
    WAITING_VERIFY task to COMPLETED, "ACTION_REJECT" moves it back to
    PENDING with the reason "领导驳回" and one more redo.  A callback
    without user, task or key throws TASK_INTERACTION_INVALID, and the
    constraints of the table hold afterwards. *)
Theorem handleInteraction_spec (env : Env) (w : World) (payload : jsval) :
  storeOk w ->
  let userId := normalizeText (Js.and payload (Js.get payload "UserID")) in
  let scheduleId := normalizeText (Js.and payload (Js.get payload "TaskId")) in
  let actionKey := normalizeActionKey (Js.and payload (Js.get payload "SelectedKey")) in
  let result := handleInteraction GLOBAL_VERIFIERS env w payload in
  storeOk (fst result)
  /\ (userId = EmptyString \/ scheduleId = EmptyString \/ actionKey = EmptyString ->
      result = (w, Thrown (TaskOperationError "TASK_INTERACTION_INVALID"
                             "卡片回调参数不完整" 400)))
  /\ match snd result with
     | Thrown _ => fst result = w
     | Returned r =>
         userId <> EmptyString /\ scheduleId <> EmptyString
         /\ exists t : Db.TaskRow,
              getTaskByScheduleId w scheduleId = Some t
              /\ ((actionKey = "ACTION_COMPLETE"
                   /\ Db.status t = Some TASK_STATUS.PENDING
                   /\ userId = normalizeText (Db.text_js (Db.executor_userid t))
                   /\ v_task r = Some (setSubmitted userId (clock_sql env) t))
                  \/ (actionKey = "ACTION_PASS"
                      /\ Db.status t = Some TASK_STATUS.WAITING_VERIFY
                      /\ v_task r = Some (Db.setApproved userId (clock_sql env) t))
                  \/ (actionKey = "ACTION_REJECT"
                      /\ Db.status t = Some TASK_STATUS.WAITING_VERIFY
                      /\ v_task r
                         = Some (Db.setRejected userId "领导驳回" (clock_sql env) t)))
     end.
Proof.
  intros Hok userId scheduleId actionKey result.
  assert (Hu : normalizeText (JStr userId) = userId)
    by (apply normalizeText_fixed, normalizeText_trimmed).
  unfold result, handleInteraction. fold userId scheduleId actionKey.
  destruct (Str.nonempty userId) eqn:Eu; cbn [negb orb].
  2:{ split; [exact Hok|]. split; [reflexivity|]. reflexivity. }
  destruct (Str.nonempty scheduleId) eqn:Es; cbn [negb orb].
  2:{ split; [exact Hok|]. split; [reflexivity|]. reflexivity. }
  destruct (Str.nonempty actionKey) eqn:Ea; cbn [negb orb].
  2:{ split; [exact Hok|]. split; [reflexivity|]. reflexivity. }
  assert (Hvalid : ~ (userId = EmptyString \/ scheduleId = EmptyString
                      \/ actionKey = EmptyString)).
  { apply nonempty_true_iff in Eu, Es, Ea. tauto. }
  apply nonempty_true_iff in Eu, Es.
  destruct (String.eqb actionKey "ACTION_COMPLETE") eqn:E1.
  { apply String.eqb_eq in E1.
    assert (O := submit_outcome env w scheduleId (JStr userId) Hok).
    destruct (submitForVerification GLOBAL_VERIFIERS env w scheduleId (JStr userId))
      as [w' [r|e]]; cbn [fst snd].
    - destruct O as (St & t & Hg & Hst & Hwho & Hr). rewrite Hu in Hwho, Hr.
      split; [exact (worldStep_storeOk _ _ St Hok)|]. split; [tauto|].
      split; [exact Eu|]. split; [exact Es|]. exists t. split; [exact Hg|].
      left. auto.
    - subst w'. split; [exact Hok|]. split; [tauto | reflexivity]. }
  destruct (String.eqb actionKey "ACTION_PASS") eqn:E2.
  { apply String.eqb_eq in E2.
    assert (O := verify_outcome env w scheduleId (JStr userId) true (JStr EmptyString)
                   Hok).
    destruct (verifyTask GLOBAL_VERIFIERS env w scheduleId (JStr userId) true
                (JStr EmptyString)) as [w' [r|e]]; cbn [fst snd].
    - destruct O as (St & t & Hg & Hst & Hr).
      unfold verifySet in Hr. rewrite Hu in Hr.
      split; [exact (worldStep_storeOk _ _ St Hok)|]. split; [tauto|].
      split; [exact Eu|]. split; [exact Es|]. exists t. split; [exact Hg|].
      right. left. auto.
    - subst w'. split; [exact Hok|]. split; [tauto | reflexivity]. }
  destruct (String.eqb actionKey "ACTION_REJECT") eqn:E3.
  { apply String.eqb_eq in E3.
    assert (O := verify_outcome env w scheduleId (JStr userId) false (JStr "领导驳回")
                   Hok).
    destruct (verifyTask GLOBAL_VERIFIERS env w scheduleId (JStr userId) false
                (JStr "领导驳回")) as [w' [r|e]]; cbn [fst snd].
    - destruct O as (St & t & Hg & Hst & Hr).
      unfold verifySet in Hr. rewrite Hu in Hr.
      split; [exact (worldStep_storeOk _ _ St Hok)|]. split; [tauto|].
      split; [exact Eu|]. split; [exact Es|]. exists t. split; [exact Hg|].
      right. right. auto.
    - subst w'. split; [exact Hok|]. split; [tauto | reflexivity]. }
  split; [exact Hok|]. split; [tauto | reflexivity].
Qed.

(** X19. A call by id acts on the task of that id: [completeTaskById]
    and [verifyTaskById] either change nothing and throw (with
    TASK_NOT_FOUND when no row has the id), or return the row of the id
    passed after its transition, the submission of a PENDING task or the
    verdict on a WAITING_VERIFY task. *)
Theorem calls_by_id_spec (env : Env) (w : World) (taskId : Z) (userId : jsval)
    (isApproved : bool) (rejectReason : jsval) :
  storeOk w ->
  let completed := completeTaskById GLOBAL_VERIFIERS env w taskId userId in
  let verified :=
    verifyTaskById GLOBAL_VERIFIERS env w taskId userId isApproved rejectReason in
  (getTaskById w taskId = None ->
   completed = (w, Thrown TASK_NOT_FOUND) /\ verified = (w, Thrown TASK_NOT_FOUND))
  /\ match snd completed with
     | Thrown _ => fst completed = w
     | Returned r =>
         exists t : Db.TaskRow,
           getTaskById w taskId = Some t
           /\ Db.status t = Some TASK_STATUS.PENDING
           /\ v_task r = Some (setSubmitted (normalizeText userId) (clock_sql env) t)
     end
  /\ match snd verified with
     | Thrown _ => fst verified = w
     | Returned r =>
         exists t : Db.TaskRow,
           getTaskById w taskId = Some t
           /\ Db.status t = Some TASK_STATUS.WAITING_VERIFY
           /\ v_task r = Some (verifySet env userId isApproved rejectReason t)
     end.
Proof.
  intros Hok completed verified. unfold completed, verified.
  unfold completeTaskById, verifyTaskById.
  destruct (getTaskById w taskId) as [task|] eqn:Eg.
  2:{ split; [auto|]. split; reflexivity. }
  split; [discriminate|].
  destruct (Db.wecom_schedule_id task) as [sid|] eqn:Esid.
  2:{ split; reflexivity. }
  assert (Hin : In task (rows w) /\ (Db.id task =? taskId) = true)
    by (apply (find_some (fun r => Db.id r =? taskId)); exact Eg).
  assert (Hsid : Db.hasScheduleId sid task = true).
  { unfold Db.hasScheduleId. rewrite Esid. apply String.eqb_refl. }
  assert (Hsame : forall t, getTaskByScheduleId w sid = Some t -> t = task).
  { intros t Ht. symmetry.
    exact (scheduleId_unique sid (rows w) t task (proj2 (proj2 Hok)) Ht
             (proj1 Hin) Hsid). }
  split.
  - assert (O := submit_outcome env w sid userId Hok).
    destruct (submitForVerification GLOBAL_VERIFIERS env w sid userId)
      as [w' [r|e]]; cbn [fst snd]; [|exact O].
    destruct O as (_ & t & Hg & Hst & _ & Hr).
    rewrite (Hsame t Hg) in *. exists task. auto.
  - assert (O := verify_outcome env w sid userId isApproved rejectReason Hok).
    destruct (verifyTask GLOBAL_VERIFIERS env w sid userId isApproved rejectReason)
      as [w' [r|e]]; cbn [fst snd]; [|exact O].
    destruct O as (_ & t & Hg & Hst & Hr).
    rewrite (Hsame t Hg) in *. exists task. auto.
Qed.

End EntryFacts.

Lemma existsb_false_find {A : Type} (q : A -> bool) (l : list A) :
  existsb q l = false -> find q l = None.
Proof.
  induction l as [|a l IH]; simpl; [reflexivity|].
  destruct (q a); [discriminate | exact IH].
Qed.

Section ManualFacts.
Context {H : Host}.
Variable JSON_parse : string -> option jsval.
Variable GLOBAL_VERIFIERS : string.
Variable datetime_iso : Z -> option string.
Variable wecom_createSchedule : ScheduleRequest.t -> Response.
Variable Date_now : Z.
Variable Math_random36 : string.

(** [createManualTask] from the INSERT on, by its outcome. *)
Lemma createCommit_outcome (env : Env) (w : World) (t : Db.TaskRow) (sid : string) :
  storeOk w ->
  Db.id t = seq w + 1 ->
  match createCommit env w t sid with
  | (w', Thrown e) =>
      w' = w /\ e = SqliteConstraint /\ existsb (Db.hasScheduleId sid) (rows w) = true
  | (w', Returned r) =>
      existsb (Db.hasScheduleId sid) (rows w) = false
      /\ rows w' = (rows w ++ [t])%list
      /\ seq w' = seq w + 1
      /\ r = {| v_message := "任务创建成功"; v_task := Some t |}
  end.
Proof.
  intros (_ & Hle & _) Hid. unfold createCommit.
  destruct (existsb (Db.hasScheduleId sid) (rows w)) eqn:Ex; [auto|].
  assert (Ef : getTaskById
                 {| rows := (rows w ++ [t])%list; seq := seq w + 1; outbox := outbox w |}
                 (seq w + 1) = Some t).
  { unfold getTaskById. cbn [rows]. rewrite find_app.
    rewrite existsb_false_find.
    - simpl. rewrite Hid, Z.eqb_refl. reflexivity.
    - destruct (existsb (fun r => Db.id r =? seq w + 1) (rows w)) eqn:E; [|reflexivity].
      apply existsb_exists in E. destruct E as (r & Hin & Er).
      apply Z.eqb_eq in Er. specialize (Hle r Hin). lia. }
  rewrite Ef. rewrite afterSend_rows, afterSend_seq. cbn [rows seq]. auto.
Qed.

(** The row of a created task, from the arguments of the call. *)
Lemma createManualTask_returned (penv : ProcessEnv) (env : Env) (w w1 : World)
    (payload : list (string * jsval)) (creatorUserId : jsval) (r1 : VerifyResult) :
  storeOk w ->
  createManualTask JSON_parse datetime_iso wecom_createSchedule Date_now Math_random36
    penv env w payload creatorUserId = (w1, Returned r1) ->
  let title := normalizeText (Js.assoc "title" payload) in
  let executorUserId := normalizeText (Js.assoc "executor_userid" payload) in
  let creatorId := normalizeText creatorUserId in
  let startTime :=
    match parseIsoDate (Js.assoc "start_time" payload) with
    | Some date => date
    | None => clock_ms env
    end in
  creatorId <> EmptyString /\ title <> EmptyString /\ executorUserId <> EmptyString
  /\ exists (endTime : Z) (sid : string),
       parseIsoDate (Js.assoc "end_time" payload) = Some endTime
       /\ startTime < endTime
       /\ existsb (Db.hasScheduleId sid) (rows w) = false
       /\ rows w1
          = (rows w
             ++ [createdRow datetime_iso (seq w + 1) (clock_sql env) sid title
                   (normalizeText (Js.assoc "description" payload))
                   creatorId executorUserId executorUserId
                   (resolveCalendarIdByUser JSON_parse (JStr executorUserId)
                      {| defaultCalId :=
                           JStr (orUndefined (DEFAULT_CAL_ID penv) EmptyString);
                         userCalendarMapRaw :=
                           JStr (orUndefined (USER_CALENDAR_MAP penv) EmptyString);
                         userCalendarRows := JUndefined |})
                   startTime endTime])%list
       /\ seq w1 = seq w + 1
       /\ r1 = {| v_message := "任务创建成功";
                  v_task := nth_error (rows w1) (List.length (rows w)) |}.
Proof.
  intros Hok. unfold createManualTask.
  destruct (Str.nonempty (normalizeText creatorUserId)) eqn:Ec; cbn [negb];
    [|discriminate].
  destruct (Str.nonempty (normalizeText (Js.assoc "title" payload))) eqn:Et;
    cbn [negb]; [|discriminate].
  destruct (Str.nonempty (normalizeText (Js.assoc "executor_userid" payload))) eqn:Ee;
    cbn [negb]; [|discriminate].
  destruct (parseIsoDate (Js.assoc "end_time" payload)) as [endTime|]; [|discriminate].
  match goal with
  | |- context [endTime <=? ?s] => destruct (endTime <=? s) eqn:Er; [discriminate|]
  end.
  unfold strOr. rewrite Ee.
  match goal with
  | |- createCommit ?e ?w0 ?t ?sid = _ -> _ =>
      assert (O := createCommit_outcome e w0 t sid Hok eq_refl);
      destruct (createCommit e w0 t sid) as [w' [r|e']]
  end; [|discriminate].
  intros E. injection E as <- <-. cbv zeta.
  apply nonempty_true_iff in Ec, Et, Ee.
  destruct O as (Ex & Hrows & Hseq & Hr).
  split; [exact Ec|]. split; [exact Et|]. split; [exact Ee|].
  eexists. eexists. split; [reflexivity|]. split; [lia|].
  split; [exact Ex|]. split; [exact Hrows|]. split; [exact Hseq|].
  rewrite Hr, Hrows, nth_error_app2, Nat.sub_diag by lia. reflexivity.
Qed.

(** X20. [createManualTask] validates before it writes: a call that
    throws changes nothing, and a call that returns has a creator, a
    title and an executor that are not blank and an end after its start
    (the current time when the start is missing or unreadable).  It then
    has appended exactly one row, under the next id and a schedule id no
    row had: a PENDING task with redo count 0 whose creator and executor
    are the trimmed ids passed, whose owner is the executor and whose
    calendar is the one [resolveCalendarIdByUser] gives the executor;
    that row is the task returned.  The constraints of the table
    hold afterwards. *)
Theorem createManualTask_spec (penv : ProcessEnv) (env : Env) (w : World)
    (payload : list (string * jsval)) (creatorUserId : jsval) :
  storeOk w ->
  let title := normalizeText (Js.assoc "title" payload) in
  let executorUserId := normalizeText (Js.assoc "executor_userid" payload) in
  let creatorId := normalizeText creatorUserId in
  let startTime :=
    match parseIsoDate (Js.assoc "start_time" payload) with
    | Some date => date
    | None => clock_ms env
    end in
  let result :=
    createManualTask JSON_parse datetime_iso wecom_createSchedule Date_now
      Math_random36 penv env w payload creatorUserId in
  storeOk (fst result)
  /\ (creatorId = EmptyString \/ title = EmptyString \/ executorUserId = EmptyString ->
      exists e : Exn, result = (w, Thrown e))
  /\ match snd result with
     | Thrown _ => fst result = w
     | Returned r =>
         creatorId <> EmptyString /\ title <> EmptyString
         /\ executorUserId <> EmptyString
         /\ exists (t : Db.TaskRow) (endTime : Z) (sid : string),
              parseIsoDate (Js.assoc "end_time" payload) = Some endTime
              /\ startTime < endTime
              /\ r = {| v_message := "任务创建成功"; v_task := Some t |}
              /\ rows (fst result) = (rows w ++ [t])%list
              /\ Db.id t = seq w + 1
              /\ Db.wecom_schedule_id t = Some sid
              /\ existsb (Db.hasScheduleId sid) (rows w) = false
              /\ freshRow t
              /\ Db.title t = Some title
              /\ Db.creator_userid t = Some creatorId
              /\ Db.executor_userid t = Some executorUserId
              /\ Db.owner_userid t = Some executorUserId
              /\ Db.owner_cal_id t
                 = Some (resolveCalendarIdByUser JSON_parse (JStr executorUserId)
                           {| defaultCalId :=
                                JStr (orUndefined (DEFAULT_CAL_ID penv) EmptyString);
                              userCalendarMapRaw :=
                                JStr (orUndefined (USER_CALENDAR_MAP penv) EmptyString);
                              userCalendarRows := JUndefined |})
              /\ Db.start_time t = datetime_iso startTime
              /\ Db.end_time t = datetime_iso endTime
     end.
Proof.
  intros Hok title executorUserId creatorId startTime result.
  assert (Hthrown : forall e, snd result = Thrown e -> fst result = w).
  { unfold result, createManualTask.
    destruct (Str.nonempty (normalizeText creatorUserId)); cbn [negb]; [|reflexivity].
    destruct (Str.nonempty (normalizeText (Js.assoc "title" payload)));
      cbn [negb]; [|reflexivity].
    destruct (Str.nonempty (normalizeText (Js.assoc "executor_userid" payload)));
      cbn [negb]; [|reflexivity].
    destruct (parseIsoDate (Js.assoc "end_time" payload)) as [endTime|]; [|reflexivity].
    match goal with
    | |- context [endTime <=? ?s] => destruct (endTime <=? s); [reflexivity|]
    end.
    match goal with
    | |- forall e, snd (createCommit ?e0 ?w0 ?t ?sid) = _ -> _ =>
        assert (O := createCommit_outcome e0 w0 t sid Hok eq_refl);
        destruct (createCommit e0 w0 t sid) as [w' [r|e']]
    end; [discriminate|].
    intros e _. exact (proj1 O). }
  assert (Hblank : creatorId = EmptyString \/ title = EmptyString
                   \/ executorUserId = EmptyString ->
                   exists e : Exn, result = (w, Thrown e)).
  { unfold result, createManualTask. fold creatorId title executorUserId.
    destruct (Str.nonempty creatorId) eqn:Ec; cbn [negb]; [|eexists; reflexivity].
    destruct (Str.nonempty title) eqn:Et; cbn [negb]; [|eexists; reflexivity].
    destruct (Str.nonempty executorUserId) eqn:Ee; cbn [negb]; [|eexists; reflexivity].
    apply nonempty_true_iff in Ec, Et, Ee. tauto. }
  destruct result as [w1 [r1|e]] eqn:Eres; cbn [fst snd] in *.
  2:{ assert (Ew : w1 = w) by exact (Hthrown e eq_refl). subst w1.
      split; [exact Hok|]. split; [exact Hblank | reflexivity]. }
  destruct (createManualTask_returned penv env w w1 payload creatorUserId r1 Hok Eres)
    as (Hc & Ht & He & endTime & sid & Hend & Hlt & Hex & Hrows & Hseq & Hr).
  fold title executorUserId creatorId startTime in Hc, Ht, He, Hlt, Hrows.
  split; [|split; [exact Hblank|]].
  - apply (worldStep_storeOk w); [|exact Hok]. right.
    eexists. exists sid. split; [exact Hrows|]. split; [exact Hseq|].
    repeat split. exact Hex.
  - split; [exact Hc|]. split; [exact Ht|]. split; [exact He|].
    eexists. exists endTime, sid. split; [exact Hend|]. split; [exact Hlt|].
    split; [|split; [exact Hrows|]].
    + rewrite Hr, Hrows, nth_error_app2, Nat.sub_diag by lia. reflexivity.
    + repeat split. exact Hex.
Qed.


End ManualFacts.

(* ================================================================== *)
(** * The login URL *)

Ltac each_char c :=
  destruct c as [[] [] [] [] [] [] [] []].

Lemma isStateChar_safe (c : ascii) :
  isStateChar c = true -> isFormSafe c = true /\ wsByte c = false.
Proof. each_char c; intros E; try discriminate E; split; reflexivity. Qed.

Lemma formEncode_char (c : ascii) :
  isEncoded (hexDigit (nat_of_ascii c / 16)) = true
  /\ isEncoded (hexDigit (nat_of_ascii c mod 16)) = true.
Proof. each_char c; split; reflexivity. Qed.

Lemma allChars_app (p : ascii -> bool) (a b : string) :
  allChars p (a ++ b) = allChars p a && allChars p b.
Proof.
  induction a as [|c a IH]; simpl; [reflexivity|].
  rewrite IH. apply andb_assoc.
Qed.

Lemma countChar_app (c : ascii) (a b : string) :
  countChar c (a ++ b) = (countChar c a + countChar c b)%nat.
Proof. induction a as [|d a IH]; simpl; [reflexivity|]. rewrite IH. lia. Qed.

Lemma allChars_weaken (p q : ascii -> bool) (s : string) :
  (forall c, p c = true -> q c = true) -> allChars p s = true -> allChars q s = true.
Proof.
  intros Hpq. induction s as [|c s IH]; simpl; [reflexivity|].
  intros E. apply andb_prop in E. destruct E as [E1 E2].
  rewrite (Hpq c E1), (IH E2). reflexivity.
Qed.

Lemma allChars_count (p : ascii -> bool) (c : ascii) (s : string) :
  p c = false -> allChars p s = true -> countChar c s = O.
Proof.
  intros Hc. induction s as [|d s IH]; simpl; [reflexivity|].
  intros E. apply andb_prop in E. destruct E as [E1 E2]. rewrite (IH E2).
  destruct (Ascii.eqb d c) eqn:Ed; [|reflexivity].
  apply Ascii.eqb_eq in Ed. congruence.
Qed.

Lemma formEncode_encoded (s : string) : allChars isEncoded (formEncode s) = true.
Proof.
  induction s as [|c s IH]; cbn [formEncode allChars]; [reflexivity|].
  destruct (isFormSafe c) eqn:Es.
  - cbn [allChars]. unfold isEncoded at 1. rewrite Es. exact IH.
  - destruct (Ascii.eqb c " "); cbn [allChars].
    + exact IH.
    + destruct (formEncode_char c) as [E1 E2]. rewrite E1, E2. exact IH.
Qed.

Lemma formEncode_state (s : string) :
  allChars isStateChar s = true -> formEncode s = s.
Proof.
  induction s as [|c s IH]; simpl; [reflexivity|].
  intros E. apply andb_prop in E. destruct E as [E1 E2].
  rewrite (proj1 (isStateChar_safe c E1)), (IH E2). reflexivity.
Qed.

Lemma allChars_ltrim (s : string) :
  allChars (fun c => negb (wsByte c)) s = true -> Str.ltrim s = s.
Proof.
  destruct s as [|c s]; [reflexivity|].
  cbn [allChars]. intros E. apply andb_prop in E. destruct E as [E1 _].
  apply negb_true_iff in E1.
  apply ltrim_fixed. exact (headOk_sep EmptyString c s E1 eq_refl).
Qed.

Lemma allChars_rtrim (s : string) :
  allChars (fun c => negb (wsByte c)) s = true -> Str.rtrim s = s.
Proof.
  induction s as [|c s IH]; [reflexivity|].
  cbn [allChars]. intros E. apply andb_prop in E. destruct E as [E1 E2].
  apply negb_true_iff in E1.
  exact (rtrim_sep EmptyString c s E1 (IH E2)).
Qed.

Lemma statePattern_trim (s : string) : statePattern s = true -> Str.trim s = s.
Proof.
  unfold statePattern. intros E. apply andb_prop in E. destruct E as [_ E].
  assert (Hw : allChars (fun c => negb (wsByte c)) s = true).
  { apply (allChars_weaken isStateChar); [|exact E].
    intros c Hc. rewrite (proj2 (isStateChar_safe c Hc)). reflexivity. }
  unfold Str.trim. rewrite (allChars_ltrim s Hw). apply allChars_rtrim. exact Hw.
Qed.

Lemma urlSearchParams_shape (params : list (string * string)) :
  params <> [] ->
  allChars isQueryChar (urlSearchParams params) = true
  /\ S (countChar "&" (urlSearchParams params)) = List.length params
  /\ countChar "=" (urlSearchParams params) = List.length params.
Proof.
  assert (Hpair : forall kv : string * string,
            allChars isQueryChar (formEncode (fst kv) ++ "=" ++ formEncode (snd kv)) = true
            /\ countChar "&" (formEncode (fst kv) ++ "=" ++ formEncode (snd kv)) = O
            /\ countChar "=" (formEncode (fst kv) ++ "=" ++ formEncode (snd kv)) = 1%nat).
  { intros [k v]. cbn [fst snd].
    assert (Hq : forall x, allChars isQueryChar (formEncode x) = true).
    { intros x. apply (allChars_weaken isEncoded); [|apply formEncode_encoded].
      intros c Hc. unfold isQueryChar. rewrite Hc. reflexivity. }
    assert (Ha : forall x, countChar "&" (formEncode x) = O).
    { intros x. apply (allChars_count isEncoded); [reflexivity|apply formEncode_encoded]. }
    assert (He : forall x, countChar "=" (formEncode x) = O).
    { intros x. apply (allChars_count isEncoded); [reflexivity|apply formEncode_encoded]. }
    rewrite !allChars_app, !countChar_app, !Hq, !Ha, !He. repeat split. }
  unfold urlSearchParams.
  induction params as [|kv rest IH]; [congruence|]. intros _.
  destruct rest as [|kv' rest].
  - cbn [map Str.join List.length].
    destruct (Hpair kv) as (P1 & P2 & P3). rewrite P1, P2, P3. auto.
  - specialize (IH ltac:(discriminate)). destruct IH as (I1 & I2 & I3).
    destruct (Hpair kv) as (P1 & P2 & P3).
    change (Str.join "&" (map (fun kv0 => formEncode (fst kv0) ++ "=" ++ formEncode (snd kv0))
                            (kv :: kv' :: rest)))
      with ((formEncode (fst kv) ++ "=" ++ formEncode (snd kv)) ++ "&"
            ++ Str.join "&" (map (fun kv0 => formEncode (fst kv0) ++ "="
                                             ++ formEncode (snd kv0)) (kv' :: rest))).
    set (x := formEncode (fst kv) ++ "=" ++ formEncode (snd kv)) in *.
    set (y := Str.join "&" _) in *.
    rewrite !allChars_app, !countChar_app, P1, P2, P3, I1, I3.
    change (allChars isQueryChar "&") with true.
    change (countChar "&" "&") with 1%nat.
    change (countChar "=" "&") with 0%nat.
    cbn [List.length] in *. repeat split; lia.
Qed.

Section AuthFacts.
Context {H : Host} {C : CaseHost}.

(** X22. The [state] of a login URL is always well formed:
    [normalizeLoginState] returns a string of 1 to 64 letters, digits,
    [_] and [-], namely the trimmed value when that is one and "STATE"
    when it is not; it leaves such a string as it is, and so does the
    encoding of the query string, so the state in the URL is the state
    returned. *)
Theorem normalizeLoginState_spec (value : jsval) :
  let result := normalizeLoginState value in
  statePattern result = true
  /\ (statePattern (normalizeText value) = true -> result = normalizeText value)
  /\ (statePattern (normalizeText value) = false -> result = DEFAULT_STATE)
  /\ normalizeLoginState (JStr result) = result
  /\ formEncode result = result.
Proof.
  intros result.
  assert (Hv : statePattern result = true).
  { unfold result, normalizeLoginState.
    destruct (statePattern (normalizeText value)) eqn:E; [exact E | reflexivity]. }
  split; [exact Hv|]. unfold result, normalizeLoginState.
  split; [intros E; rewrite E; reflexivity|].
  split; [intros E; rewrite E; reflexivity|].
  fold (normalizeLoginState value). fold result. split.
  - rewrite normalizeText_JStr, (statePattern_trim result Hv), Hv. reflexivity.
  - apply formEncode_state. unfold statePattern in Hv.
    apply andb_prop in Hv. exact (proj2 Hv).
Qed.

(** X23. [resolveAuthLoginMode] never answers AUTO: the mode is QR
    or OAUTH.  A query mode that is not blank decides alone: it is the
    answer when it reads QR or OAUTH in any case, and otherwise the
    client decides (OAUTH inside WeCom, QR elsewhere) and the mode of
    the environment is not consulted, even when the query mode is no
    mode at all.  The mode of the environment is the answer only under a
    blank query mode. *)
Theorem resolveAuthLoginMode_spec (queryMode envMode userAgent : jsval) :
  let query := String_toUpperCase (normalizeText queryMode) in
  let env := String_toUpperCase (normalizeText envMode) in
  let byClient :=
    if isWeComClientUserAgent userAgent then LOGIN_MODE.OAUTH else LOGIN_MODE.QR in
  let result := resolveAuthLoginMode queryMode envMode userAgent in
  (result = LOGIN_MODE.QR \/ result = LOGIN_MODE.OAUTH)
  /\ (normalizeText queryMode <> EmptyString ->
      result = if String.eqb query LOGIN_MODE.QR || String.eqb query LOGIN_MODE.OAUTH
               then query else byClient)
  /\ (normalizeText queryMode = EmptyString ->
      result = if String.eqb env LOGIN_MODE.QR || String.eqb env LOGIN_MODE.OAUTH
               then env else byClient).
Proof.
  intros query env byClient result.
  assert (Hmode : forall v : jsval,
            let m := String_toUpperCase (normalizeText v) in
            (if String.eqb (normalizeLoginMode v) LOGIN_MODE.QR
                || String.eqb (normalizeLoginMode v) LOGIN_MODE.OAUTH
             then normalizeLoginMode v else byClient)
            = (if String.eqb m LOGIN_MODE.QR || String.eqb m LOGIN_MODE.OAUTH
               then m else byClient)).
  { intros v m. unfold normalizeLoginMode. fold m.
    destruct (String.eqb m LOGIN_MODE.QR) eqn:E1; cbn [orb]; [rewrite E1; reflexivity|].
    destruct (String.eqb m LOGIN_MODE.OAUTH) eqn:E2; cbn [orb];
      [rewrite E1, E2; reflexivity|].
    destruct (String.eqb m LOGIN_MODE.AUTO) eqn:E3; [|reflexivity].
    rewrite E1, E2. reflexivity. }
  assert (Hres : result
                 = if Str.nonempty (normalizeText queryMode)
                   then (if String.eqb query LOGIN_MODE.QR
                            || String.eqb query LOGIN_MODE.OAUTH
                         then query else byClient)
                   else (if String.eqb env LOGIN_MODE.QR || String.eqb env LOGIN_MODE.OAUTH
                         then env else byClient)).
  { unfold result, resolveAuthLoginMode. fold byClient.
    destruct (Str.nonempty (normalizeText queryMode)); apply Hmode. }
  split; [|split].
  - rewrite Hres.
    destruct (Str.nonempty (normalizeText queryMode)).
    + destruct (String.eqb query LOGIN_MODE.QR) eqn:E1; cbn [orb];
        [left; apply String.eqb_eq; exact E1|].
      destruct (String.eqb query LOGIN_MODE.OAUTH) eqn:E2;
        [right; apply String.eqb_eq; exact E2|].
      unfold byClient. destruct (isWeComClientUserAgent userAgent); auto.
    + destruct (String.eqb env LOGIN_MODE.QR) eqn:E1; cbn [orb];
        [left; apply String.eqb_eq; exact E1|].
      destruct (String.eqb env LOGIN_MODE.OAUTH) eqn:E2;
        [right; apply String.eqb_eq; exact E2|].
      unfold byClient. destruct (isWeComClientUserAgent userAgent); auto.
  - intros Hq. apply nonempty_true_iff in Hq. rewrite Hres, Hq. reflexivity.
  - intros Hq. apply nonempty_false_iff in Hq. rewrite Hres, Hq. reflexivity.
Qed.

(** X24. The values of a login URL cannot add to it: whatever the
    corp id, the agent id, the redirect URI and the state, the query
    string of the URL consists of letters, digits and [*-._+%=&] only,
    with one [=] for each parameter and one [&] between two parameters
    (five parameters for OAuth, four for the QR page), and the fragment
    of the OAuth URL is "#wechat_redirect".  [buildAuthLoginRedirectUrl]
    builds the OAuth URL for the mode "OAUTH" and the QR URL for every
    other mode. *)
Theorem buildAuthLoginRedirectUrl_spec (mode corpId agentId redirectUri state : jsval) :
  (exists query : string,
     buildOAuthLoginUrl corpId redirectUri state
     = "https://open.weixin.qq.com/connect/oauth2/authorize?" ++ query
       ++ "#wechat_redirect"
     /\ allChars isQueryChar query = true
     /\ countChar "=" query = 5%nat /\ countChar "&" query = 4%nat)
  /\ (exists query : string,
        buildQrLoginUrl corpId agentId redirectUri state
        = "https://open.work.weixin.qq.com/wwopen/sso/qrConnect?" ++ query
        /\ allChars isQueryChar query = true
        /\ countChar "=" query = 4%nat /\ countChar "&" query = 3%nat)
  /\ (mode = JStr LOGIN_MODE.OAUTH ->
      buildAuthLoginRedirectUrl mode corpId agentId redirectUri state
      = buildOAuthLoginUrl corpId redirectUri state)
  /\ (mode <> JStr LOGIN_MODE.OAUTH ->
      buildAuthLoginRedirectUrl mode corpId agentId redirectUri state
      = buildQrLoginUrl corpId agentId redirectUri state).
Proof.
  split; [|split; [|split]].
  - eexists. split; [reflexivity|].
    match goal with
    | |- context [urlSearchParams ?l] =>
        destruct (urlSearchParams_shape l ltac:(discriminate)) as (S1 & S2 & S3)
    end.
    cbn [List.length] in S2, S3. split; [exact S1|]. split; [exact S3 | lia].
  - eexists. split; [reflexivity|].
    match goal with
    | |- context [urlSearchParams ?l] =>
        destruct (urlSearchParams_shape l ltac:(discriminate)) as (S1 & S2 & S3)
    end.
    cbn [List.length] in S2, S3. split; [exact S1|]. split; [exact S3 | lia].
  - intros ->. reflexivity.
  - intros Hm. unfold buildAuthLoginRedirectUrl.
    destruct mode as [| |b|x|m|l|props]; try reflexivity.
    destruct (string_dec m LOGIN_MODE.OAUTH) as [->|Hn]; [congruence|].
    repeat (destruct m as [|[[] [] [] [] [] [] [] []] m]; try reflexivity).
    exfalso. apply Hn. reflexivity.
Qed.

End AuthFacts.

(* ================================================================== *)
(** * Reading the pairwise form *)

Lemma includes_cons (c d : ascii) (s : string) :
  Str.includes c (String d s) = Ascii.eqb d c || Str.includes c s.
Proof.
  unfold Str.includes. simpl. destruct (Ascii.eqb d c); [reflexivity|].
  destruct (Str.indexOf c s); reflexivity.
Qed.

Lemma includes_app (c : ascii) (a b : string) :
  Str.includes c (a ++ b) = Str.includes c a || Str.includes c b.
Proof.
  induction a as [|d a IH]; [reflexivity|].
  change (String d a ++ b) with (String d (a ++ b)).
  rewrite !includes_cons, IH. apply orb_assoc.
Qed.

Lemma split_plain (sep : ascii) (a : string) :
  Str.includes sep a = false -> Str.split sep a = [a].
Proof.
  induction a as [|c a IH]; [reflexivity|].
  rewrite includes_cons. intros E. apply orb_false_iff in E. destruct E as [E1 E2].
  simpl. rewrite E1, (IH E2). reflexivity.
Qed.

Lemma split_app (sep : ascii) (a rest : string) :
  Str.includes sep a = false ->
  Str.split sep (a ++ String sep rest) = a :: Str.split sep rest.
Proof.
  induction a as [|c a IH].
  - intros _. simpl. rewrite Ascii.eqb_refl. reflexivity.
  - rewrite includes_cons. intros E. apply orb_false_iff in E. destruct E as [E1 E2].
    change (String c a ++ String sep rest) with (String c (a ++ String sep rest)).
    simpl. rewrite E1, (IH E2). reflexivity.
Qed.

Lemma indexOf_app (c : ascii) (a rest : string) :
  Str.includes c a = false ->
  Str.indexOf c (a ++ String c rest) = Some (String.length a).
Proof.
  induction a as [|d a IH].
  - intros _. simpl. rewrite Ascii.eqb_refl. reflexivity.
  - rewrite includes_cons. intros E. apply orb_false_iff in E. destruct E as [E1 E2].
    change (String d a ++ String c rest) with (String d (a ++ String c rest)).
    simpl. rewrite E1, (IH E2). reflexivity.
Qed.

Lemma take_app (a b : string) : Str.take (String.length a) (a ++ b) = a.
Proof.
  induction a as [|d a IH]; simpl; [destruct b; reflexivity|].
  rewrite IH. reflexivity.
Qed.

Lemma drop_app (a b : string) (c : ascii) :
  Str.drop (S (String.length a)) (a ++ String c b) = b.
Proof.
  induction a as [|d a IH]; [destruct b; reflexivity|]. exact IH.
Qed.

Lemma trimmed_ends (s : string) :
  Str.trim s = s -> headOk s /\ Str.rtrim s = s.
Proof.
  intros E.
  assert (Hh : headOk s).
  { rewrite <- E. unfold Str.trim. apply rtrim_headOk, ltrim_headOk. }
  split; [exact Hh|].
  unfold Str.trim in E. rewrite (ltrim_fixed s Hh) in E. exact E.
Qed.

Lemma mapSet_fresh (k : string) (v : CalendarMapping)
    (m : list (string * CalendarMapping)) :
  ~ In k (map fst m) -> mapSet k v m = (m ++ [(k, v)])%list.
Proof.
  induction m as [|[k' v'] m IH]; simpl; [reflexivity|].
  intros Hn. destruct (String.eqb k k') eqn:E.
  - apply String.eqb_eq in E. exfalso. apply Hn. left. symmetry. exact E.
  - rewrite IH by tauto. reflexivity.
Qed.

Section PairFacts.
Context {H : Host}.
Variable JSON_parse : string -> option jsval.

Lemma pairText_trimmed (p : string * string) :
  plainUser (fst p) -> plainId (snd p) ->
  pairText p <> EmptyString
  /\ headOk (pairText p)
  /\ Str.rtrim (pairText p) = pairText p
  /\ Str.includes "," (pairText p) = false.
Proof.
  destruct p as [u c]. cbn [fst snd]. unfold pairText. cbn [fst snd].
  intros ((Hu & Etu & Hcu) & _ & _) (Hc & Etc & Hcc).
  destruct (trimmed_ends u Etu) as [Hhu _].
  destruct (trimmed_ends c Etc) as [_ Erc].
  split; [destruct u; [congruence | discriminate]|].
  split; [exact (headOk_sep u ":" c eq_refl Hhu)|].
  split; [exact (rtrim_sep u ":" c eq_refl Erc)|].
  rewrite includes_app, Hcu. change (":" ++ c) with (String ":" c).
  rewrite includes_cons, Hcc. reflexivity.
Qed.

Lemma parsePair_pairText (p : string * string) :
  plainUser (fst p) -> plainId (snd p) ->
  parsePair (pairText p) = Some (pairMapping p).
Proof.
  destruct p as [u c]. cbn [fst snd]. unfold pairText, pairMapping. cbn [fst snd].
  intros ((Hu & Etu & _) & Hnc & _) (Hc & Etc & _).
  unfold parsePair. change (":" ++ c) with (String ":" c).
  rewrite includes_app, (includes_cons ":" ":" c), Ascii.eqb_refl, orb_true_r.
  rewrite (indexOf_app ":" u c Hnc).
  destruct (String.length u) as [|n] eqn:El; [destruct u; [congruence | discriminate El]|].
  rewrite <- El, take_app, drop_app.
  rewrite (normalizeText_fixed u Etu), (normalizeText_fixed c Etc).
  apply (toCalendarMappingRecord_fixed
           {| user_id := u; cal_id := c; source := "env_map" |} "env_map").
  unfold wfMapping. cbn [user_id cal_id source].
  apply nonempty_true_iff in Hc. repeat split; assumption.
Qed.

Lemma join_pairs_trimmed (pairs : list (string * string)) :
  pairs <> [] ->
  Forall (fun p => plainUser (fst p) /\ plainId (snd p)) pairs ->
  let text := Str.join "," (map pairText pairs) in
  text <> EmptyString
  /\ headOk text
  /\ Str.rtrim text = text
  /\ Str.split "," text = map pairText pairs
  /\ match text with
     | String "{" _ | String "[" _ => False
     | _ => True
     end.
Proof.
  intros Hne Hall. induction Hall as [|p rest [Hu Hc] Hrest IH]; [congruence|].
  destruct (pairText_trimmed p Hu Hc) as (Pn & Ph & Pr & Pc).
  assert (Hhead : match pairText p with
                  | String "{" _ | String "[" _ => False
                  | _ => True
                  end).
  { destruct Hu as ((Hu & _) & _ & Hj). destruct p as [u c]. unfold pairText.
    cbn [fst snd] in *. destruct u as [|ch u]; [congruence|]. exact Hj. }
  destruct rest as [|q rest].
  - cbn [map Str.join]. cbv zeta.
    split; [exact Pn|]. split; [exact Ph|]. split; [exact Pr|].
    split; [apply split_plain; exact Pc | exact Hhead].
  - specialize (IH ltac:(discriminate)). cbv zeta in IH.
    destruct IH as (In_ & Ih & Ir & Is & _).
    change (Str.join "," (map pairText (p :: q :: rest)))
      with (pairText p ++ String "," (Str.join "," (map pairText (q :: rest)))).
    cbv zeta.
    set (tail := Str.join "," (map pairText (q :: rest))) in *.
    split; [destruct (pairText p); [congruence | discriminate]|].
    split; [exact (headOk_sep (pairText p) "," tail eq_refl Ph)|].
    split; [exact (rtrim_sep (pairText p) "," tail eq_refl Ir)|].
    split; [rewrite (split_app "," _ tail Pc), Is; reflexivity|].
    destruct (pairText p) as [|ch x]; [congruence | exact Hhead].
Qed.

Lemma pairs_parsed (pairs : list (string * string)) :
  Forall (fun p => plainUser (fst p) /\ plainId (snd p)) pairs ->
  keepWithUser
    (map parsePair
       (filter Str.nonempty
          (map (fun item => normalizeText (JStr item)) (map pairText pairs))))
  = map pairMapping pairs.
Proof.
  induction 1 as [|p rest [Hu Hc] _ IH]; [reflexivity|].
  destruct (pairText_trimmed p Hu Hc) as (Pn & Ph & Pr & _).
  cbn [map].
  assert (Et : normalizeText (JStr (pairText p)) = pairText p).
  { apply normalizeText_fixed. unfold Str.trim. rewrite (ltrim_fixed _ Ph). exact Pr. }
  rewrite Et. cbn [filter]. apply nonempty_true_iff in Pn. rewrite Pn.
  cbn [map]. rewrite (parsePair_pairText p Hu Hc).
  unfold keepWithUser in *. cbn [flat_map]. rewrite IH.
  destruct Hu as ((Hu & _) & _). apply nonempty_true_iff in Hu.
  change (user_id (pairMapping p)) with (fst p). rewrite Hu. reflexivity.
Qed.

Lemma merge_distinct (l : list CalendarMapping) (acc : list (string * CalendarMapping)) :
  Forall (fun m => wfMapping m /\ user_id m <> EmptyString) l ->
  NoDup (map fst acc ++ map user_id l) ->
  fold_left mergeStep (map mapping_js l) acc
  = (acc ++ map (fun m => (user_id m, m)) l)%list.
Proof.
  intros Hall. revert acc. induction Hall as [|m l [Hwf Hne] _ IH]; intros acc Hnd.
  - simpl. rewrite app_nil_r. reflexivity.
  - cbn [map fold_left]. rewrite mergeStep_eq. unfold normalizedRow.
    rewrite (toCalendarMappingRecord_fixed m _ Hwf).
    apply nonempty_true_iff in Hne. rewrite Hne.
    assert (Hfresh : ~ In (user_id m) (map fst acc)).
    { intros Hin. apply NoDup_remove_2 in Hnd. apply Hnd.
      apply in_or_app. left. exact Hin. }
    rewrite (mapSet_fresh _ _ _ Hfresh), IH.
    + rewrite <- app_assoc. reflexivity.
    + rewrite map_app. cbn [map fst]. rewrite <- app_assoc. exact Hnd.
Qed.

(** X25. The pairwise form of USER_CALENDAR_MAP reads back: the text
    [u1:c1,u2:c2,...] of distinct users, with ids that are trimmed, not
    blank and free of commas, and user ids free of colons that do not
    begin like a JSON text, parses to exactly the mappings of [u1] to
    [c1], [u2] to [c2], ... in that order, each with the source
    "env_map", whatever [JSON.parse] does. *)
Theorem parseUserCalendarMap_round_trip (pairs : list (string * string)) :
  Forall (fun p => plainUser (fst p) /\ plainId (snd p)) pairs ->
  NoDup (map fst pairs) ->
  parseUserCalendarMap JSON_parse (JStr (Str.join "," (map pairText pairs)))
  = map pairMapping pairs.
Proof.
  intros Hall Hnd.
  destruct pairs as [|p0 rest0] eqn:Ep; [reflexivity|]. rewrite <- Ep in *.
  assert (Hne : pairs <> []) by (rewrite Ep; discriminate).
  clear Ep p0 rest0.
  destruct (join_pairs_trimmed pairs Hne Hall) as (Tn & Th & Tr & Ts & Tj).
  set (text := Str.join "," (map pairText pairs)) in *.
  assert (Epairs : parseUserCalendarMapFromPairs text = map pairMapping pairs).
  { unfold parseUserCalendarMapFromPairs. rewrite Ts. apply pairs_parsed. exact Hall. }
  unfold parseUserCalendarMap.
  assert (Et : normalizeText (JStr text) = text).
  { apply normalizeText_fixed. unfold Str.trim. rewrite (ltrim_fixed _ Th). exact Tr. }
  rewrite Et. apply nonempty_true_iff in Tn. rewrite Tn. cbn [negb].
  assert (Erows : match text with
                  | String "{" _ | String "[" _ =>
                      match parseUserCalendarMapFromJson JSON_parse text with
                      | Some rows => rows
                      | None => parseUserCalendarMapFromPairs text
                      end
                  | _ => parseUserCalendarMapFromPairs text
                  end = map pairMapping pairs).
  { destruct text as [|ch x]; [exact Epairs|].
    revert Tj. each_char ch; intros Tj; try exact Epairs; contradiction. }
  rewrite Erows. unfold mergeCalendarMappingsByUser. cbn [Js.arrayOrEmpty].
  rewrite merge_distinct.
  - cbn [app]. rewrite map_map. cbn [snd]. apply map_id.
  - apply Forall_forall. intros m Hm. apply in_map_iff in Hm.
    destruct Hm as (p & <- & Hp). rewrite Forall_forall in Hall.
    destruct (Hall p Hp) as [((Hu & Etu & _) & _) (Hc & Etc & _)].
    unfold wfMapping, pairMapping. cbn [user_id cal_id source].
    apply nonempty_true_iff in Hc. repeat split; assumption.
  - cbn [map app]. rewrite map_map. cbn [pairMapping user_id]. exact Hnd.
Qed.

End PairFacts.

(* ================================================================== *)
(** * The result of one schedule, the recipients of a card *)

Lemma join_nonempty (sep : string) (l : list string) :
  Forall (fun x => x <> EmptyString) l ->
  (Str.join sep l = EmptyString <-> l = []).
Proof.
  intros Hall. split; [|intros ->; reflexivity].
  destruct Hall as [|x rest Hx _]; [reflexivity|].
  destruct x as [|c x]; [congruence|].
  destruct rest; simpl; discriminate.
Qed.

Section ResultFacts.
Context {H : Host}.
Variable datetime_unixepoch : float -> option string.
Variable GLOBAL_VERIFIERS : string.
Variable wecom_getSchedule : nat -> jsval -> Response.
Variable envAt : nat -> Env.

(** X26. [processSchedule] never throws, and of the three flags of
    its result exactly one is set, which is what the counters of
    [syncSchedules] rely on.  A skipped schedule leaves the table as it
    was and comes with a reason; an inserted or updated one comes without
    reason and with the row of the schedule id of the details WeCom
    answered: the row carries that schedule id and is the row the table
    has for it after the call, an inserted one being a new row. *)
Theorem processSchedule_flags (n : nat) (w : World) (scheduleId : jsval)
    (calendarContext : list (string * jsval)) :
  let result :=
    processSchedule datetime_unixepoch wecom_getSchedule envAt n w scheduleId
      calendarContext in
  let r := snd result in
  ((inserted r = true /\ updated r = false /\ skipped r = false)
   \/ (inserted r = false /\ updated r = true /\ skipped r = false)
   \/ (inserted r = false /\ updated r = false /\ skipped r = true))
  /\ (skipped r = true -> fst result = w /\ reason r <> None /\ task r = None)
  /\ (skipped r = false ->
      reason r = None
      /\ exists (details : jsval) (t : Db.TaskRow),
           wecom_getSchedule n scheduleId = Resolved details
           /\ task r = Some t
           /\ Db.wecom_schedule_id t
              = Some (normalizeText
                        (Js.and (Js.get details "schedule")
                           (Js.get (Js.get details "schedule") "schedule_id")))
           /\ getTaskByScheduleId (fst result)
                (normalizeText
                   (Js.and (Js.get details "schedule")
                      (Js.get (Js.get details "schedule") "schedule_id")))
              = Some t
           /\ In t (rows (fst result))
           /\ (inserted r = true -> rows (fst result) = (rows w ++ [t])%list))
  /\ (updated r = true -> List.length (rows (fst result)) = List.length (rows w)).
Proof.
  cbv zeta. unfold processSchedule.
  assert (Hskip : forall (why : string) (P : Prop),
            let r := skipResult why in
            ((inserted r = true /\ updated r = false /\ skipped r = false)
             \/ (inserted r = false /\ updated r = true /\ skipped r = false)
             \/ (inserted r = false /\ updated r = false /\ skipped r = true))
            /\ (skipped r = true -> w = w /\ reason r <> None /\ task r = None)
            /\ (skipped r = false -> P)
            /\ (updated r = true -> List.length (rows w) = List.length (rows w))).
  { intros why P. cbv zeta. cbn [skipResult inserted updated skipped reason task].
    split; [auto|]. split; [intros _; repeat split; discriminate|].
    split; [discriminate | reflexivity]. }
  assert (Hsid : forall (sid : string) (w' : World) (t : Db.TaskRow),
            getTaskByScheduleId w' sid = Some t ->
            Db.wecom_schedule_id t = Some sid /\ In t (rows w')).
  { intros sid w' t Ht. destruct (find_some _ _ Ht) as [Hin Hhas].
    split; [|exact Hin]. unfold Db.hasScheduleId in Hhas.
    destruct (Db.wecom_schedule_id t) as [x|]; [|discriminate Hhas].
    apply String.eqb_eq in Hhas. rewrite Hhas. reflexivity. }
  destruct (wecom_getSchedule n scheduleId) as [details|message]; [|apply Hskip].
  destruct (Js.nullish details); [apply Hskip|].
  destruct (negb (isZero (Js.get details "errcode"))
            || negb (Js.truthy (Js.get details "schedule"))); [apply Hskip|].
  set (schedule := Js.get details "schedule").
  set (sid := normalizeText (Js.and schedule (Js.get schedule "schedule_id"))).
  destruct (string_dec sid EmptyString) as [Eid|Hid];
    [|destruct (string_dec (organizerOf schedule) EmptyString) as [Ec|Hc];
      [|destruct (string_dec (pickExecutor schedule) EmptyString) as [Ee|He]]].
  1-3: destruct (syncScheduleTask_skips datetime_unixepoch (envAt n) w schedule
                   calendarContext) as [why E]; [tauto|];
       rewrite E; apply Hskip.
  assert (R := syncScheduleTask_reconciles datetime_unixepoch (envAt n) w schedule
                 calendarContext Hid Hc He).
  cbv zeta in R. fold sid in R.
  destruct (getTaskByScheduleId w sid) as [old|] eqn:Eg.
  - destruct R as (w' & E & Hrows & _). rewrite E.
    cbn [fst snd inserted updated skipped reason task].
    assert (Hfound : exists t, getTaskByScheduleId w' sid = Some t).
    { unfold getTaskByScheduleId in *. rewrite Hrows.
      rewrite find_map_preserved
        by (intros a; apply setSynced_keeps_scheduleId).
      rewrite Eg. eexists. reflexivity. }
    destruct Hfound as [t Ht]. rewrite Ht.
    destruct (Hsid sid w' t Ht) as [Hcol Hin].
    split; [auto|]. split; [discriminate|]. split.
    + intros _. split; [reflexivity|]. exists details, t.
      split; [reflexivity|]. split; [reflexivity|]. split; [exact Hcol|].
      split; [exact Ht|]. split; [exact Hin | discriminate].
    + intros _. rewrite Hrows. apply length_map.
  - destruct R as (w' & E & Hrows & Ht). rewrite E.
    cbn [fst snd inserted updated skipped reason task].
    destruct (Hsid sid w' _ Ht) as [Hcol Hin].
    split; [auto|]. split; [discriminate|]. split; [|discriminate].
    intros _. split; [reflexivity|]. eexists details, _.
    split; [reflexivity|]. split; [reflexivity|]. split; [exact Hcol|].
    split; [exact Ht|]. split; [exact Hin|]. intros _. exact Hrows.
Qed.

(** X27. The card that asks for a verification goes to the creator
    of the task and to the global verifiers, each once: the recipients
    are joined by "|" from a list without blanks and without repetition
    that holds exactly the creator and the verifiers that are not blank,
    the creator first; and the card is left out for want of a recipient
    only when that list is empty. *)
Theorem buildVerifierRecipients_spec (env : Env) (task : jsval) :
  let creator := normalizeText (Js.get task "creator_userid") in
  let recipients :=
    uniq (filter Str.nonempty (creator :: getGlobalVerifiers GLOBAL_VERIFIERS)) in
  buildVerifierRecipients GLOBAL_VERIFIERS task = Str.join "|" recipients
  /\ NoDup recipients
  /\ (forall x : string,
        In x recipients
        <-> x <> EmptyString
            /\ (x = creator \/ In x (getGlobalVerifiers GLOBAL_VERIFIERS)))
  /\ (creator <> EmptyString -> hd_error recipients = Some creator)
  /\ (sendVerifierCard GLOBAL_VERIFIERS env task = NoRecipient <-> recipients = []).
Proof.
  intros creator recipients.
  assert (Hin : forall x : string,
            In x recipients
            <-> x <> EmptyString
                /\ (x = creator \/ In x (getGlobalVerifiers GLOBAL_VERIFIERS))).
  { intros x. unfold recipients. rewrite uniq_In, filter_In, nonempty_true_iff.
    simpl. split.
    - intros [[A|A] B]; (split; [exact B|]);
        [left; symmetry; exact A | right; exact A].
    - intros [B [A|A]]; (split; [|exact B]);
        [left; symmetry; exact A | right; exact A]. }
  split; [reflexivity|]. split; [apply uniq_NoDup|]. split; [exact Hin|]. split.
  - intros Hc. unfold recipients. cbn [filter].
    apply nonempty_true_iff in Hc. rewrite Hc. reflexivity.
  - unfold sendVerifierCard.
    change (buildVerifierRecipients GLOBAL_VERIFIERS task)
      with (Str.join "|" recipients).
    assert (Hall : Forall (fun x => x <> EmptyString) recipients).
    { apply Forall_forall. intros x Hx. apply Hin in Hx. tauto. }
    destruct (Str.nonempty (Str.join "|" recipients)) eqn:E; cbn [negb].
    + apply nonempty_true_iff in E. split.
      * destruct (net_ok env); discriminate.
      * intros Hr. exfalso. apply E. apply (join_nonempty "|" recipients Hall). exact Hr.
    + apply nonempty_false_iff in E. split; [|reflexivity].
      intros _. apply (join_nonempty "|" recipients Hall). exact E.
Qed.

End ResultFacts.

(* ================================================================== *)
(** * The properties at work on the reference host *)

Section OnTheReferenceHost.
#[local] Existing Instance RefHost.host.



(** C2, the claim as stated fails: the second reconciliation of an
    unchanged schedule also overwrites [updated_at], a column outside the
    listed ones; and the second call with a schedule the first call
    skipped is skipped again, it does not return [{updated: true}]. *)
Lemma syncScheduleTask_overwrites_updated_at :
  map Db.updated_at
    (rows (fst (syncScheduleTask RefHost.datetime_unixepoch Demo.env1
                  Demo.emptyWorld Demo.weeklyReport [])))
  = [Some "2026-01-01 00:00:00"]
  /\ map Db.updated_at
       (rows (fst (syncScheduleTask RefHost.datetime_unixepoch Demo.env2
                     (fst (syncScheduleTask RefHost.datetime_unixepoch Demo.env1
                             Demo.emptyWorld Demo.weeklyReport []))
                     Demo.weeklyReport [])))
     = [Some "2026-01-02 00:00:00"]
  /\ snd (syncScheduleTask RefHost.datetime_unixepoch Demo.env2
            (fst (syncScheduleTask RefHost.datetime_unixepoch Demo.env1
                    Demo.emptyWorld Demo.loneAttendee []))
            Demo.loneAttendee [])
     = Returned (skipResult "missing_creator_or_executor").
Proof. repeat split. Qed.

(** C2 at work: the second of two calls with one schedule updates in
    place and keeps status, redo count, reject reason and reminder
    bookkeeping. *)
Lemma syncScheduleTask_second_call_updates :
  exists (w1 w2 : World) (r1 r2 : SyncResult),
    syncScheduleTask RefHost.datetime_unixepoch Demo.env1 Demo.emptyWorld
      Demo.weeklyReport [] = (w1, Returned r1)
    /\ skipped r1 = false
    /\ syncScheduleTask RefHost.datetime_unixepoch Demo.env2 w1
         Demo.weeklyReport [] = (w2, Returned r2)
    /\ inserted r2 = false /\ updated r2 = true
    /\ Forall2 syncFrame (rows w1) (rows w2).
Proof.
  pose (first := syncScheduleTask RefHost.datetime_unixepoch Demo.env1
                   Demo.emptyWorld Demo.weeklyReport []).
  pose (w1 := fst first).
  pose (r1 := {| inserted := true; updated := false; skipped := false;
                 reason := None; task := hd_error (rows w1) |}).
  assert (E1 : first = (w1, Returned r1)) by reflexivity.
  destruct (proj2 (syncScheduleTask_update_in_place RefHost.datetime_unixepoch
                     Demo.env1 Demo.env2 Demo.emptyWorld Demo.weeklyReport [])
              w1 r1 E1 eq_refl)
    as (w2 & r2 & E2 & Hi & Hu & _ & _ & Hframe).
  exists w1, w2, r1, r2. repeat split; assumption.
Defined.

(** C3 at work: the creator rejects a waiting task with a blank
    reason. *)
Lemma verifyTask_reject_waiting :
  getTaskByScheduleId (Demo.world Demo.waiting) "sch-4" = Some Demo.waiting
  /\ Db.status Demo.waiting = Some TASK_STATUS.WAITING_VERIFY
  /\ normalizeText (JStr " mgr ") = "mgr"
  /\ exists (w' : World) (t' : Db.TaskRow),
       verifyTask "boss" Demo.env1 (Demo.world Demo.waiting) "sch-4"
         (JStr " mgr ") false (JStr "  ")
       = (w', Returned {| v_message := "任务已驳回并退回执行"; v_task := Some t' |})
       /\ Db.status t' = Some "PENDING"
       /\ Db.reject_reason t' = Some "领导驳回"
       /\ Db.redo_count t' = Some 1.
Proof.
  split; [reflexivity|]. split; [reflexivity|]. split; [reflexivity|].
  destruct (proj1 (verifyTask_reject_spec (H := RefHost.host) "boss" Demo.env1 Demo.env2
                     (Demo.world Demo.waiting) "sch-4" (JStr " mgr ") (JStr "  ")
                     Demo.waiting eq_refl eq_refl
                     ltac:(vm_compute; discriminate)
                     (or_introl eq_refl)))
    as (w' & t' & E & _ & _ & Hst & _ & _ & Hwhy & Hredo).
  exists w', t'. repeat split; assumption.
Defined.

(** C4 at work: the same kind again is sent twelve hours after the
    last reminder, and held back one millisecond earlier. *)
Lemma shouldSendReminder_after_cooldown :
  shouldSendReminder
    (JObj [("last_reminder_kind", JStr "OVERDUE");
           ("last_reminder_at", JStr "2026-01-01 00:00:00")])
    OVERDUE (1767225600000 + 12 * 60 * 60 * 1000) 12 = true
  /\ shouldSendReminder
       (JObj [("last_reminder_kind", JStr "OVERDUE");
              ("last_reminder_at", JStr "2026-01-01 00:00:00")])
       OVERDUE (1767225600000 + 12 * 60 * 60 * 1000 - 1) 12 = false.
Proof.
  split.
  - apply (proj1 (proj2 (proj2 (shouldSendReminder_spec
                    [("last_reminder_kind", JStr "OVERDUE");
                     ("last_reminder_at", JStr "2026-01-01 00:00:00")]
                    OVERDUE (1767225600000 + 12 * 60 * 60 * 1000))))
             ltac:(discriminate) eq_refl 1767225600000 ltac:(discriminate) eq_refl).
    vm_compute. discriminate.
  - apply not_true_is_false. intros E.
    apply (proj1 (proj2 (proj2 (shouldSendReminder_spec
                    [("last_reminder_kind", JStr "OVERDUE");
                     ("last_reminder_at", JStr "2026-01-01 00:00:00")]
                    OVERDUE (1767225600000 + 12 * 60 * 60 * 1000 - 1))))
             ltac:(discriminate) eq_refl 1767225600000 ltac:(discriminate) eq_refl)
      in E.
    vm_compute in E. apply E. reflexivity.
Defined.

(** C5, the claim as stated fails: a reminder is due for a task
    without executor; no card is delivered, and the row is stamped with
    the kind and the time all the same, the call returning
    [{sent: true}]. *)
Lemma dispatchTaskReminder_stamps_without_executor :
  normalizeText (Db.text_js (Db.executor_userid Demo.orphan)) = EmptyString
  /\ shouldSendReminder (Db.row_js Demo.orphan)
       (getReminderKind (Db.row_js Demo.orphan) (clock_ms Demo.env1))
       (clock_ms Demo.env1) 12 = true
  /\ map Db.last_reminder_kind (rows (Demo.world Demo.orphan)) = [None]
  /\ map Db.last_reminder_kind
       (rows (fst (dispatchTaskReminder Demo.env1 (Demo.world Demo.orphan) Demo.orphan)))
     = [Some "OVERDUE"]
  /\ map Db.last_reminder_at
       (rows (fst (dispatchTaskReminder Demo.env1 (Demo.world Demo.orphan) Demo.orphan)))
     = [Some "2026-01-01 00:00:00"]
  /\ outbox (fst (dispatchTaskReminder Demo.env1 (Demo.world Demo.orphan) Demo.orphan))
     = []
  /\ snd (dispatchTaskReminder Demo.env1 (Demo.world Demo.orphan) Demo.orphan)
     = {| sent := true; kind := OVERDUE |}.
Proof. repeat split. Qed.

(** C5 at work on the same task. *)
Lemma dispatchTaskReminder_orphan :
  shouldSendReminder (Db.row_js Demo.orphan)
    (getReminderKind (Db.row_js Demo.orphan) (clock_ms Demo.env1))
    (clock_ms Demo.env1) 12 = true
  /\ normalizeText (Db.text_js (Db.executor_userid Demo.orphan)) = EmptyString
  /\ exists w' : World,
       dispatchTaskReminder Demo.env1 (Demo.world Demo.orphan) Demo.orphan
       = (w', {| sent := true; kind := OVERDUE |})
       /\ outbox w' = [].
Proof.
  split; [reflexivity|]. split; [reflexivity|].
  destruct (dispatchTaskReminder_empty_executor (H := RefHost.host) Demo.env1 (Demo.world Demo.orphan)
              Demo.orphan ltac:(reflexivity) ltac:(reflexivity))
    as (w' & E & Hout & _).
  exists w'. split; [exact E | exact Hout].
Defined.

(** C6 at work: the three rows of the scenario at 2026-01-01T00:00Z. *)
Lemma buildTaskKpi_scenario :
  buildTaskKpi
    (JArr [JObj [("status", JStr "PENDING");
                 ("end_time", JStr "2026-01-01T08:00:00.000Z")];
           JObj [("status", JStr "WAITING_VERIFY");
                 ("end_time", JStr "2025-12-31T23:00:00.000Z")];
           JObj [("status", JStr "COMPLETED");
                 ("end_time", JStr "2025-12-31T22:00:00.000Z");
                 ("completion_time", JStr "2025-12-31T21:00:00.000Z")]])
    1767225600000
  = Some {| total_tasks := 3; completed_tasks := 1; waiting_verify_tasks := 1;
            overdue_tasks := 1; due_soon_tasks := 1;
            completion_rate := 33.33%float; on_time_rate := 100%float |}.
Proof.
  exact (proj2 (proj2 (proj2 (buildTaskKpi_spec [] 1767225600000)))
           "2026-01-01T08:00:00.000Z" "2025-12-31T23:00:00.000Z"
           "2025-12-31T22:00:00.000Z" "2025-12-31T21:00:00.000Z"
           eq_refl eq_refl eq_refl eq_refl).
Defined.


(** C9 at work: the creator looks at a task waiting for verification. *)
Lemma mapTaskRowToApi_waiting :
  exists api : ApiTask,
    mapTaskRowToApi (clock_ms Demo.env1) (Db.row_js Demo.waiting)
      {| opt_now := None; opt_currentUserId := JStr "mgr";
         opt_globalVerifiers := JArr [] |} = Some api
    /\ can_verify api = true
    /\ can_complete api && can_verify api = false.
Proof.
  eexists. split; [reflexivity|]. split; [reflexivity|].
  exact (proj2 (proj2 (mapTaskRowToApi_complete_verify_exclusive
                         (clock_ms Demo.env1) (Db.row_js Demo.waiting)
                         {| opt_now := None; opt_currentUserId := JStr "mgr";
                            opt_globalVerifiers := JArr [] |}
                         _ eq_refl))).
Defined.

(** C10 at work: a task waiting for verification gets no reminder. *)
Lemma dispatchTaskReminder_waiting :
  normalizeText (Db.text_js (Db.status Demo.waiting)) <> TASK_STATUS.PENDING
  /\ dispatchTaskReminder Demo.env1 (Demo.world Demo.waiting) Demo.waiting
     = (Demo.world Demo.waiting, {| sent := false; kind := NONE |}).
Proof.
  assert (Hst : normalizeText (Db.text_js (Db.status Demo.waiting)) <> TASK_STATUS.PENDING)
    by (vm_compute; discriminate).
  split; [exact Hst|].
  exact (proj2 (proj2 (dispatchTaskReminder_not_pending Demo.env1
                         (Demo.world Demo.waiting) Demo.waiting (or_introl Hst)))).
Defined.

(** White space outside ASCII is trimmed as [String.prototype.trim]
    trims it: a no-break space, an ideographic space and a byte order
    mark around an id go, a blank between two words stays. *)
Lemma trim_beyond_ascii :
  Str.trim (Blank.nbsp ++ "abc") = "abc"
  /\ Str.trim (" " ++ Blank.bom ++ "mgr" ++ Blank.ideographic ++ Blank.nbsp) = "mgr"
  /\ Str.trim Blank.ideographic = EmptyString
  /\ Str.trim ("a" ++ Blank.ideographic ++ "b") = "a" ++ Blank.ideographic ++ "b"
  /\ Str.trim "领导驳回" = "领导驳回".
Proof. repeat split. Qed.

(** A schedule whose organizer is an ideographic space has no creator
    and is skipped, whoever attends. *)
Lemma syncScheduleTask_blank_organizer :
  organizerOf Blank.blankOrganizer = EmptyString
  /\ pickExecutor Blank.blankOrganizer = "exec1"
  /\ syncScheduleTask RefHost.datetime_unixepoch Demo.env1 Demo.emptyWorld
       Blank.blankOrganizer []
     = (Demo.emptyWorld, Returned (skipResult "missing_creator_or_executor")).
Proof. repeat split. Qed.

(** A reject reason that is an ideographic space is blank: the default
    reason is stored. *)
Lemma verifyTask_blank_reason :
  map Db.reject_reason
    (rows (fst (verifyTask "boss" Demo.env1 (Demo.world Demo.waiting) "sch-4"
                  (JStr "mgr") false (JStr Blank.ideographic))))
  = [Some "领导驳回"].
Proof. reflexivity. Qed.


End OnTheReferenceHost.

(* ================================================================== *)
(** * The lifecycle, the sync run and the login URL at work *)

Section AtWork.
#[local] Existing Instance RefHost.host.
#[local] Existing Instance RefCase.host.

Lemma storeOk_world (r : Db.TaskRow) : storeOk (Demo.world r).
Proof.
  unfold storeOk, Demo.world. cbn [rows seq]. split; [|split].
  - constructor; [exact (fun h => h) | constructor].
  - intros r' [<-|[]]. lia.
  - unfold scheduleIds. cbn [flat_map]. rewrite app_nil_r.
    destruct (Db.wecom_schedule_id r); [|constructor].
    constructor; [exact (fun h => h) | constructor].
Defined.

Lemma storeOk_emptyWorld : storeOk Demo.emptyWorld.
Proof.
  unfold storeOk. cbn. split; [constructor|]. split; [|constructor].
  intros r [].
Defined.


(** X9 at work: the creator's id followed by a no-break space is the
    creator's id, and an id that is an ideographic space is no id. *)
Lemma permissions_beyond_ascii :
  canUserVerifyTask
    (JObj [("status", JStr "WAITING_VERIFY"); ("creator_userid", JStr "mgr")])
    (JStr ("mgr" ++ Blank.nbsp)) (JArr []) = true
  /\ canUserCompleteTask
       (JObj [("status", JStr "PENDING");
              ("executor_userid", JStr Blank.ideographic)])
       (JStr Blank.ideographic) = false.
Proof.
  split.
  - apply (proj1 (proj2 (permissions_spec (H := RefHost.host)
                           [("status", JStr "WAITING_VERIFY");
                            ("creator_userid", JStr "mgr")]
                           (JStr ("mgr" ++ Blank.nbsp)) []))).
    split; [vm_compute; discriminate|]. split; [reflexivity|]. left. reflexivity.
  - apply (proj2 (proj2 (permissions_spec (H := RefHost.host)
                           [("status", JStr "PENDING");
                            ("executor_userid", JStr Blank.ideographic)]
                           (JStr Blank.ideographic) []))).
    reflexivity.
Defined.

(** X10 at work: the pieces lose the white space around them, the
    no-break space and the ideographic space included. *)
Lemma parseGlobalVerifiers_beyond_ascii :
  parseGlobalVerifiers
    (JStr ("boss," ++ Blank.nbsp ++ "hr" ++ Blank.ideographic ++ ", boss,"))
  = ["boss"; "hr"]
  /\ In "hr"
       (parseGlobalVerifiers
          (JStr ("boss," ++ Blank.nbsp ++ "hr" ++ Blank.ideographic ++ ", boss,"))).
Proof.
  split; [reflexivity|].
  apply (proj1 (proj2 (parseGlobalVerifiers_spec (H := RefHost.host)
                         (JStr ("boss," ++ Blank.nbsp ++ "hr" ++ Blank.ideographic
                                ++ ", boss,"))))).
  split; [discriminate|].
  exists (Blank.nbsp ++ "hr" ++ Blank.ideographic).
  split; [vm_compute; auto | reflexivity].
Defined.

(** X4 at work: the executor submits the pending task, passing the id
    with blanks around it. *)
Lemma submitForVerification_pending :
  exists (w' : World) (t' : Db.TaskRow),
    submitForVerification "boss" Demo.env1 (Demo.world Scene.pending) "sch-5"
      (JStr " exec1 ")
    = (w', Returned {| v_message := "任务已提交验收"; v_task := Some t' |})
    /\ Db.status t' = Some "WAITING_VERIFY"
    /\ Db.completed_by_userid t' = Some "exec1"
    /\ Db.completion_time t' = Some "2026-01-01 00:00:00".
Proof.
  destruct (submitForVerification_spec (H := RefHost.host) "boss" Demo.env1
              (Demo.world Scene.pending) "sch-5" (JStr " exec1 ") Scene.pending
              eq_refl eq_refl ltac:(vm_compute; discriminate) eq_refl)
    as (w' & t' & E & _ & Hst & Hat & Hby & _).
  exists w', t'. repeat split; assumption.
Defined.

(** X5 at work: a global verifier approves the waiting task. *)
Lemma verifyTask_approve_waiting :
  exists (w' : World) (t' : Db.TaskRow),
    verifyTask "boss" Demo.env2 (Demo.world Demo.waiting) "sch-4"
      (JStr "boss") true (JStr "not read")
    = (w', Returned {| v_message := "任务已验收通过"; v_task := Some t' |})
    /\ Db.status t' = Some "COMPLETED"
    /\ Db.verified_by_userid t' = Some "boss"
    /\ Db.reject_reason t' = None.
Proof.
  destruct (verifyTask_approve_spec (H := RefHost.host) "boss" Demo.env2
              (Demo.world Demo.waiting) "sch-4" (JStr "boss") (JStr "not read")
              Demo.waiting eq_refl eq_refl ltac:(vm_compute; discriminate)
              ltac:(right; vm_compute; left; reflexivity))
    as (w' & t' & E & _ & Hst & _ & Hby & Hwhy & _).
  exists w', t'. repeat split; assumption.
Defined.

(** X6 at work: two rounds of submitting and rejecting with a blank
    reason. *)
Lemma rejectRounds_twice :
  exists tn : Db.TaskRow,
    getTaskByScheduleId
      (rejectRounds RefHost.datetime_unixepoch "boss" 2 Scene.envs
         (Demo.world Scene.pending) "sch-5" (JStr "exec1") (JStr "mgr") (JStr "  "))
      "sch-5" = Some tn
    /\ Db.status tn = Some "PENDING"
    /\ redoOf tn = 2
    /\ Db.reject_reason tn = Some "领导驳回".
Proof.
  destruct (rejectRounds_redo_count (H := RefHost.host) RefHost.datetime_unixepoch
              "boss" 2 Scene.envs (Demo.world Scene.pending) "sch-5"
              (JStr "exec1") (JStr "mgr") (JStr "  ") Scene.pending
              eq_refl eq_refl ltac:(vm_compute; discriminate) eq_refl
              ltac:(vm_compute; discriminate) (or_introl eq_refl))
    as (tn & Hg & Hst & Hredo & _ & _ & Hwhy).
  exists tn. split; [exact Hg|]. split; [exact Hst|]. split; [exact Hredo|].
  exact (Hwhy ltac:(discriminate)).
Defined.

(** X8 at work: the task due at ten is due soon at midnight and
    overdue a day later. *)
Lemma reminders_escalate_overnight :
  clock_ms Demo.env1 <= clock_ms Demo.env2
  /\ getReminderKind (Db.row_js Scene.pending) (clock_ms Demo.env1) = DUE_SOON
  /\ (getReminderKind (Db.row_js Scene.pending) (clock_ms Demo.env2) = DUE_SOON
      \/ getReminderKind (Db.row_js Scene.pending) (clock_ms Demo.env2) = OVERDUE).
Proof.
  split; [vm_compute; discriminate|]. split; [reflexivity|].
  exact (proj1 (proj2 (reminders_only_escalate (H := RefHost.host)
                         (Db.row_js Scene.pending) NONE (clock_ms Demo.env1)
                         (clock_ms Demo.env2) 12 ltac:(vm_compute; discriminate)))
           eq_refl).
Defined.

(** X11 at work: three rows, one of each status. *)
Lemma buildTaskKpi_counts_scenario :
  exists kpi : TaskKpi,
    buildTaskKpi
      (JArr [JObj [("status", JStr "PENDING");
                   ("end_time", JStr "2026-01-01T08:00:00.000Z")];
             JObj [("status", JStr "WAITING_VERIFY");
                   ("end_time", JStr "2025-12-31T23:00:00.000Z")];
             JObj [("status", JStr "COMPLETED");
                   ("end_time", JStr "2025-12-31T22:00:00.000Z");
                   ("completion_time", JStr "2025-12-31T21:00:00.000Z")]])
      1767225600000 = Some kpi
    /\ (completed_tasks kpi + waiting_verify_tasks kpi + due_soon_tasks kpi
        <= total_tasks kpi)%nat
    /\ total_tasks kpi = 3%nat.
Proof.
  destruct (buildTaskKpi _ 1767225600000) as [kpi|] eqn:E;
    [|vm_compute in E; discriminate E].
  exists kpi. split; [reflexivity|].
  destruct (buildTaskKpi_counts (H := RefHost.host) _ _ kpi E) as (H1 & _ & _ & _ & H5).
  split; [exact H1 | exact H5].
Defined.

(** X12 at work: an hour after the reminder nothing is sent. *)
Lemma dispatchTaskReminder_within_cooldown :
  sent (snd (dispatchTaskReminder Demo.env1 (Demo.world Scene.pending) Scene.pending))
  = true
  /\ toDateOrNull (JStr (clock_sql Demo.env1)) = Some 1767225600000
  /\ dispatchTaskReminder Scene.hourLater (Demo.world Scene.pending)
       (Db.setReminded "DUE_SOON" "2026-01-01 00:00:00" Scene.pending)
     = (Demo.world Scene.pending, {| sent := false; kind := DUE_SOON |}).
Proof.
  split; [reflexivity|]. split; [reflexivity|].
  exact (proj1 (proj2 (proj2 (dispatchTaskReminder_cooldown (H := RefHost.host)
                                Demo.env1 Scene.hourLater (Demo.world Scene.pending)
                                (Demo.world Scene.pending) Scene.pending 1767225600000
                                eq_refl eq_refl)))
           eq_refl eq_refl).
Defined.

(** X16 at work: one calendar lists a schedule twice and an entry
    without id, the other calendar fails. *)
Lemma syncSchedules_run :
  exists s : Summary.t,
    snd (syncSchedules noJson RefHost.datetime_unixepoch Scene.getScheduleList
           Scene.getSchedule Scene.envAt (newSyncService Scene.penv) Scene.penv
           Demo.emptyWorld)
    = SyncSummary s
    /\ Summary.calendar_count s = 2%nat
    /\ Summary.calendar_failed_count s = 1%nat
    /\ Summary.schedule_count s = 3%nat
    /\ Summary.inserted_count s = 1%nat
    /\ Summary.skipped_count s = 2%nat
    /\ Summary.unique_schedule_count s = 1%nat
    /\ Summary.reminder_sent_count s = 1%nat
    /\ (Summary.inserted_count s + Summary.updated_count s + Summary.skipped_count s
        = Summary.schedule_count s)%nat.
Proof.
  assert (A := syncSchedules_accounting (H := RefHost.host) noJson
                 RefHost.datetime_unixepoch Scene.getScheduleList Scene.getSchedule
                 Scene.envAt (newSyncService Scene.penv) Scene.penv Demo.emptyWorld).
  cbv zeta in A. revert A.
  destruct (snd (syncSchedules noJson RefHost.datetime_unixepoch Scene.getScheduleList
                   Scene.getSchedule Scene.envAt (newSyncService Scene.penv) Scene.penv
                   Demo.emptyWorld)) as [|s|message] eqn:E;
    [vm_compute in E; discriminate E | | vm_compute in E; discriminate E].
  intros (_ & _ & _ & _ & _ & _ & Hsum & _).
  exists s. split; [reflexivity|].
  vm_compute in E. injection E as Es.
  rewrite <- Es in Hsum |- *. do 7 (split; [reflexivity|]). exact Hsum.
Defined.

(** X17 at work: the same run leaves one new PENDING row. *)
Lemma syncSchedules_run_rows :
  storeOk Demo.emptyWorld
  /\ storeOk (fst (syncSchedules noJson RefHost.datetime_unixepoch
                     Scene.getScheduleList Scene.getSchedule Scene.envAt
                     (newSyncService Scene.penv) Scene.penv Demo.emptyWorld))
  /\ map Db.status
       (rows (fst (syncSchedules noJson RefHost.datetime_unixepoch
                     Scene.getScheduleList Scene.getSchedule Scene.envAt
                     (newSyncService Scene.penv) Scene.penv Demo.emptyWorld)))
     = [Some "PENDING"].
Proof.
  split; [exact storeOk_emptyWorld|]. split; [|reflexivity].
  exact (proj1 (proj2 (syncSchedules_keeps_lifecycle (H := RefHost.host) noJson
                         RefHost.datetime_unixepoch Scene.getScheduleList
                         Scene.getSchedule Scene.envAt (newSyncService Scene.penv)
                         Scene.penv Demo.emptyWorld))
           storeOk_emptyWorld).
Defined.

(** X18 at work: the executor presses the button of the card; the key
    arrives in lower case with blanks around it. *)
Lemma handleInteraction_complete :
  storeOk (Demo.world Scene.pending)
  /\ storeOk (fst (handleInteraction "boss" Demo.env1 (Demo.world Scene.pending)
                     Scene.card))
  /\ exists r : VerifyResult,
       snd (handleInteraction "boss" Demo.env1 (Demo.world Scene.pending) Scene.card)
       = Returned r
       /\ option_map Db.status (v_task r) = Some (Some "WAITING_VERIFY").
Proof.
  split; [apply storeOk_world|]. split.
  - exact (proj1 (handleInteraction_spec (H := RefHost.host) (C := RefCase.host)
                    "boss" Demo.env1 (Demo.world Scene.pending) Scene.card
                    (storeOk_world Scene.pending))).
  - eexists. split; reflexivity.
Defined.

(** X19 at work: the same submission by the id of the row. *)
Lemma completeTaskById_pending :
  storeOk (Demo.world Scene.pending)
  /\ snd (completeTaskById "boss" Demo.env1 (Demo.world Scene.pending) 1 (JStr "exec1"))
     = Returned {| v_message := "任务已提交验收";
                   v_task := Some (setSubmitted "exec1" "2026-01-01 00:00:00"
                                     Scene.pending) |}
  /\ match snd (completeTaskById "boss" Demo.env1 (Demo.world Scene.pending) 1
                  (JStr "exec1")) with
     | Thrown _ =>
         fst (completeTaskById "boss" Demo.env1 (Demo.world Scene.pending) 1
                (JStr "exec1")) = Demo.world Scene.pending
     | Returned r =>
         exists t : Db.TaskRow,
           getTaskById (Demo.world Scene.pending) 1 = Some t
           /\ Db.status t = Some TASK_STATUS.PENDING
           /\ v_task r
              = Some (setSubmitted (normalizeText (JStr "exec1")) (clock_sql Demo.env1) t)
     end.
Proof.
  split; [apply storeOk_world|]. split; [reflexivity|].
  exact (proj1 (proj2 (calls_by_id_spec (H := RefHost.host) "boss" Demo.env1
                         (Demo.world Scene.pending) 1 (JStr "exec1") true
                         (JStr EmptyString) (storeOk_world Scene.pending)))).
Defined.

(** X20 at work: a task made by hand for exec1, whose calendar WeCom
    creates the schedule in. *)
Lemma createManualTask_quarterly_plan :
  storeOk Demo.emptyWorld
  /\ storeOk (fst (createManualTask noJson RefCase.datetime_iso Scene.createSchedule
                     1767225600123 "k3f9a2" Scene.penv Demo.env1 Demo.emptyWorld
                     Scene.payload (JStr "mgr")))
  /\ map (fun t => (Db.wecom_schedule_id t, Db.executor_userid t, Db.owner_cal_id t,
                    Db.status t, Db.end_time t))
       (rows (fst (createManualTask noJson RefCase.datetime_iso Scene.createSchedule
                     1767225600123 "k3f9a2" Scene.penv Demo.env1 Demo.emptyWorld
                     Scene.payload (JStr "mgr"))))
     = [(Some "sch-9", Some "exec1", Some "cal-a", Some "PENDING",
         Some "2026-01-03 00:00:00")].
Proof.
  split; [exact storeOk_emptyWorld|]. split; [|reflexivity].
  exact (proj1 (createManualTask_spec (H := RefHost.host) noJson RefCase.datetime_iso
                  Scene.createSchedule 1767225600123 "k3f9a2" Scene.penv Demo.env1
                  Demo.emptyWorld Scene.payload (JStr "mgr") storeOk_emptyWorld)).
Defined.


(** X25 at work: the pairwise form of the documentation. *)
Lemma parseUserCalendarMap_documented_form :
  parseUserCalendarMap noJson (JStr "zhangsan:cal_a,lisi:cal_b")
  = [{| user_id := "zhangsan"; cal_id := "cal_a"; source := "env_map" |};
     {| user_id := "lisi"; cal_id := "cal_b"; source := "env_map" |}].
Proof.
  apply (parseUserCalendarMap_round_trip (H := RefHost.host) noJson Scene.pairs).
  - repeat constructor; try discriminate.
  - repeat constructor; simpl; intuition discriminate.
Defined.

(** X14 at work: a storage row of a user comes after the entry of the
    configuration and wins. *)
Lemma resolveCalendarIdByUser_storage_wins :
  resolveCalendarIdByUser noJson (JStr " lisi ")
    {| defaultCalId := JStr "cal-default";
       userCalendarMapRaw := JStr "zhangsan:cal_a,lisi:cal_b";
       userCalendarRows :=
         JArr [JObj [("user_id", JStr "lisi"); ("cal_id", JStr "cal_db")]] |}
  = "cal_db".
Proof.
  rewrite (proj1 (proj2 (resolveCalendarIdByUser_spec (H := RefHost.host) noJson
                           (JStr " lisi ")
                           {| defaultCalId := JStr "cal-default";
                              userCalendarMapRaw := JStr "zhangsan:cal_a,lisi:cal_b";
                              userCalendarRows :=
                                JArr [JObj [("user_id", JStr "lisi");
                                            ("cal_id", JStr "cal_db")]] |}))
             ltac:(vm_compute; discriminate)).
  reflexivity.
Defined.

(** X22 at work: a state with blanks around it, one after a no-break
    space, and one with a character outside the class. *)
Lemma normalizeLoginState_examples :
  normalizeLoginState (JStr " my-state_1 ") = "my-state_1"
  /\ normalizeLoginState (JStr (Blank.nbsp ++ "abc")) = "abc"
  /\ normalizeLoginState (JStr "a&b=c") = "STATE".
Proof.
  split; [|split].
  - exact (proj1 (proj2 (normalizeLoginState_spec (H := RefHost.host)
                           (JStr " my-state_1 "))) eq_refl).
  - exact (proj1 (proj2 (normalizeLoginState_spec (H := RefHost.host)
                           (JStr (Blank.nbsp ++ "abc")))) eq_refl).
  - reflexivity.
Defined.

(** X23 at work: inside WeCom a query mode that is no mode leads to
    OAUTH although the environment says QR. *)
Lemma resolveAuthLoginMode_unknown_query :
  resolveAuthLoginMode (JStr "popup") (JStr "qr")
    (JStr "Mozilla/5.0 wxwork/4.1.0 MicroMessenger")
  = "OAUTH"
  /\ resolveAuthLoginMode (JStr " ") (JStr "qr")
       (JStr "Mozilla/5.0 wxwork/4.1.0 MicroMessenger")
     = "QR".
Proof.
  split.
  - rewrite (proj1 (proj2 (resolveAuthLoginMode_spec (H := RefHost.host)
                             (C := RefCase.host) (JStr "popup") (JStr "qr")
                             (JStr "Mozilla/5.0 wxwork/4.1.0 MicroMessenger")))
               ltac:(vm_compute; discriminate)).
    reflexivity.
  - reflexivity.
Defined.

(** X24 at work: the redirect URI is encoded, a state that is not
    well formed is replaced. *)
Lemma buildAuthLoginRedirectUrl_oauth :
  buildAuthLoginRedirectUrl (JStr "OAUTH") (JStr "ww123") (JStr "1000002")
    (JStr "https://a.example.com/api/auth/callback") (JStr "x#y&z")
  = "https://open.weixin.qq.com/connect/oauth2/authorize?appid=ww123&redirect_uri=https%3A%2F%2Fa.example.com%2Fapi%2Fauth%2Fcallback&response_type=code&scope=snsapi_base&state=STATE#wechat_redirect".
Proof.
  rewrite (proj1 (proj2 (proj2 (buildAuthLoginRedirectUrl_spec (H := RefHost.host)
                                  (JStr "OAUTH") (JStr "ww123") (JStr "1000002")
                                  (JStr "https://a.example.com/api/auth/callback")
                                  (JStr "x#y&z"))))
             eq_refl).
  reflexivity.
Defined.

End AtWork.
